(** * nanobot orchestration core: message bus, agent loop, subagent manager

    A shallow embedding of
      - nanobot/bus/events.py and nanobot/bus/queue.py,
      - nanobot/providers/litellm_provider.py,
      - nanobot/agent/loop.py, nanobot/agent/subagent.py and
        nanobot/agent/tools/spawn.py,
    with the properties of the design document stated over it.

    Conventions.
      - A Python [str] is a Rocq [string] holding its UTF-8 bytes.  The
        separator [":"] is a single byte that never occurs inside a
        multi-byte sequence, so splitting and searching for it on bytes is
        the same as on code points.  [len] and slices count code points and
        are written out accordingly ([py_len], [py_take]).
      - A raised [Exception] is represented by the text of [str(e)].
        [BaseException]s that are not [Exception]s (task cancellation,
        keyboard interrupt) are outside the model.
      - [await] on a collaborator is a call: one turn of the foreground loop
        and one run of a background task are each modelled as an
        uninterrupted computation on the state they touch.
      - Logging is omitted. *)

From Stdlib Require Import ZArith QArith Ascii String List Lia Bool.
From stdpp Require Import base option list gmap strings fin_maps.

Local Open Scope string_scope.
Local Open Scope list_scope.

(** ** Python primitives *)

Module Py.

(** An exception, by its [str(e)]. *)
Definition exn := string.

(** The outcome of a call that may raise. *)
Inductive result (A : Type) : Type :=
| Ok (a : A)
| Raise (e : exn).
Arguments Ok {A} a.
Arguments Raise {A} e.

Definition is_ok {A} (r : result A) : bool :=
  match r with Ok _ => true | Raise _ => false end.

(** [c in s] for a one-character [c]. *)
Fixpoint contains_char (c : ascii) (s : string) : bool :=
  match s with
  | EmptyString => false
  | String a rest => if Ascii.eqb a c then true else contains_char c rest
  end.

(** [s.split(c, 1)]: the whole string when [c] does not occur, otherwise the
    text before the first [c] and the text after it. *)
Fixpoint split_once (c : ascii) (s : string) : list string :=
  match s with
  | EmptyString => [EmptyString]
  | String a rest =>
      if Ascii.eqb a c then [EmptyString; rest]
      else match split_once c rest with
           | hd :: tl => String a hd :: tl
           | [] => [String a EmptyString]
           end
  end.

(** [parts[i]] on a list: [IndexError] out of range. *)
Definition index {A} (parts : list A) (i : nat) : result A :=
  match parts !! i with
  | Some x => Ok x
  | None => Raise "list index out of range"
  end.

(** A UTF-8 continuation byte, [0b10xxxxxx]. *)
Definition is_continuation (a : ascii) : bool :=
  let n := N_of_ascii a in (128 <=? n)%N && (n <? 192)%N.

(** [len(s)]: the number of code points. *)
Fixpoint py_len (s : string) : nat :=
  match s with
  | EmptyString => 0
  | String a rest => (if is_continuation a then 0 else 1) + py_len rest
  end.

(** [s[:n]]: the first [n] code points (all of [s] when it is shorter). *)
Fixpoint py_take (n : nat) (s : string) : string :=
  match s with
  | EmptyString => EmptyString
  | String a rest =>
      if is_continuation a then String a (py_take n rest)
      else match n with
           | O => EmptyString
           | S n' => String a (py_take n' rest)
           end
  end.

(** [a or b] on strings: the empty string is falsy. *)
Definition str_or (a b : string) : string :=
  match a with EmptyString => b | _ => a end.

(** [a or b] when [a] may be [None]. *)
Definition opt_str_or (a : option string) (b : string) : string :=
  match a with Some s => str_or s b | None => b end.

(** [startswith]. *)
Definition startswith (s pre : string) : bool := String.prefix pre s.

(** [pat in s] for strings. *)
Fixpoint contains (pat s : string) : bool :=
  String.prefix pat s ||
  match s with
  | EmptyString => false
  | String _ rest => contains pat rest
  end.

(** *** Computations with state and exceptions

    [M S A] is a computation on a state [S] that returns an [A] or raises.
    It answers [None] only when a [while] loop was given too little fuel:
    Python has no such outcome, and the theorems show that it does not occur. *)
Definition M (S A : Type) : Type := S -> option (result A * S).

Definition ret {S A} (a : A) : M S A := fun s => Some (Ok a, s).

Definition raise {S A} (e : exn) : M S A := fun s => Some (Raise e, s).

Definition bind {S A B} (m : M S A) (k : A -> M S B) : M S B :=
  fun s =>
    match m s with
    | Some (Ok a, s') => k a s'
    | Some (Raise e, s') => Some (Raise e, s')
    | None => None
    end.

(** [try: body / except Exception as e: handler(e)]. *)
Definition try_except {S A} (body : M S A) (handler : exn -> M S A) : M S A :=
  fun s =>
    match body s with
    | Some (Ok a, s') => Some (Ok a, s')
    | Some (Raise e, s') => handler e s'
    | None => None
    end.

Definition gets {S A} (f : S -> A) : M S A := fun s => Some (Ok (f s), s).

Definition modify {S} (f : S -> S) : M S unit := fun s => Some (Ok tt, f s).

(** A collaborator that returns a value and a new state without raising. *)
Definition call {S A} (f : S -> A * S) : M S A :=
  fun s => let (a, s') := f s in Some (Ok a, s').

(** A call whose outcome is already known. *)
Definition lift {S A} (r : result A) : M S A := fun s => Some (r, s).

Declare Scope py_scope.
Delimit Scope py_scope with py.
Notation "'let*' x ':=' m 'in' k" := (bind m (fun x => k))
  (at level 10, x pattern, m at level 100, k at level 200) : py_scope.

(** [for x in xs: acc = body(acc, x)], threading the loop-carried value. *)
Fixpoint for_each {S A B} (xs : list A) (body : B -> A -> M S B) (acc : B)
  : M S B :=
  match xs with
  | [] => ret acc
  | x :: rest => bind (body acc x) (for_each rest body)
  end.

(** [while cond(st): st, brk = body(st); if brk: break].  One unit of fuel
    pays for one run of the body. *)
Fixpoint while {S St} (fuel : nat) (cond : St -> bool)
    (body : St -> M S (St * bool)) (st : St) : M S St :=
  match fuel with
  | O => if cond st then (fun _ => None) else ret st
  | S fuel' =>
      if cond st then
        bind (body st) (fun r =>
          if r.2 then ret r.1 else while fuel' cond body r.1)
      else ret st
  end.

End Py.


(** ** nanobot/bus/events.py *)

Module Events.

(** [InboundMessage].  [timestamp] (the wall clock at construction) and the
    opaque [metadata] map are not read by the core and are left out. *)
Record InboundMessage : Type := mkInbound {
  in_channel : string;
  sender_id : string;
  in_chat_id : string;
  in_content : string;
  in_media : list string
}.

(** [InboundMessage.session_key]. *)
Definition session_key (m : InboundMessage) : string :=
  in_channel m +:+ ":" +:+ in_chat_id m.

(** [OutboundMessage]; [metadata] is left out as above. *)
Record OutboundMessage : Type := mkOutbound {
  out_channel : string;
  out_chat_id : string;
  out_content : string;
  reply_to : option string;
  out_media : list string
}.

(** [OutboundMessage(channel=.., chat_id=.., content=..)] with the defaults of
    the dataclass. *)
Definition outbound_message (channel chat_id content : string) : OutboundMessage :=
  mkOutbound channel chat_id content None [].

End Events.

(** ** nanobot/bus/queue.py *)

Module Bus.
Import Py Events.
Local Open Scope py_scope.

(** A subscriber callback, by identity.  What it does when called is given by
    [invoke] below. *)
Definition Callback := nat.

(** [MessageBus]: the two FIFO queues (head of the list is the next message
    out), the subscriber table and the dispatcher's flag. *)
Record MessageBus : Type := mkBus {
  inbound : list InboundMessage;
  outbound : list OutboundMessage;
  outbound_subscribers : gmap string (list Callback);
  bus_running : bool
}.

(** [MessageBus.__init__]. *)
Definition new_bus : MessageBus := mkBus [] [] ∅ false.

Definition set_inbound (q : list InboundMessage) (b : MessageBus) :=
  mkBus q (outbound b) (outbound_subscribers b) (bus_running b).
Definition set_outbound (q : list OutboundMessage) (b : MessageBus) :=
  mkBus (inbound b) q (outbound_subscribers b) (bus_running b).
Definition set_subscribers (t : gmap string (list Callback)) (b : MessageBus) :=
  mkBus (inbound b) (outbound b) t (bus_running b).
Definition set_running (r : bool) (b : MessageBus) :=
  mkBus (inbound b) (outbound b) (outbound_subscribers b) r.

(** [publish_inbound]: [Queue.put] on an unbounded queue. *)
Definition publish_inbound (msg : InboundMessage) (b : MessageBus) : MessageBus :=
  set_inbound (inbound b ++ [msg]) b.

(** [publish_outbound]. *)
Definition publish_outbound (msg : OutboundMessage) (b : MessageBus) : MessageBus :=
  set_outbound (outbound b ++ [msg]) b.

(** [consume_inbound]: [None] when the queue is empty, where the coroutine
    stays suspended. *)
Definition consume_inbound (b : MessageBus) : option (InboundMessage * MessageBus) :=
  match inbound b with
  | [] => None
  | m :: rest => Some (m, set_inbound rest b)
  end.

(** [consume_outbound]. *)
Definition consume_outbound (b : MessageBus) : option (OutboundMessage * MessageBus) :=
  match outbound b with
  | [] => None
  | m :: rest => Some (m, set_outbound rest b)
  end.

(** [subscribe_outbound]:
    [[
      if channel not in self._outbound_subscribers:
          self._outbound_subscribers[channel] = []
      self._outbound_subscribers[channel].append(callback)
    ]] *)
Definition subscribe_outbound (channel : string) (callback : Callback)
    (b : MessageBus) : MessageBus :=
  let subs := outbound_subscribers b in
  let subs1 :=
    match subs !! channel with
    | None => <[channel := []]> subs
    | Some _ => subs
    end in
  set_subscribers (alter (fun l => l ++ [callback]) channel subs1) b.

(** [stop]. *)
Definition stop (b : MessageBus) : MessageBus := set_running false b.

Definition inbound_size (b : MessageBus) : nat := length (inbound b).
Definition outbound_size (b : MessageBus) : nat := length (outbound b).

(** What other tasks do to the bus while the dispatcher is suspended in
    [wait_for]. *)
Inductive BusOp : Type :=
| OpPublishInbound (m : InboundMessage)
| OpPublishOutbound (m : OutboundMessage)
| OpSubscribe (channel : string) (callback : Callback)
| OpStop.

Definition apply_op (b : MessageBus) (op : BusOp) : MessageBus :=
  match op with
  | OpPublishInbound m => publish_inbound m b
  | OpPublishOutbound m => publish_outbound m b
  | OpSubscribe ch cb => subscribe_outbound ch cb b
  | OpStop => stop b
  end.

Definition apply_ops (ops : list BusOp) (b : MessageBus) : MessageBus :=
  foldl apply_op b ops.

(** *** Notions for the statements about the bus *)

(** The callbacks that a history of bus operations registered for [channel],
    in registration order. *)
Fixpoint registered (channel : string) (ops : list BusOp) : list Callback :=
  match ops with
  | [] => []
  | OpSubscribe ch cb :: later =>
      if String.eqb ch channel then cb :: registered channel later
      else registered channel later
  | _ :: later => registered channel later
  end.

(** [self._outbound_subscribers.get(channel, [])]. *)
Definition subscribers_for (channel : string) (b : MessageBus) : list Callback :=
  default [] (outbound_subscribers b !! channel).

Section Dispatch.

(** The world the callbacks act on (the chat platforms). *)
Variable Env : Type.

(** [await callback(msg)]: returns, or raises, and changes the world. *)
Variable invoke : Callback -> OutboundMessage -> Env -> result unit * Env.

(** One call of a callback: which one, with which message, and how it ended. *)
Record Invocation : Type := mkInvocation {
  callee : Callback;
  delivered : OutboundMessage;
  outcome : result unit
}.

(** The dispatcher's state: the bus, the callbacks' world, and the record of
    the calls made so far, oldest first. *)
Record DState : Type := mkDState {
  d_bus : MessageBus;
  d_env : Env;
  d_calls : list Invocation
}.

(** [await callback(msg)], recorded. *)
Definition call_callback (cb : Callback) (msg : OutboundMessage) : M DState unit :=
  fun d =>
    let (r, env') := invoke cb msg (d_env d) in
    Some (r, mkDState (d_bus d) env' (d_calls d ++ [mkInvocation cb msg r])).

(** [[
      for callback in subscribers:
          try:
              await callback(msg)
          except Exception as e:
              logger.error(...)
    ]] *)
Definition deliver (subscribers : list Callback) (msg : OutboundMessage)
  : M DState unit :=
  for_each subscribers
    (fun _ cb => try_except (call_callback cb msg) (fun _ => ret tt)) tt.

(** One pass of the body of [while self._running]: [wait_for] answers with the
    head of the outbound queue, or with [TimeoutError] on an empty queue, which
    the outer handler turns into [continue]. *)
Definition dispatch_once : M DState unit :=
  fun d =>
    match consume_outbound (d_bus d) with
    | None => Some (Ok tt, d)
    | Some (msg, b') =>
        let subscribers := default [] (outbound_subscribers b' !! out_channel msg) in
        deliver subscribers msg (mkDState b' (d_env d) (d_calls d))
    end.

Definition d_apply_ops (ops : list BusOp) : M DState unit :=
  modify (fun d => mkDState (apply_ops ops (d_bus d)) (d_env d) (d_calls d)).

(** The loop of [dispatch_outbound], observed over the polls of [schedule]:
    entry [i] lists what other tasks did to the bus before poll [i].  The
    answer is [true] when the loop left through [self._running] being false and
    [false] when the observation ends with the loop still polling. *)
Fixpoint dispatch_loop (schedule : list (list BusOp)) : M DState bool :=
  match schedule with
  | [] => gets (fun d => negb (bus_running (d_bus d)))
  | ops :: later =>
      let* running := gets (fun d => bus_running (d_bus d)) in
      if running then
        let* _ := d_apply_ops ops in
        let* _ := dispatch_once in
        dispatch_loop later
      else ret true
  end.

(** [dispatch_outbound]. *)
Definition dispatch_outbound (schedule : list (list BusOp)) : M DState bool :=
  let* _ := modify (fun d => mkDState (set_running true (d_bus d)) (d_env d) (d_calls d)) in
  dispatch_loop schedule.

(** The calls [deliver] makes, and the world it leaves. *)
Fixpoint deliveries (subscribers : list Callback) (msg : OutboundMessage)
    (env : Env) : list Invocation * Env :=
  match subscribers with
  | [] => ([], env)
  | cb :: later =>
      let (r, env1) := invoke cb msg env in
      let (calls, env2) := deliveries later msg env1 in
      (mkInvocation cb msg r :: calls, env2)
  end.

End Dispatch.

Arguments mkDState {Env}.
Arguments d_bus {Env}.
Arguments d_env {Env}.
Arguments d_calls {Env}.
Arguments call_callback {Env}.
Arguments deliver {Env}.
Arguments dispatch_once {Env}.
Arguments d_apply_ops {Env}.
Arguments dispatch_loop {Env}.
Arguments dispatch_outbound {Env}.
Arguments deliveries {Env}.

End Bus.

(** ** nanobot/providers: the response types and the LiteLLM provider *)

Module Provider.
Import Py.

(** A JSON value, as [json.loads] builds it and [json.dumps] prints it.
    Numbers are kept by their literal. *)
#[local] Unset Elimination Schemes.
Inductive Json : Type :=
| JNull
| JBool (b : bool)
| JNum (literal : string)
| JStr (s : string)
| JArr (items : list Json)
| JObj (members : list (string * Json)).
#[local] Set Elimination Schemes.

(** Modelled from the spec: [ToolCallRequest] of nanobot/providers/base.py,
    which is not among the sources: a tool call has an [id], a [name] and
    structured [arguments]. *)
Record ToolCallRequest : Type := mkToolCall {
  tc_id : string;
  tc_name : string;
  tc_arguments : Json
}.

(** Modelled from the spec: [LLMResponse] of nanobot/providers/base.py, which
    is not among the sources: [content] is a text or absent, and the tool-call
    requests are an ordered list.  [finish_reason] and [usage] are the fields
    the LiteLLM provider fills in. *)
Record LLMResponse : Type := mkResponse {
  content : option string;
  tool_calls : list ToolCallRequest;
  finish_reason : string;
  usage : list (string * Z)
}.

(** Modelled from the spec: the constructor of [LLMResponse] with the
    arguments the sources leave out at their defaults: no tool calls, finish
    reason ["stop"], empty usage. *)
Definition LLMResponse_init (content : option string)
    (tool_calls : option (list ToolCallRequest))
    (finish_reason : option string) (usage : option (list (string * Z)))
  : LLMResponse :=
  mkResponse content (default [] tool_calls) (default "stop" finish_reason)
    (default [] usage).

(** Modelled from the spec: [LLMResponse.has_tool_calls], true when the
    response carries at least one tool call. *)
Definition has_tool_calls (r : LLMResponse) : bool :=
  match tool_calls r with [] => false | _ :: _ => true end.

(** The record [{"id": .., "type": "function", "function": {"name": ..,
    "arguments": ..}}] the loops build for each tool call. *)
Record ToolCallDict : Type := mkToolCallDict {
  tcd_id : string;
  tcd_type : string;
  tcd_function_name : string;
  tcd_function_arguments : string
}.

(** A message of the sequence sent to the model, by the keys of its dict. *)
Inductive ChatMessage : Type :=
| RoleContent (role content : string)
| AssistantCalls (content : string) (calls : list ToolCallDict)
| ToolResult (tool_call_id name content : string).

(** [LLMProvider.chat(messages, tools, model)], as the agent sees it: the
    outcome of call number [i] to the backend (counted from 0 over the life of
    the provider), which may depend on everything sent. *)
Definition LLMProvider : Type :=
  nat -> list ChatMessage -> list Json -> string -> result LLMResponse.

(** A provider that answers by a fixed sequence of responses. *)
Definition scripted (responses : nat -> LLMResponse) : LLMProvider :=
  fun i _ _ _ => Ok (responses i).

(** *** litellm_provider.py *)

(** The object [acompletion] returns, as far as [_parse_response] reads it.
    [fn_arguments] is a JSON text or an already structured value. *)
Inductive RawArguments : Type :=
| ArgText (s : string)
| ArgValue (v : Json).

Record RawToolCall : Type := mkRawToolCall {
  raw_id : string;
  raw_fn_name : string;
  raw_fn_arguments : RawArguments
}.

Record RawMessage : Type := mkRawMessage {
  raw_content : option string;
  raw_tool_calls : option (list RawToolCall)
}.

Record RawChoice : Type := mkRawChoice {
  raw_message : RawMessage;
  raw_finish_reason : option string
}.

Record RawUsage : Type := mkRawUsage {
  prompt_tokens : Z;
  completion_tokens : Z;
  total_tokens : Z
}.

Record RawResponse : Type := mkRawResponse {
  choices : list RawChoice;
  raw_usage : option RawUsage
}.

(** The keyword arguments of [acompletion].  The temperature is passed through
    unchanged, so a rational stands for the float. *)
Record Kwargs : Type := mkKwargs {
  kw_model : string;
  kw_messages : list ChatMessage;
  kw_max_tokens : Z;
  kw_temperature : Q;
  kw_api_base : option string;
  kw_tools : option (list Json);
  kw_tool_choice : option string
}.

(** The fields of a [LiteLLMProvider].  The environment variables and the
    global settings of litellm that [__init__] writes are not modelled. *)
Record LiteLLMProvider : Type := mkLiteLLM {
  api_key : option string;
  api_base : option string;
  default_model : string;
  is_openrouter : bool;
  is_vllm : bool
}.

(** Truth value of a [str | None]. *)
Definition truthy (o : option string) : bool :=
  match o with
  | Some (String _ _) => true
  | _ => false
  end.

(** [LiteLLMProvider.__init__]. *)
Definition LiteLLMProvider_init (api_key api_base : option string)
    (default_model : string) : LiteLLMProvider :=
  let is_openrouter :=
    (truthy api_key && startswith (default "" api_key) "sk-or-")
    || (truthy api_base && contains "openrouter" (default "" api_base)) in
  let is_vllm := truthy api_base && negb is_openrouter in
  mkLiteLLM api_key api_base default_model is_openrouter is_vllm.

(** The three ways a call of [json.loads] ends. *)
Inductive LoadsOutcome : Type :=
| Loaded (v : Json)
| DecodeError
| OtherError (e : exn).

Definition result_bind {A B} (r : result A) (k : A -> result B) : result B :=
  match r with
  | Ok a => k a
  | Raise e => Raise e
  end.

(** [try: body / except Exception as e: handler(e)] without state. *)
Definition result_try {A} (body : result A) (handler : exn -> result A)
  : result A :=
  match body with
  | Ok a => Ok a
  | Raise e => handler e
  end.

Section LiteLLM.

(** [str.lower]. *)
Variable lower : string -> string.

(** [json.loads] on a text: the value read, [json.JSONDecodeError] on a text
    that is not JSON, or another exception ([ValueError] on an integer literal
    longer than the interpreter's digit limit, [RecursionError] on nesting
    deeper than its stack), given by the text of [str(e)]. *)
Variable json_loads : string -> LoadsOutcome.

(** The arguments of one tool call in [_parse_response]:
    [[
      args = tc.function.arguments
      if isinstance(args, str):
          try:
              args = json.loads(args)
          except json.JSONDecodeError:
              args = {"raw": args}
    ]]
    Only [json.JSONDecodeError] is caught; any other exception leaves the
    function. *)
Definition parse_arguments (args : RawArguments) : result Json :=
  match args with
  | ArgText s =>
      match json_loads s with
      | Loaded v => Ok v
      | DecodeError => Ok (JObj [("raw", JStr s)])
      | OtherError e => Raise e
      end
  | ArgValue v => Ok v
  end.

(** The loop [for tc in message.tool_calls: ... tool_calls.append(..)]: the
    calls are read in order and the first exception ends the loop. *)
Fixpoint parse_tool_calls (tcs : list RawToolCall)
  : result (list ToolCallRequest) :=
  match tcs with
  | [] => Ok []
  | tc :: tcs =>
      result_bind (parse_arguments (raw_fn_arguments tc)) (fun args =>
      result_bind (parse_tool_calls tcs) (fun rest =>
      Ok (mkToolCall (raw_id tc) (raw_fn_name tc) args :: rest)))
  end.

(** The exception [parse_tool_calls] ends with, if any: that of the first
    argument text on which [json.loads] raises something other than
    [json.JSONDecodeError]. *)
Fixpoint first_load_error (tcs : list RawToolCall) : option exn :=
  match tcs with
  | [] => None
  | tc :: tcs =>
      match raw_fn_arguments tc with
      | ArgText s =>
          match json_loads s with
          | OtherError e => Some e
          | _ => first_load_error tcs
          end
      | ArgValue _ => first_load_error tcs
      end
  end.

(** [LiteLLMProvider._parse_response].  [response.choices[0]] raises
    [IndexError] on an empty list. *)
Definition _parse_response (response : RawResponse) : result LLMResponse :=
  result_bind (index (choices response) 0) (fun choice =>
    let message := raw_message choice in
    result_bind
      (match raw_tool_calls message with
       | Some (tc :: tcs) => parse_tool_calls (tc :: tcs)
       | _ => Ok []
       end) (fun tool_calls =>
    let usage :=
      match raw_usage response with
      | Some u => [("prompt_tokens", prompt_tokens u);
                   ("completion_tokens", completion_tokens u);
                   ("total_tokens", total_tokens u)]
      | None => []
      end in
    Ok (LLMResponse_init (raw_content message) (Some tool_calls)
          (Some (opt_str_or (raw_finish_reason choice) "stop"))
          (Some usage)))).

(** The model name [chat] sends, after the provider prefixes. *)
Definition resolve_model (self : LiteLLMProvider) (model : option string)
  : string :=
  let model := opt_str_or model (default_model self) in
  let model :=
    if is_openrouter self && negb (startswith model "openrouter/")
    then "openrouter/" +:+ model else model in
  let model :=
    if (contains "glm" (lower model) || contains "zhipu" (lower model))
       && negb (startswith model "zhipu/" || startswith model "zai/"
                || startswith model "openrouter/")
    then "zhipu/" +:+ model else model in
  let model :=
    if is_vllm self then "hosted_vllm/" +:+ model else model in
  if contains "gemini" (lower model) && negb (startswith model "gemini/")
  then "gemini/" +:+ model else model.

(** The keyword arguments [chat] builds. *)
Definition build_kwargs (self : LiteLLMProvider)
    (messages : list ChatMessage) (tools : option (list Json))
    (model : option string) (max_tokens : Z) (temperature : Q) : Kwargs :=
  let has_tools := match tools with Some (_ :: _) => true | _ => false end in
  mkKwargs (resolve_model self model) messages max_tokens temperature
    (if truthy (api_base self) then api_base self else None)
    (if has_tools then tools else None)
    (if has_tools then Some "auto" else None).

(** The [try] block of [chat]:
    [[
      response = await acompletion(model=.., messages=.., ...)
      return self._parse_response(response)
    ]]
    It raises what the request raises and what reading the answer raises. *)
Definition completion (acompletion : Kwargs -> result RawResponse)
    (kwargs : Kwargs) : result LLMResponse :=
  result_bind (acompletion kwargs) _parse_response.

(** [LiteLLMProvider.chat].  [acompletion] gives the outcome of the request
    for the keyword arguments sent. *)
Definition chat (self : LiteLLMProvider)
    (acompletion : Kwargs -> result RawResponse)
    (messages : list ChatMessage) (tools : option (list Json))
    (model : option string) (max_tokens : Z) (temperature : Q)
  : result LLMResponse :=
  let kwargs := build_kwargs self messages tools model max_tokens temperature in
  result_try
    (completion acompletion kwargs)
    (fun e =>
       Ok (LLMResponse_init (Some ("调用 LLM 失败: " +:+ e)) None
             (Some "error") None)).

(** A LiteLLM provider as the agent calls it: [chat(messages=.., tools=..,
    model=..)] with the default [max_tokens] and [temperature]; [backend i]
    is what [acompletion] does on the [i]-th request. *)
Definition as_provider (self : LiteLLMProvider)
    (backend : nat -> Kwargs -> result RawResponse) : LLMProvider :=
  fun i messages tools model =>
    chat self (backend i) messages (Some tools) (Some model) 4096 (7 # 10)%Q.

End LiteLLM.

(** The text [chat] answers with when the request failed with [e]. *)
Definition failure_text (e : exn) : string := "调用 LLM 失败: " +:+ e.

End Provider.

(** ** The state the agent loop and the background tasks run on *)

Module State.
Import Py Events Bus Provider.

(** Modelled from the spec: a message of a [Session] (nanobot/session is not
    among the sources): a role and a text. *)
Record SessionMessage : Type := mkSessionMessage {
  role : string;
  text : string
}.

(** The arguments of one [_run_subagent] coroutine, which is what an entry of
    [SubagentManager._running_tasks] stands for. *)
Record SubagentTask : Type := mkTask {
  task_id : string;
  task : string;
  label : string;
  origin_channel : string;
  origin_chat_id : string
}.

Section WithEnv.

(** Everything outside the process that tools and callbacks act on: the file
    system, the shell, the network. *)
Variable Env : Type.

(** What a tool can reach: the outside world, the bus (the message tool
    publishes on it), the contexts [set_context] stored in the message and
    spawn tools, and the subagent manager with its source of task ids. *)
Record Outside : Type := mkOutside {
  env : Env;
  bus : MessageBus;
  message_context : string * string;
  spawn_context : string * string;
  running_tasks : gmap string SubagentTask;
  uuid_calls : nat
}.

(** The whole state: what tools reach, the sessions of the session manager
    (Modelled from the spec: an ordered, append-only list of messages per
    session key), the number of calls made to the model so far, and
    [AgentLoop._running]. *)
Record World : Type := mkWorld {
  outside : Outside;
  sessions : gmap string (list SessionMessage);
  model_calls : nat;
  agent_running : bool
}.

End WithEnv.

Arguments mkOutside {Env}.
Arguments env {Env}.
Arguments bus {Env}.
Arguments message_context {Env}.
Arguments spawn_context {Env}.
Arguments running_tasks {Env}.
Arguments uuid_calls {Env}.
Arguments mkWorld {Env}.
Arguments outside {Env}.
Arguments sessions {Env}.
Arguments model_calls {Env}.
Arguments agent_running {Env}.

Section Updates.
Context {Env : Type}.

Definition set_bus (b : MessageBus) (o : Outside Env) : Outside Env :=
  mkOutside (env o) b (message_context o) (spawn_context o)
    (running_tasks o) (uuid_calls o).
Definition set_message_context (c : string * string) (o : Outside Env) :=
  mkOutside (env o) (bus o) c (spawn_context o) (running_tasks o) (uuid_calls o).
Definition set_spawn_context (c : string * string) (o : Outside Env) :=
  mkOutside (env o) (bus o) (message_context o) c (running_tasks o) (uuid_calls o).
Definition set_running_tasks (t : gmap string SubagentTask) (o : Outside Env) :=
  mkOutside (env o) (bus o) (message_context o) (spawn_context o) t (uuid_calls o).
Definition set_uuid_calls (n : nat) (o : Outside Env) :=
  mkOutside (env o) (bus o) (message_context o) (spawn_context o)
    (running_tasks o) n.

Definition set_outside (o : Outside Env) (w : World Env) : World Env :=
  mkWorld o (sessions w) (model_calls w) (agent_running w).
Definition set_sessions (s : gmap string (list SessionMessage)) (w : World Env) :=
  mkWorld (outside w) s (model_calls w) (agent_running w).
Definition set_model_calls (n : nat) (w : World Env) :=
  mkWorld (outside w) (sessions w) n (agent_running w).
Definition set_agent_running (r : bool) (w : World Env) :=
  mkWorld (outside w) (sessions w) (model_calls w) r.

(** A computation on what tools reach, run on the whole state. *)
Definition on_outside {A} (f : Outside Env -> A * Outside Env) : M (World Env) A :=
  call (fun w => let (a, o) := f (outside w) in (a, set_outside o w)).

(** [await self.provider.chat(messages=.., tools=.., model=..)]. *)
Definition provider_chat (provider : LLMProvider)
    (messages : list ChatMessage) (tools : list Json) (model : string)
  : M (World Env) LLMResponse :=
  fun w =>
    Some (provider (model_calls w) messages tools model,
          set_model_calls (S (model_calls w)) w).

(** [await self.bus.publish_outbound(msg)]. *)
Definition bus_publish_outbound (msg : OutboundMessage) : M (World Env) unit :=
  modify (fun w =>
    set_outside (set_bus (publish_outbound msg (bus (outside w))) (outside w)) w).

(** [await self.bus.publish_inbound(msg)]. *)
Definition bus_publish_inbound (msg : InboundMessage) : M (World Env) unit :=
  modify (fun w =>
    set_outside (set_bus (publish_inbound msg (bus (outside w))) (outside w)) w).

(** What a tool-calling loop leaves alone: the sessions and the flag of the
    agent loop. *)
Definition same_private (w w' : World Env) : Prop :=
  sessions w' = sessions w /\ agent_running w' = agent_running w.

(** The state [run] hands to [_process_message] after taking [msg] from the
    queue. *)
Definition taken (b' : MessageBus) (w : World Env) : World Env :=
  set_outside (set_bus b' (outside w)) w.

(** The state after a reply was published. *)
Definition published (reply : OutboundMessage) (w : World Env) : World Env :=
  set_outside (set_bus (publish_outbound reply (bus (outside w))) (outside w)) w.

(** The state after an announcement was published. *)
Definition announced (m : InboundMessage) (w : World Env) : World Env :=
  set_outside (set_bus (publish_inbound m (bus (outside w))) (outside w)) w.

End Updates.

End State.

(** ** The tool registry *)

Module Tools.
Import Py Provider State.

(** The tool classes whose modules are not among the sources. *)
Inductive ExternalTool : Type :=
| ReadFileTool | WriteFileTool | EditFileTool | ListDirTool
| ExecTool | WebSearchTool | WebFetchTool.

(** The tool classes the loops register. *)
Inductive Tool : Type :=
| External (t : ExternalTool)
| MessageTool
| SpawnTool.

(** What the sources leave open about tools: the names the external tool
    classes declare, the schema each tool advertises, what running a tool
    does, and the text the registry answers for an unknown name. *)
Class ToolSet (Env : Type) : Type := {
  external_name : ExternalTool -> string;
  definition : Tool -> Json;
  run_tool : Tool -> Json -> Outside Env -> string * Outside Env;
  not_found : string -> string
}.

Section Registry.
Context {Env : Type} `{ToolSet Env}.

(** [Tool.name]: ["spawn"] is [SpawnTool.name] in spawn.py; ["message"] is the
    name under which loop.py looks the message tool up. *)
Definition tool_name (t : Tool) : string :=
  match t with
  | External e => external_name e
  | MessageTool => "message"
  | SpawnTool => "spawn"
  end.

(** Modelled from the spec: [ToolRegistry] of nanobot/agent/tools/registry.py,
    which is not among the sources: a map from tool names to tools;
    [register] adds a tool under its declared name, the last registration for a
    name winning. *)
Definition register (t : Tool) (reg : gmap string Tool) : gmap string Tool :=
  <[tool_name t := t]> reg.

(** Modelled from the spec: [ToolRegistry.get], the registered tool or a
    not-found indication. *)
Definition get (name : string) (reg : gmap string Tool) : option Tool :=
  reg !! name.

(** Modelled from the spec: [ToolRegistry.get_definitions], the advertised
    schema of every registered tool. *)
Definition get_definitions (reg : gmap string Tool) : list Json :=
  map (fun p => definition p.2) (map_to_list reg).

(** Modelled from the spec: [ToolRegistry.execute] looks the tool up and runs
    it; an unknown name or a failure of the tool comes back as a text, never as
    an exception. *)
Definition execute (reg : gmap string Tool) (name : string) (args : Json)
  : M (World Env) string :=
  match get name reg with
  | Some t => on_outside (run_tool t args)
  | None => ret (not_found name)
  end.

(** The registry after registering [ts] in order on an empty [ToolRegistry()]. *)
Definition registry_of (ts : list Tool) : gmap string Tool :=
  foldl (fun reg t => register t reg) ∅ ts.

End Registry.

End Tools.

(** ** The tool-calling loop shared by loop.py and subagent.py *)

Module ToolLoop.
Import Py Provider State Tools.
Local Open Scope py_scope.

(** [json.dumps]. *)
Class JsonLib : Type := { json_dumps : Json -> string }.

(** The variables the loop carries from one pass to the next. *)
Record LoopState : Type := mkLoop {
  iteration : Z;
  final : option string;
  messages : list ChatMessage
}.

(** The test of the [while] loop, [iteration < max_iterations]. *)
Definition cond (max_iterations : Z) (st : LoopState) : bool :=
  (iteration st <? max_iterations)%Z.

(** The passes the loop can still make from a state. *)
Definition remaining (max_iterations : Z) (st : LoopState) : nat :=
  Z.to_nat (max_iterations - iteration st).

Section Loop.
Context {Env : Type} `{ToolSet Env} `{JsonLib}.

(** One entry of [tool_call_dicts]. *)
Definition tool_call_dict (tc : ToolCallRequest) : ToolCallDict :=
  mkToolCallDict (tc_id tc) "function" (tc_name tc)
    (json_dumps (tc_arguments tc)).

Variable provider : LLMProvider.
Variable model : string.
Variable tools : gmap string Tool.

(** How the assistant turn and a tool result are added to the sequence: the
    context builder's methods in loop.py, [messages.append] in subagent.py. *)
Variable add_assistant :
  list ChatMessage -> option string -> list ToolCallDict -> list ChatMessage.
Variable add_result :
  list ChatMessage -> string -> string -> string -> list ChatMessage.

(** The body of the [while] loop, from [iteration += 1] on.  The answer says
    whether the body left through [break].
    [[
      iteration += 1
      response = await self.provider.chat(messages=messages,
          tools=self.tools.get_definitions(), model=self.model)
      if response.has_tool_calls:
          tool_call_dicts = [...]
          messages = add_assistant(messages, response.content, tool_call_dicts)
          for tool_call in response.tool_calls:
              result = await self.tools.execute(tool_call.name, tool_call.arguments)
              messages = add_result(messages, tool_call.id, tool_call.name, result)
      else:
          final_content = response.content
          break
    ]] *)
Definition iterate (st : LoopState) : M (World Env) (LoopState * bool) :=
  let iteration := (iteration st + 1)%Z in
  let* response := provider_chat provider (messages st) (get_definitions tools) model in
  if has_tool_calls response then
    let tool_call_dicts := map tool_call_dict (tool_calls response) in
    let messages := add_assistant (messages st) (content response) tool_call_dicts in
    let* messages :=
      for_each (tool_calls response)
        (fun messages tool_call =>
           let* result := execute tools (tc_name tool_call) (tc_arguments tool_call) in
           ret (add_result messages (tc_id tool_call) (tc_name tool_call) result))
        messages in
    ret (mkLoop iteration (final st) messages, false)
  else
    ret (mkLoop iteration (content response) (messages st), true).

(** [iteration = 0; final_content = None; while iteration < max_iterations: ...]
    with fuel for [fuel] runs of the body. *)
Definition tool_loop (fuel : nat) (max_iterations : Z)
    (messages : list ChatMessage) : M (World Env) LoopState :=
  while fuel (cond max_iterations) iterate (mkLoop 0 None messages).

End Loop.

End ToolLoop.

(** ** nanobot/agent/subagent.py and nanobot/agent/tools/spawn.py *)

Module Subagent.
Import Py Events Bus Provider State Tools ToolLoop.
Local Open Scope py_scope.

(** [str(uuid.uuid4())] of draw number [i]. *)
Class Entropy : Type := { uuid4_str : nat -> string }.

(** The fields of a [SubagentManager] that are fixed at construction.  The
    bus and [_running_tasks] are in the state; [brave_api_key] only configures
    a tool. *)
Record SubagentManager : Type := mkManager {
  sa_provider : LLMProvider;
  sa_workspace : string;
  sa_model : string
}.

Definition nl : string := String "010"%char EmptyString.
Definition dquote : string := String "034"%char EmptyString.

(** [SubagentManager._build_subagent_prompt]. *)
Definition _build_subagent_prompt (self : SubagentManager) (task : string) : string :=
  "# 子代理" +:+ nl +:+ nl +:+
  "你是主 Agent 派生的子代理，负责完成特定任务。" +:+ nl +:+ nl +:+
  "## 你的任务" +:+ nl +:+
  task +:+ nl +:+ nl +:+
  "## 行为规则" +:+ nl +:+
  "1. 保持专注 - 只完成分配的任务，不做其他事情" +:+ nl +:+
  "2. 你的最终响应会报告给主 Agent" +:+ nl +:+
  "3. 不要主动发起对话或承担额外任务" +:+ nl +:+
  "4. 发现要简洁但信息丰富" +:+ nl +:+ nl +:+
  "## 你可以做的" +:+ nl +:+
  "- 读取和写入工作区文件" +:+ nl +:+
  "- 执行 Shell 命令" +:+ nl +:+
  "- 搜索网页和抓取网页内容" +:+ nl +:+
  "- 彻底完成任务" +:+ nl +:+ nl +:+
  "## 你不能做的" +:+ nl +:+
  "- 直接发送消息给用户（无消息工具）" +:+ nl +:+
  "- 创建其他子代理（无 spawn 工具）" +:+ nl +:+
  "- 访问主 Agent 的对话历史" +:+ nl +:+ nl +:+
  "## 工作区" +:+ nl +:+
  "你的工作区位于: " +:+ sa_workspace self +:+ nl +:+ nl +:+
  "完成任务后，清晰总结你的发现或操作。".

(** The chat id of an announcement: [f"{origin['channel']}:{origin['chat_id']}"]. *)
Definition encode_origin (origin_channel origin_chat_id : string) : string :=
  origin_channel +:+ ":" +:+ origin_chat_id.

(** The text of an announcement. *)
Definition announce_content (label task result status : string) : string :=
  let status_text := if String.eqb status "ok" then "成功完成" else "失败" in
  "[子代理 '" +:+ label +:+ "' " +:+ status_text +:+ "]" +:+ nl +:+ nl +:+
  "任务: " +:+ task +:+ nl +:+ nl +:+
  "结果:" +:+ nl +:+
  result +:+ nl +:+ nl +:+
  "请用自然语言向用户总结这个结果。保持简洁（1-2句话），不要提及" +:+ dquote +:+
  "子代理" +:+ dquote +:+ "或任务ID等技术细节。".

(** The message [_announce_result] builds. *)
Definition announcement (label task result : string)
    (origin : string * string) (status : string) : InboundMessage :=
  mkInbound "system" "subagent" (encode_origin origin.1 origin.2)
    (announce_content label task result status) [].

(** The arguments of one call of [spawn]. *)
Record SpawnRequest : Type := mkRequest {
  req_task : string;
  req_label : option string;
  req_channel : string;
  req_chat_id : string
}.

Section Manager.
Context {Env : Type} `{ToolSet Env} `{JsonLib} `{Entropy}.

(** [SubagentManager._announce_result]. *)
Definition _announce_result (task_id label task result : string)
    (origin : string * string) (status : string) : M (World Env) unit :=
  bus_publish_inbound (announcement label task result origin status).

(** The tools [_run_subagent] registers, in order. *)
Definition subagent_tools : list Tool :=
  [External ReadFileTool; External WriteFileTool; External ListDirTool;
   External ExecTool; External WebSearchTool; External WebFetchTool].

(** [messages.append({"role": "assistant", "content": response.content or "",
    "tool_calls": tool_call_dicts})]. *)
Definition append_assistant (messages : list ChatMessage)
    (content : option string) (dicts : list ToolCallDict) : list ChatMessage :=
  messages ++ [AssistantCalls (opt_str_or content "") dicts].

(** [messages.append({"role": "tool", "tool_call_id": .., "name": ..,
    "content": result})]. *)
Definition append_result (messages : list ChatMessage)
    (tool_call_id name result : string) : list ChatMessage :=
  messages ++ [ToolResult tool_call_id name result].

(** The iteration bound of a subagent. *)
Definition subagent_max_iterations : Z := 15.

(** The [try] block of [_run_subagent]. *)
Definition subagent_body (self : SubagentManager)
    (task_id task label : string) (origin : string * string)
  : M (World Env) unit :=
  let tools := registry_of subagent_tools in
  let system_prompt := _build_subagent_prompt self task in
  let messages := [RoleContent "system" system_prompt; RoleContent "user" task] in
  let max_iterations := subagent_max_iterations in
  let* st :=
    tool_loop (sa_provider self) (sa_model self) tools
      append_assistant append_result
      (Z.to_nat max_iterations) max_iterations messages in
  let final_result := default "任务已完成，但未生成最终响应。" (final st) in
  _announce_result task_id label task final_result origin "ok".

(** [SubagentManager._run_subagent]. *)
Definition _run_subagent (self : SubagentManager)
    (task_id task label : string) (origin : string * string)
  : M (World Env) unit :=
  try_except
    (subagent_body self task_id task label origin)
    (fun e =>
       let error_msg := "错误: " +:+ e in
       _announce_result task_id label task error_msg origin "error").

(** [SubagentManager.spawn].  The coroutine is created, not run: the new entry
    of [_running_tasks] holds its arguments. *)
Definition spawn (task : string) (label : option string)
    (origin_channel origin_chat_id : string) (o : Outside Env)
  : string * Outside Env :=
  let task_id := py_take 8 (uuid4_str (uuid_calls o)) in
  let display_label :=
    opt_str_or label
      (py_take 30 task +:+ (if (30 <? py_len task)%nat then "..." else "")) in
  let bg_task := mkTask task_id task display_label origin_channel origin_chat_id in
  let o := set_uuid_calls (S (uuid_calls o)) o in
  let o := set_running_tasks (<[task_id := bg_task]> (running_tasks o)) o in
  ("子代理 [" +:+ display_label +:+ "] 已启动 (ID: " +:+ task_id +:+
   ")。完成后我会通知你。", o).

(** The done callback [lambda _: self._running_tasks.pop(task_id, None)]. *)
Definition task_done (task_id : string) (o : Outside Env) : Outside Env :=
  set_running_tasks (delete task_id (running_tasks o)) o.

(** A background task running to its end: the coroutine, then its done
    callback. *)
Definition run_task (self : SubagentManager) (t : SubagentTask)
  : M (World Env) unit :=
  let* _ := _run_subagent self (task_id t) (task t) (label t)
              (origin_channel t, origin_chat_id t) in
  modify (fun w => set_outside (task_done (task_id t) (outside w)) w).

(** [SubagentManager.get_running_count]. *)
Definition get_running_count (o : Outside Env) : nat := size (running_tasks o).

(** [SpawnTool.set_context]. *)
Definition SpawnTool_set_context (channel chat_id : string) (o : Outside Env) :=
  set_spawn_context (channel, chat_id) o.

(** [SpawnTool.execute]. *)
Definition SpawnTool_execute (task : string) (label : option string)
    (o : Outside Env) : string * Outside Env :=
  spawn task label (spawn_context o).1 (spawn_context o).2 o.

(** The id the next [spawn] allocates. *)
Definition allocated_id (o : Outside Env) : string :=
  py_take 8 (uuid4_str (uuid_calls o)).

(** The ids of [k] calls of [spawn], the first of which makes draw [n]. *)
Definition drawn_ids (n k : nat) : list string :=
  map (fun i => py_take 8 (uuid4_str i)) (seq n k).

(** The state one call of [spawn] leaves. *)
Definition spawn_one (o : Outside Env) (r : SpawnRequest) : Outside Env :=
  (spawn (req_task r) (req_label r) (req_channel r) (req_chat_id r) o).2.

(** Calls of [spawn] one after the other, none of the tasks having finished. *)
Definition spawn_all (reqs : list SpawnRequest) (o : Outside Env) : Outside Env :=
  foldl spawn_one o reqs.

End Manager.

End Subagent.

(** ** nanobot/agent/loop.py *)

Module Agent.
Import Py Events Bus Provider State Tools ToolLoop Subagent.
Local Open Scope py_scope.

(** The context builder (nanobot/agent/context.py is not among the sources):
    its three methods, as functions of their arguments. *)
Class ContextBuilder : Type := {
  build_messages :
    list SessionMessage -> string -> option (list string) -> list ChatMessage;
  add_assistant_message :
    list ChatMessage -> option string -> list ToolCallDict -> list ChatMessage;
  add_tool_result :
    list ChatMessage -> string -> string -> string -> list ChatMessage
}.

(** [Session.get_history]: what the session hands out of its stored messages. *)
Class SessionView : Type := {
  get_history : list SessionMessage -> list SessionMessage
}.

(** The fields of an [AgentLoop] that are fixed at construction. *)
Record AgentLoop : Type := mkAgent {
  provider : LLMProvider;
  model : string;
  max_iterations : Z;
  tools : gmap string Tool
}.

(** The default of [max_iterations] in [AgentLoop.__init__]. *)
Definition default_max_iterations : Z := 20.

(** The fallback answers of the two kinds of turn. *)
Definition fallback_content : string := "处理完成，但没有生成响应。".
Definition system_fallback_content : string := "后台任务已完成。".

(** The origin a system message's [chat_id] stands for:
    [[
      if ":" in msg.chat_id:
          parts = msg.chat_id.split(":", 1)
          origin_channel = parts[0]
          origin_chat_id = parts[1]
      else:
          origin_channel = "cli"
          origin_chat_id = msg.chat_id
    ]] *)
Definition parse_origin (chat_id : string) : result (string * string) :=
  if contains_char ":" chat_id then
    let parts := split_once ":" chat_id in
    match index parts 0 with
    | Ok origin_channel =>
        match index parts 1 with
        | Ok origin_chat_id => Ok (origin_channel, origin_chat_id)
        | Raise e => Raise e
        end
    | Raise e => Raise e
    end
  else Ok ("cli", chat_id).

Section Loop.
Context {Env : Type} `{ToolSet Env} `{JsonLib} `{Entropy}
        `{ContextBuilder} `{SessionView}.

(** [AgentLoop._register_default_tools]: the tools in registration order. *)
Definition default_tools : list Tool :=
  [External ReadFileTool; External WriteFileTool; External EditFileTool;
   External ListDirTool; External ExecTool; External WebSearchTool;
   External WebFetchTool; MessageTool; SpawnTool].

(** [AgentLoop.__init__], with the model name already resolved. *)
Definition AgentLoop_init (provider : LLMProvider) (model : string)
    (max_iterations : Z) : AgentLoop :=
  mkAgent provider model max_iterations (registry_of default_tools).

(** Modelled from the spec: [SessionManager.get_or_create], the session stored
    under the key, created empty when there is none.  The session is handed out
    by reference: the key stands for it. *)
Definition get_or_create (key : string) : M (World Env) string :=
  let* _ := modify (fun w =>
    match sessions w !! key with
    | Some _ => w
    | None => set_sessions (<[key := []]> (sessions w)) w
    end) in
  ret key.

(** [session.get_history()]. *)
Definition session_history (session : string) : M (World Env) (list SessionMessage) :=
  gets (fun w => get_history (default [] (sessions w !! session))).

(** Modelled from the spec: [Session.add_message(role, content)] appends one
    message to the session. *)
Definition add_message (session role content : string) : M (World Env) unit :=
  modify (fun w =>
    set_sessions
      (alter (fun l => l ++ [mkSessionMessage role content]) session (sessions w)) w).

(** Modelled from the spec: [SessionManager.save] makes the session durable;
    the store in memory is unchanged.  A failure of the storage is not
    modelled. *)
Definition save (session : string) : M (World Env) unit := ret tt.

(** The two [set_context] updates at the start of a turn:
    [[
      message_tool = self.tools.get("message")
      if isinstance(message_tool, MessageTool):
          message_tool.set_context(channel, chat_id)
      spawn_tool = self.tools.get("spawn")
      if isinstance(spawn_tool, SpawnTool):
          spawn_tool.set_context(channel, chat_id)
    ]] *)
Definition update_tool_contexts (self : AgentLoop) (channel chat_id : string)
  : M (World Env) unit :=
  let* _ :=
    match get "message" (tools self) with
    | Some MessageTool =>
        modify (fun w => set_outside (set_message_context (channel, chat_id) (outside w)) w)
    | _ => ret tt
    end in
  match get "spawn" (tools self) with
  | Some SpawnTool =>
      modify (fun w => set_outside (SpawnTool_set_context channel chat_id (outside w)) w)
  | _ => ret tt
  end.

(** The loop of a foreground turn, with the context builder adding the
    messages.  The fuel pays for [max_iterations] runs of the body, which is
    all the test of the loop lets through. *)
Definition agent_loop (self : AgentLoop) (messages : list ChatMessage)
  : M (World Env) LoopState :=
  tool_loop (provider self) (model self) (tools self)
    add_assistant_message add_tool_result
    (Z.to_nat (max_iterations self)) (max_iterations self) messages.

(** [AgentLoop._process_system_message]. *)
Definition _process_system_message (self : AgentLoop) (msg : InboundMessage)
  : M (World Env) (option OutboundMessage) :=
  let* origin := lift (parse_origin (in_chat_id msg)) in
  let origin_channel := origin.1 in
  let origin_chat_id := origin.2 in
  let session_key := origin_channel +:+ ":" +:+ origin_chat_id in
  let* session := get_or_create session_key in
  let* _ := update_tool_contexts self origin_channel origin_chat_id in
  let* history := session_history session in
  let messages := build_messages history (in_content msg) None in
  let* st := agent_loop self messages in
  let final_content := default system_fallback_content (final st) in
  let* _ := add_message session "user"
              ("[系统: " +:+ sender_id msg +:+ "] " +:+ in_content msg) in
  let* _ := add_message session "assistant" final_content in
  let* _ := save session in
  ret (Some (outbound_message origin_channel origin_chat_id final_content)).

(** [AgentLoop._process_message]. *)
Definition _process_message (self : AgentLoop) (msg : InboundMessage)
  : M (World Env) (option OutboundMessage) :=
  if String.eqb (in_channel msg) "system" then _process_system_message self msg
  else
    let* session := get_or_create (session_key msg) in
    let* _ := update_tool_contexts self (in_channel msg) (in_chat_id msg) in
    let* history := session_history session in
    let messages :=
      build_messages history (in_content msg)
        (match in_media msg with [] => None | _ :: _ => Some (in_media msg) end) in
    let* st := agent_loop self messages in
    let final_content := default fallback_content (final st) in
    let* _ := add_message session "user" (in_content msg) in
    let* _ := add_message session "assistant" final_content in
    let* _ := save session in
    ret (Some (outbound_message (in_channel msg) (in_chat_id msg) final_content)).

(** [AgentLoop.process_direct].  The [session_key] argument is not used by the
    source. *)
Definition process_direct (self : AgentLoop) (content session_key : string)
  : M (World Env) string :=
  let msg := mkInbound "cli" "user" "direct" content [] in
  let* response := _process_message self msg in
  ret (match response with Some r => out_content r | None => "" end).

(** The message the handler of [run] publishes. *)
Definition error_reply (msg : InboundMessage) (e : exn) : OutboundMessage :=
  outbound_message (in_channel msg) (in_chat_id msg) ("抱歉，发生了错误: " +:+ e).

(** One pass of the body of [while self._running] in [run]: [wait_for] answers
    with the head of the inbound queue, or with [TimeoutError] on an empty
    queue, which the outer handler turns into [continue]. *)
Definition run_once (self : AgentLoop) : M (World Env) unit :=
  let* polled := gets (fun w => consume_inbound (bus (outside w))) in
  match polled with
  | None => ret tt
  | Some (msg, b') =>
      let* _ := modify (fun w => set_outside (set_bus b' (outside w)) w) in
      try_except
        (let* response := _process_message self msg in
         match response with
         | Some r => bus_publish_outbound r
         | None => ret tt
         end)
        (fun e => bus_publish_outbound (error_reply msg e))
  end.

(** What other tasks do while [run] is suspended in [wait_for]. *)
Inductive AgentEvent : Type :=
| Arrives (m : InboundMessage)
| StopRequested.

Definition apply_event (w : World Env) (ev : AgentEvent) : World Env :=
  match ev with
  | Arrives m =>
      set_outside (set_bus (publish_inbound m (bus (outside w))) (outside w)) w
  | StopRequested => set_agent_running false w
  end.

(** The loop of [run], observed over the polls of [schedule]: entry [i] lists
    what other tasks did before poll [i].  The answer is [true] when the loop
    left through [self._running] being false and [false] when the observation
    ends with the loop still polling. *)
Fixpoint run_loop (self : AgentLoop) (schedule : list (list AgentEvent))
  : M (World Env) bool :=
  match schedule with
  | [] => gets (fun w => negb (agent_running w))
  | events :: later =>
      let* running := gets agent_running in
      if running then
        let* _ := modify (fun w => foldl apply_event w events) in
        let* _ := run_once self in
        run_loop self later
      else ret true
  end.

(** [AgentLoop.run]. *)
Definition run (self : AgentLoop) (schedule : list (list AgentEvent))
  : M (World Env) bool :=
  let* _ := modify (set_agent_running true) in
  run_loop self schedule.

(** [AgentLoop.stop]. *)
Definition stop (w : World Env) : World Env := set_agent_running false w.

(** *** Notions for the statements about turns *)

(** The part the two kinds of turn have in common, from the session lookup
    on: [_process_message] runs it with the message's own channel and chat id,
    [_process_system_message] with the parsed origin. *)
Definition turn (self : AgentLoop) (key channel chat_id content : string)
    (media : option (list string)) (user_text fallback : string)
  : M (World Env) (option OutboundMessage) :=
  let* session := get_or_create key in
  let* _ := update_tool_contexts self channel chat_id in
  let* history := session_history session in
  let messages := build_messages history content media in
  let* st := agent_loop self messages in
  let final_content := default fallback (final st) in
  let* _ := add_message session "user" user_text in
  let* _ := add_message session "assistant" final_content in
  let* _ := save session in
  ret (Some (outbound_message channel chat_id final_content)).

(** [msg.channel == "system"]. *)
Definition is_system (msg : InboundMessage) : bool :=
  String.eqb (in_channel msg) "system".

(** Where the reply of a turn is routed. *)
Definition reply_route (msg : InboundMessage) : string * string :=
  if is_system msg then
    match parse_origin (in_chat_id msg) with
    | Ok origin => origin
    | Raise _ => ("cli", in_chat_id msg)
    end
  else (in_channel msg, in_chat_id msg).

(** The key of the session a turn resolves. *)
Definition turn_key (msg : InboundMessage) : string :=
  (reply_route msg).1 +:+ ":" +:+ (reply_route msg).2.

(** The text stored under the role ["user"]. *)
Definition turn_user_text (msg : InboundMessage) : string :=
  if is_system msg
  then "[系统: " +:+ sender_id msg +:+ "] " +:+ in_content msg
  else in_content msg.

(** The fallback text of the kind of turn [msg] starts. *)
Definition turn_fallback (msg : InboundMessage) : string :=
  if is_system msg then system_fallback_content else fallback_content.

(** The origin [_process_system_message] works with. *)
Definition system_route (msg : InboundMessage) : string * string :=
  match parse_origin (in_chat_id msg) with
  | Ok origin => origin
  | Raise _ => ("cli", in_chat_id msg)
  end.

(** The sessions after [get_or_create]. *)
Definition ensured (key : string) (s : gmap string (list SessionMessage))
  : gmap string (list SessionMessage) :=
  match s !! key with
  | Some _ => s
  | None => <[key := []]> s
  end.

End Loop.

End Agent.

(** ** nanobot/cli/commands.py: the callbacks of the gateway *)

Module Cli.
Import Py Events Bus Provider State Tools ToolLoop Subagent Agent.
Local Open Scope py_scope.

(** The fields of a cron job that [on_cron_job] reads (nanobot/cron/types.py
    is not among the sources): [job.id] and, of [job.payload], [message],
    [deliver], [to] and [channel]. *)
Record CronPayload : Type := mkCronPayload {
  cron_message : string;
  cron_deliver : bool;
  cron_to : option string;
  cron_channel : option string
}.

Record CronJob : Type := mkCronJob {
  job_id : string;
  job_payload : CronPayload
}.

Section Gateway.
Context {Env : Type} `{ToolSet Env} `{JsonLib} `{Entropy}
        `{ContextBuilder} `{SessionView}.

(** [on_cron_job] of [gateway]:
    [[
      response = await agent.process_direct(job.payload.message,
                                            session_key=f"cron:{job.id}")
      if job.payload.deliver and job.payload.to:
          await bus.publish_outbound(OutboundMessage(
              channel=job.payload.channel or "whatsapp",
              chat_id=job.payload.to, content=response or ""))
      return response
    ]] *)
Definition on_cron_job (agent : AgentLoop) (job : CronJob)
  : M (World Env) string :=
  let payload := job_payload job in
  let* response :=
    process_direct agent (cron_message payload) ("cron:" +:+ job_id job) in
  let* _ :=
    if cron_deliver payload && truthy (cron_to payload) then
      bus_publish_outbound
        (outbound_message (opt_str_or (cron_channel payload) "whatsapp")
           (default "" (cron_to payload)) (str_or response ""))
    else ret tt in
  ret response.

(** [on_heartbeat] of [gateway]. *)
Definition on_heartbeat (agent : AgentLoop) (prompt : string)
  : M (World Env) string :=
  process_direct agent prompt "heartbeat".

End Gateway.

End Cli.

(** ** Notions for the further statements *)

Module Notions.
Import Py Events Bus Provider State Tools ToolLoop Subagent Agent.

(** Up to [n] calls of [consume_inbound], stopping at an empty queue: the
    messages handed out, in order, and the bus left. *)
Fixpoint take_inbound (n : nat) (b : MessageBus)
  : list InboundMessage * MessageBus :=
  match n with
  | O => ([], b)
  | S k =>
      match consume_inbound b with
      | None => ([], b)
      | Some (m, b') =>
          let (ms, b'') := take_inbound k b' in (m :: ms, b'')
      end
  end.

(** The same for [consume_outbound]. *)
Fixpoint take_outbound (n : nat) (b : MessageBus)
  : list OutboundMessage * MessageBus :=
  match n with
  | O => ([], b)
  | S k =>
      match consume_outbound b with
      | None => ([], b)
      | Some (m, b') =>
          let (ms, b'') := take_outbound k b' in (m :: ms, b'')
      end
  end.

(** The messages a history of bus operations published, per queue. *)
Fixpoint inbound_published (ops : list BusOp) : list InboundMessage :=
  match ops with
  | [] => []
  | OpPublishInbound m :: later => m :: inbound_published later
  | _ :: later => inbound_published later
  end.

Fixpoint outbound_published (ops : list BusOp) : list OutboundMessage :=
  match ops with
  | [] => []
  | OpPublishOutbound m :: later => m :: outbound_published later
  | _ :: later => outbound_published later
  end.

(** Whether a history of bus operations holds a [stop]. *)
Fixpoint stop_requested (ops : list BusOp) : bool :=
  match ops with
  | [] => false
  | OpStop :: _ => true
  | _ :: later => stop_requested later
  end.

(** Whether a list of events of the agent loop holds a [stop]. *)
Fixpoint stop_event (events : list AgentEvent) : bool :=
  match events with
  | [] => false
  | StopRequested :: _ => true
  | Arrives _ :: later => stop_event later
  end.

(** A call, without its outcome. *)
Definition call_of (i : Invocation) : Callback * OutboundMessage :=
  (callee i, delivered i).

(** The calls due for a queue of messages on a bus: message by message, the
    subscribers of its channel in registration order. *)
Definition calls_due (q : list OutboundMessage) (b : MessageBus)
  : list (Callback * OutboundMessage) :=
  flat_map (fun m => map (fun cb => (cb, m)) (subscribers_for (out_channel m) b)) q.


(** The label [spawn] shows for a task. *)
Definition display_label (label : option string) (task : string) : string :=
  opt_str_or label
    (py_take 30 task +:+ (if (30 <? py_len task)%nat then "..." else "")).

End Notions.

(** ** Concrete collaborators and inputs for the examples *)

Module Fixtures.
Import Py Events Bus Provider State Tools ToolLoop Subagent Agent.

(** The callbacks of the examples: callback 2 raises, the others count their
    calls in the world. *)
Definition example_invoke (cb : Callback) (msg : OutboundMessage) (env : nat)
  : result unit * nat :=
  if Nat.eqb cb 2 then (Raise "send failed", env) else (Ok tt, S env).

Definition example_ops : list BusOp :=
  [OpSubscribe "telegram" 1; OpSubscribe "cli" 2; OpSubscribe "telegram" 3;
   OpSubscribe "cli" 4;
   OpPublishOutbound (outbound_message "cli" "direct" "4");
   OpPublishOutbound (outbound_message "telegram" "42" "hi")].

(** Names for the external tool classes, for the examples. *)
Definition example_name (t : ExternalTool) : string :=
  match t with
  | ReadFileTool => "read_file"
  | WriteFileTool => "write_file"
  | EditFileTool => "edit_file"
  | ListDirTool => "list_dir"
  | ExecTool => "exec"
  | WebSearchTool => "web_search"
  | WebFetchTool => "web_fetch"
  end.

(** Tools that answer with their arguments' text and touch nothing. *)
#[export] Instance echo_tools : ToolSet unit := {|
  external_name := example_name;
  definition t :=
    JStr match t with
         | External e => example_name e
         | MessageTool => "message"
         | SpawnTool => "spawn"
         end;
  run_tool t args o := (match args with JStr s => s | _ => "done" end, o);
  not_found name := "Error: Tool '" +:+ name +:+ "' not found"
|}.

#[export] Instance plain_json : JsonLib := {|
  json_dumps v := match v with JStr s => s | _ => "{}" end
|}.

#[export] Instance plain_context : ContextBuilder := {|
  build_messages history current media :=
    map (fun m => RoleContent (role m) (text m)) history
    ++ [RoleContent "user" current];
  add_assistant_message messages content dicts :=
    messages ++ [AssistantCalls (opt_str_or content "") dicts];
  add_tool_result messages id name result :=
    messages ++ [ToolResult id name result]
|}.

#[export] Instance whole_history : SessionView := {| get_history l := l |}.

(** Draws whose first 8 characters differ. *)
#[export] Instance distinct_draws : Entropy := {|
  uuid4_str i :=
    match i with
    | 0 => "0a1b2c3d-0000-4000-8000-000000000000"
    | 1 => "1b2c3d4e-0000-4000-8000-000000000000"
    | _ => "2c3d4e5f-0000-4000-8000-000000000000"
    end
|}.

(** Two different version-4 UUIDs that agree on their first 8 characters. *)
Definition colliding_draws : Entropy := {|
  uuid4_str i :=
    match i with
    | 0 => "deadbeef-0000-4000-8000-000000000001"
    | _ => "deadbeef-1111-4111-9111-111111111111"
    end
|}.

Definition hex_digit (a : ascii) : bool :=
  let n := N_of_ascii a in
  ((48 <=? n) && (n <=? 57) || (97 <=? n) && (n <=? 102))%N.

(** The shape of [str(uuid.uuid4())]: 8-4-4-4-12 lower-case hex digits, the
    version digit [4] and a variant digit among [8 9 a b]. *)
Fixpoint uuid4_shape (i : nat) (s : string) : bool :=
  match s with
  | EmptyString => Nat.eqb i 36
  | String a rest =>
      (if (Nat.eqb i 8 || Nat.eqb i 13 || Nat.eqb i 18 || Nat.eqb i 23)%bool
       then Ascii.eqb a "-"
       else if Nat.eqb i 14 then Ascii.eqb a "4"
       else if Nat.eqb i 19
            then Ascii.eqb a "8" || Ascii.eqb a "9" || Ascii.eqb a "a"
                 || Ascii.eqb a "b"
       else hex_digit a)
      && uuid4_shape (S i) rest
  end.

(** A world with empty queues, no sessions and no tasks. *)
Definition empty_world : World unit :=
  mkWorld (mkOutside tt new_bus ("cli", "direct") ("cli", "direct") ∅ 0) ∅ 0 false.

Definition with_inbound (msgs : list InboundMessage) (w : World unit) : World unit :=
  set_outside (set_bus (set_inbound msgs (bus (outside w))) (outside w)) w.

(** The outbound queue a computation leaves. *)
Definition outbound_after {A} (m : M (World unit) A) (w : World unit)
  : option (list OutboundMessage) :=
  match m w with
  | Some (_, w') => Some (outbound (bus (outside w')))
  | None => None
  end.

Definition answer (s : string) : LLMResponse :=
  LLMResponse_init (Some s) None None None.

Definition call_tool (name : string) (args : Json) : LLMResponse :=
  LLMResponse_init None (Some [mkToolCall "call_1" name args]) None None.

Definition ask (content : string) : InboundMessage :=
  mkInbound "cli" "user" "direct" content [].

(** The state after the question ["2+2?"] was answered with ["4"]. *)
Definition answered_world : World unit :=
  mkWorld (mkOutside tt new_bus ("cli", "direct") ("cli", "direct") ∅ 0)
    {["cli:direct" := [mkSessionMessage "user" "2+2?";
                       mkSessionMessage "assistant" "4"]]}
    1 false.

(** A provider whose calls raise. *)
Definition failing_provider : LLMProvider := fun _ _ _ _ => Raise "boom".

(** The announcement of a subagent spawned from the chat 42 on telegram. *)
Definition telegram_announcement : InboundMessage :=
  announcement "report" "write the report" "the report is ready"
    ("telegram", "42") "ok".

Definition failing_manager : SubagentManager :=
  mkManager failing_provider "/workspace" "m".

Definition report_task : SubagentTask :=
  mkTask "0a1b2c3d" "write the report" "report" "telegram" "42".

Definition two_requests : list SpawnRequest :=
  [mkRequest "task a" None "cli" "direct";
   mkRequest "task b" (Some "b") "telegram" "42"].

Definition openrouter : LiteLLMProvider :=
  LiteLLMProvider_init (Some "sk-or-v1-key") None "anthropic/claude-opus-4-5".

Definition unreachable_backend : nat -> Kwargs -> result RawResponse :=
  fun _ _ => Raise "connection refused".

(** A backend whose first request is answered with a call of the tool [exec]
    and whose later requests fail. *)
Definition flaky_backend : nat -> Kwargs -> result RawResponse :=
  fun i _ =>
    match i with
    | 0 =>
        Ok (mkRawResponse
              [mkRawChoice
                 (mkRawMessage None
                    (Some [mkRawToolCall "call_1" "exec" (ArgValue (JStr "hi"))]))
                 (Some "tool_calls")]
              None)
    | _ => Raise "connection refused"
    end.

(** Tools like [echo_tools], except that the message tool and the spawn tool
    advertise other schemas and leave a trace outside. *)
Definition tracing_tools : ToolSet unit := {|
  external_name := example_name;
  definition t :=
    JStr match t with
         | External e => example_name e
         | MessageTool => "send"
         | SpawnTool => "fork"
         end;
  run_tool t args o :=
    match t with
    | External _ => (match args with JStr s => s | _ => "done" end, o)
    | MessageTool => ("sent", set_message_context ("sent", "sent") o)
    | SpawnTool => ("spawned", set_uuid_calls (S (uuid_calls o)) o)
    end;
  not_found name := "Error: Tool '" +:+ name +:+ "' not found"
|}.

(** A script that asks for the spawn tool, then for the message tool, and
    then answers. *)
Definition spawning_script (i : nat) : LLMResponse :=
  match i with
  | 0 => call_tool "spawn" (JStr "again")
  | 1 => call_tool "message" (JStr "hello")
  | _ => answer "done"
  end.

Definition spawning_manager : SubagentManager :=
  mkManager (scripted spawning_script) "/workspace" "m".

(** A provider that follows the same script when it is shown six tool
    definitions, and fails otherwise. *)
Definition picky_provider : LLMProvider :=
  fun i _ ds _ =>
    if Nat.eqb (length ds) 6 then Ok (spawning_script i)
    else Raise "unexpected tools".

Definition picky_manager : SubagentManager :=
  mkManager picky_provider "/workspace" "m".

End Fixtures.

(** ** Further inputs for the examples *)

Module MoreFixtures.
Import Py Events Bus Provider State Tools ToolLoop Subagent Agent Cli Notions.
Import Fixtures.

(** The state a computation leaves, and the value it returns. *)
Definition world_after {A} (r : option (result A * World unit)) : World unit :=
  match r with
  | Some (_, w) => w
  | None => empty_world
  end.

Definition value_after {A} (d : A) (r : option (result A * World unit)) : A :=
  match r with
  | Some (Ok a, _) => a
  | _ => d
  end.

(** An agent whose model answers ["4"], and one whose model raises. *)
Definition answering_agent : AgentLoop :=
  AgentLoop_init (scripted (fun _ => answer "4")) "m" 20.

Definition failing_agent : AgentLoop :=
  AgentLoop_init failing_provider "m" 20.

(** A script that asks for one tool and then answers. *)
Definition one_tool_then_done (i : nat) : LLMResponse :=
  if Nat.eqb i 0 then call_tool "exec" (JStr "hi") else answer "done".

(** A script that asks for a tool every time. *)
Definition always_tools (i : nat) : LLMResponse := call_tool "exec" (JStr "hi").

(** A bus with the subscribers and the two queued messages of the examples,
    its dispatcher running. *)
Definition example_bus : MessageBus :=
  apply_ops example_ops (set_running true new_bus).

(** A world whose inbound queue holds one question, the loop running. *)
Definition asked_world : World unit :=
  set_agent_running true (with_inbound [ask "2+2?"] empty_world).

(** A completion with one choice that asks for the tool [exec]. *)
Definition tool_completion : RawResponse :=
  mkRawResponse
    [mkRawChoice
       (mkRawMessage None
          (Some [mkRawToolCall "call_7" "exec" (ArgText "not json")]))
       (Some "tool_calls")]
    (Some (mkRawUsage 10 5 15)).

(** A [json.loads] that gives up on every text with an exception other than
    [json.JSONDecodeError]. *)
Definition refusing_loads : string -> LoadsOutcome :=
  fun _ => OtherError "maximum recursion depth exceeded".

(** A cron job to be delivered on the default channel. *)
Definition morning_job : CronJob :=
  mkCronJob "job1" (mkCronPayload "2+2?" true (Some "491234") None).

End MoreFixtures.

(** * Properties *)

(** ** Python primitives *)

Module PyProps.
Import Py.

Example py_len_utf8 : py_len "子代理 ok" = 6.
Proof. reflexivity. Qed.

Example py_take_utf8 : py_take 2 "子代理 ok" = "子代".
Proof. reflexivity. Qed.

Example split_once_first : split_once ":" "a:b:c" = ["a"; "b:c"].
Proof. reflexivity. Qed.

Example split_once_absent : split_once ":" "abc" = ["abc"].
Proof. reflexivity. Qed.

Lemma contains_char_app_sep (c : ascii) (s t : string) :
  contains_char c (s +:+ String c t) = true.
Proof.
  induction s as [|a s IH]; simpl.
  - by rewrite Ascii.eqb_refl.
  - destruct (Ascii.eqb a c); [done | exact IH].
Qed.

(** Splitting at the first separator undoes joining with it, as long as the
    left part is free of the separator. *)
Lemma split_once_app_sep (c : ascii) (s t : string) :
  contains_char c s = false ->
  split_once c (s +:+ String c t) = [s; t].
Proof.
  induction s as [|a s IH]; simpl; intros Hs.
  - by rewrite Ascii.eqb_refl.
  - destruct (Ascii.eqb a c); [done |].
    by rewrite (IH Hs).
Qed.

(** A separator in the left part moves the cut there. *)
Lemma split_once_cut_early (c : ascii) (s1 s2 t : string) :
  contains_char c s1 = false ->
  split_once c ((s1 +:+ String c s2) +:+ String c t)
  = [s1; s2 +:+ String c t].
Proof.
  induction s1 as [|a s1 IH]; simpl; intros Hs.
  - by rewrite Ascii.eqb_refl.
  - destruct (Ascii.eqb a c); [done |].
    by rewrite (IH Hs).
Qed.

End PyProps.

(** ** Routing of subagent announcements *)

Module OriginProps.
Import Py Events Subagent Agent PyProps.

(** The parser never leaves through [IndexError]. *)
Lemma parse_origin_total (chat_id : string) :
  exists origin, parse_origin chat_id = Ok origin.
Proof.
  unfold parse_origin.
  destruct (contains_char ":" chat_id) eqn:Hc; [| eauto].
  assert (Hlen : exists a b, split_once ":" chat_id = [a; b]).
  { clear -Hc. induction chat_id as [|a s IH]; simpl in *; [done |].
    destruct (Ascii.eqb a ":"); [eauto |].
    destruct (IH Hc) as (x & y & ->). eauto. }
  destruct Hlen as (a & b & ->). simpl. eauto.
Qed.

(** C3, as amended.  For every origin channel that contains no [":"] and
    every origin chat id (which may contain [":"]), the chat id
    [_announce_result] writes parses in [_process_system_message] to exactly
    that channel and chat id. *)
Theorem origin_roundtrip (origin_channel origin_chat_id : string) :
  contains_char ":" origin_channel = false ->
  forall label task result status,
    parse_origin
      (in_chat_id (announcement label task result
                     (origin_channel, origin_chat_id) status))
    = Ok (origin_channel, origin_chat_id).
Proof.
  intros Hfree label task result status.
  unfold announcement, encode_origin, parse_origin; simpl.
  change (origin_channel +:+ ":" +:+ origin_chat_id)
    with (origin_channel +:+ String ":" origin_chat_id).
  rewrite contains_char_app_sep.
  by rewrite (split_once_app_sep _ _ _ Hfree).
Qed.

Lemma origin_roundtrip_witness :
  parse_origin
    (in_chat_id (announcement "l" "t" "r" ("telegram", "12:34") "ok"))
  = Ok ("telegram", "12:34").
Proof. apply (origin_roundtrip "telegram" "12:34"). reflexivity. Defined.

(** C3, as stated, fails: a [":"] in the origin channel moves the cut. *)
Lemma origin_roundtrip_counterexample :
  parse_origin
    (in_chat_id (announcement "l" "t" "r" ("a:b", "c") "ok"))
  <> Ok ("a:b", "c").
Proof. vm_compute. discriminate. Qed.

(** What the parser answers in general when the channel holds a [":"]. *)
Lemma origin_cut_early (c1 c2 origin_chat_id : string) :
  contains_char ":" c1 = false ->
  parse_origin (encode_origin (c1 +:+ String ":" c2) origin_chat_id)
  = Ok (c1, c2 +:+ String ":" origin_chat_id).
Proof.
  intros Hfree. unfold encode_origin, parse_origin.
  change (":" +:+ origin_chat_id) with (String ":" origin_chat_id).
  rewrite contains_char_app_sep.
  by rewrite (split_once_cut_early _ _ _ _ Hfree).
Qed.

End OriginProps.

(** ** The message bus *)

Module BusProps.
Import Py Events Bus Fixtures.

Lemma subscribers_subscribe (ch channel : string) (cb : Callback) (b : MessageBus) :
  subscribers_for channel (subscribe_outbound ch cb b)
  = if String.eqb ch channel then subscribers_for channel b ++ [cb]
    else subscribers_for channel b.
Proof.
  unfold subscribers_for, subscribe_outbound; simpl.
  destruct (String.eqb_spec ch channel) as [->|Hne].
  - destruct (outbound_subscribers b !! channel) as [l|] eqn:Hl.
    + by rewrite lookup_alter_eq, Hl.
    + by rewrite lookup_alter_eq, lookup_insert_eq.
  - destruct (outbound_subscribers b !! ch) as [l|] eqn:Hl.
    + by rewrite lookup_alter_ne.
    + by rewrite lookup_alter_ne, lookup_insert_ne.
Qed.

(** The subscriber table after a history of operations holds what it held
    before, followed by what the history registered. *)
Lemma subscribers_apply_ops (ops : list BusOp) (channel : string) (b : MessageBus) :
  subscribers_for channel (apply_ops ops b)
  = subscribers_for channel b ++ registered channel ops.
Proof.
  revert b. induction ops as [|op ops IH]; intros b; simpl.
  - by rewrite app_nil_r.
  - unfold apply_ops in *; simpl. rewrite IH.
    destruct op as [m|m|ch cb|]; simpl; try done.
    rewrite subscribers_subscribe.
    destruct (String.eqb ch channel); [by rewrite <- app_assoc | done].
Qed.

Lemma subscribers_new_bus (ops : list BusOp) (channel : string) :
  subscribers_for channel (apply_ops ops new_bus) = registered channel ops.
Proof. by rewrite subscribers_apply_ops. Qed.

Section Dispatch.
Context {Env : Type}.
Variable invoke : Callback -> OutboundMessage -> Env -> result unit * Env.

Lemma deliveries_callees subscribers msg env :
  map callee (deliveries invoke subscribers msg env).1 = subscribers.
Proof.
  revert env. induction subscribers as [|cb later IH]; intros env; simpl; [done |].
  destruct (invoke cb msg env) as [r env1].
  specialize (IH env1). destruct (deliveries invoke later msg env1) as [calls env2].
  simpl in *. by rewrite IH.
Qed.

Lemma deliveries_messages subscribers msg env :
  Forall (fun i => delivered i = msg) (deliveries invoke subscribers msg env).1.
Proof.
  revert env. induction subscribers as [|cb later IH]; intros env; simpl; [constructor |].
  destruct (invoke cb msg env) as [r env1].
  specialize (IH env1). destruct (deliveries invoke later msg env1) as [calls env2].
  simpl in *. by constructor.
Qed.

Lemma deliveries_app pre post msg env :
  deliveries invoke (pre ++ post) msg env
  = let (c1, env1) := deliveries invoke pre msg env in
    let (c2, env2) := deliveries invoke post msg env1 in
    (c1 ++ c2, env2).
Proof.
  revert env. induction pre as [|cb pre IH]; intros env; simpl.
  - by destruct (deliveries invoke post msg env).
  - destruct (invoke cb msg env) as [r env1]. rewrite IH.
    destruct (deliveries invoke pre msg env1) as [c1 env2].
    by destruct (deliveries invoke post msg env2).
Qed.

(** [deliver] calls every subscriber in order and returns normally, whatever
    the callbacks do. *)
Lemma deliver_spec subscribers msg (d : DState Env) :
  deliver invoke subscribers msg d
  = Some (Ok tt,
          mkDState (d_bus d) (deliveries invoke subscribers msg (d_env d)).2
            (d_calls d ++ (deliveries invoke subscribers msg (d_env d)).1)).
Proof.
  revert d. unfold deliver.
  induction subscribers as [|cb later IH]; intros [b env calls]; simpl.
  - by rewrite app_nil_r.
  - unfold bind at 1, try_except, call_callback; simpl.
    destruct (invoke cb msg env) as [[[]|e] env1]; simpl.
    + rewrite IH; simpl.
      destruct (deliveries invoke later msg env1) as [c2 env2]; simpl.
      by rewrite <- app_assoc.
    + rewrite IH; simpl.
      destruct (deliveries invoke later msg env1) as [c2 env2]; simpl.
      by rewrite <- app_assoc.
Qed.

Lemma dispatch_once_spec (d : DState Env) :
  dispatch_once invoke d
  = match consume_outbound (d_bus d) with
    | None => Some (Ok tt, d)
    | Some (msg, b') =>
        let r := deliveries invoke (subscribers_for (out_channel msg) b') msg (d_env d) in
        Some (Ok tt, mkDState b' r.2 (d_calls d ++ r.1))
    end.
Proof.
  unfold dispatch_once.
  destruct (consume_outbound (d_bus d)) as [[msg b']|]; [| done].
  by rewrite deliver_spec.
Qed.

(** No exception leaves the dispatcher. *)
Lemma dispatch_loop_returns schedule (d : DState Env) :
  exists left d', dispatch_loop invoke schedule d = Some (Ok left, d').
Proof.
  revert d. induction schedule as [|ops later IH]; intros d; simpl.
  - unfold gets. eauto.
  - unfold bind, gets, d_apply_ops, modify; simpl.
    destruct (bus_running (d_bus d)); [| unfold ret; eauto].
    rewrite dispatch_once_spec; simpl.
    destruct (consume_outbound _) as [[msg b']|]; apply IH.
Qed.

Lemma consume_outbound_subscribers (b b' : MessageBus) msg channel :
  consume_outbound b = Some (msg, b') ->
  subscribers_for channel b' = subscribers_for channel b
  /\ bus_running b' = bus_running b.
Proof.
  unfold consume_outbound. destruct (outbound b); [done |].
  by intros [= _ <-].
Qed.

(** C6.  When the dispatcher takes an outbound message from the queue, it
    calls exactly the callbacks that [subscribe_outbound] registered for the
    message's channel, all of them and in registration order, each with that
    message, and returns without an error; when none was registered for the
    channel, no callback is called and nothing changes but the queue. *)
Theorem dispatch_calls_registered (ops : list BusOp) (env : Env)
    (calls : list Invocation) (msg : OutboundMessage) (b' : MessageBus) :
  consume_outbound (apply_ops ops new_bus) = Some (msg, b') ->
  exists made env',
    dispatch_once invoke (mkDState (apply_ops ops new_bus) env calls)
    = Some (Ok tt, mkDState b' env' (calls ++ made))
    /\ map callee made = registered (out_channel msg) ops
    /\ Forall (fun i => delivered i = msg) made
    /\ (registered (out_channel msg) ops = [] -> made = [] /\ env' = env).
Proof.
  intros Hq.
  destruct (consume_outbound_subscribers _ _ _ (out_channel msg) Hq) as [Hsub _].
  rewrite subscribers_new_bus in Hsub.
  exists (deliveries invoke (registered (out_channel msg) ops) msg env).1,
         (deliveries invoke (registered (out_channel msg) ops) msg env).2.
  split; [| split; [| split]].
  - rewrite dispatch_once_spec; simpl. rewrite Hq; simpl. by rewrite Hsub.
  - apply deliveries_callees.
  - apply deliveries_messages.
  - by intros ->.
Qed.

(** C7.  When a subscriber callback raises on a message, the dispatcher still
    calls every subscriber registered after it for that message, and goes on
    with the rest of its polls on the rest of the queue; no exception leaves
    the dispatcher. *)
Theorem dispatch_survives_callback (b0 b1 : MessageBus) (ops : list BusOp)
    (env : Env) (calls : list Invocation) (msg : OutboundMessage)
    (pre post : list Callback) (c : Callback) (e : exn)
    (schedule : list (list BusOp)) :
  bus_running b0 = true ->
  consume_outbound (apply_ops ops b0) = Some (msg, b1) ->
  subscribers_for (out_channel msg) (apply_ops ops b0) = pre ++ c :: post ->
  (forall env0, (invoke c msg env0).1 = Raise e) ->
  exists before after env1,
    map callee before = pre
    /\ map callee after = post
    /\ Forall (fun i => delivered i = msg) after
    /\ dispatch_loop invoke (ops :: schedule) (mkDState b0 env calls)
       = dispatch_loop invoke schedule
           (mkDState b1 env1
              (calls ++ before ++ mkInvocation c msg (Raise e) :: after))
    /\ exists left d',
         dispatch_loop invoke (ops :: schedule) (mkDState b0 env calls)
         = Some (Ok left, d').
Proof.
  intros Hrun Hq Hsubs Hraise.
  destruct (consume_outbound_subscribers _ _ _ (out_channel msg) Hq) as [Hsub _].
  pose proof (deliveries_app pre (c :: post) msg env) as Happ.
  pose proof (deliveries_callees pre msg env) as Hpre.
  destruct (deliveries invoke pre msg env) as [before env_a] eqn:Hbefore.
  simpl in Happ, Hpre.
  pose proof (Hraise env_a) as Hc.
  destruct (invoke c msg env_a) as [rc env_b] eqn:Hinv. simpl in Hc. subst rc.
  pose proof (deliveries_callees post msg env_b) as Hpost.
  pose proof (deliveries_messages post msg env_b) as Hmsg.
  destruct (deliveries invoke post msg env_b) as [after env_c] eqn:Hafter.
  simpl in Hpost, Hmsg.
  exists before, after, env_c.
  split; [done | split; [done | split; [done |]]].
  assert (Hstep :
    dispatch_loop invoke (ops :: schedule) (mkDState b0 env calls)
    = dispatch_loop invoke schedule
        (mkDState b1 env_c
           (calls ++ before ++ mkInvocation c msg (Raise e) :: after))).
  { simpl. unfold bind at 1, gets; simpl. rewrite Hrun.
    unfold bind at 1, d_apply_ops, modify; simpl.
    unfold bind at 1. rewrite dispatch_once_spec; simpl.
    rewrite Hq; simpl. by rewrite Hsub, Hsubs, Happ. }
  split; [exact Hstep |].
  rewrite Hstep. apply dispatch_loop_returns.
Qed.

End Dispatch.

Lemma dispatch_calls_registered_witness :
  exists made env',
    dispatch_once example_invoke (mkDState (apply_ops example_ops new_bus) 0 [])
    = Some (Ok tt,
            mkDState
              (set_outbound [outbound_message "telegram" "42" "hi"]
                 (apply_ops example_ops new_bus))
              env' ([] ++ made))
    /\ map callee made = registered "cli" example_ops
    /\ Forall (fun i => delivered i = outbound_message "cli" "direct" "4") made
    /\ (registered "cli" example_ops = [] -> made = [] /\ env' = 0).
Proof.
  apply (dispatch_calls_registered example_invoke example_ops 0 []
           (outbound_message "cli" "direct" "4")).
  vm_compute. reflexivity.
Defined.

Lemma dispatch_survives_callback_witness :
  exists before after env1,
    map callee before = []
    /\ map callee after = [4]
    /\ Forall (fun i => delivered i = outbound_message "cli" "direct" "4") after
    /\ dispatch_loop example_invoke (example_ops :: [[]])
         (mkDState (set_running true new_bus) 0 [])
       = dispatch_loop example_invoke [[]]
           (mkDState
              (set_outbound [outbound_message "telegram" "42" "hi"]
                 (apply_ops example_ops (set_running true new_bus)))
              env1
              ([] ++ before ++
               mkInvocation 2 (outbound_message "cli" "direct" "4")
                 (Raise "send failed") :: after))
    /\ exists left d',
         dispatch_loop example_invoke (example_ops :: [[]])
           (mkDState (set_running true new_bus) 0 [])
         = Some (Ok left, d').
Proof.
  apply (dispatch_survives_callback example_invoke (set_running true new_bus)
           _ example_ops 0 [] (outbound_message "cli" "direct" "4") [] [4] 2
           "send failed" [[]]).
  - reflexivity.
  - vm_compute. reflexivity.
  - vm_compute. reflexivity.
  - intros env0. reflexivity.
Defined.

(** The whole run of the example: the failing callback 2 is followed by
    callback 4, and the next message reaches callbacks 1 and 3. *)
Example dispatch_example_calls :
  (fun r => match r with
            | Some (Ok _, d) => map callee (d_calls d)
            | _ => []
            end)
    (dispatch_outbound example_invoke [example_ops; []; []]
       (mkDState new_bus 0 []))
  = [2; 4; 1; 3].
Proof. vm_compute. reflexivity. Qed.

End BusProps.

(** ** The tool-calling loop *)

Module LoopProps.
Import Py Provider State Tools ToolLoop.

Lemma bind_ok {S A B} (m : M S A) (k : A -> M S B) s a s' :
  m s = Some (Ok a, s') -> bind m k s = k a s'.
Proof. unfold bind. by intros ->. Qed.

Lemma bind_raise {S A B} (m : M S A) (k : A -> M S B) s e s' :
  m s = Some (Raise e, s') -> bind m k s = Some (Raise e, s').
Proof. unfold bind. by intros ->. Qed.

(** [try/except] never lets an exception of its body through. *)
Lemma try_except_catches {S A} (body : M S A) (handler : exn -> M S A) s e s' :
  body s = Some (Raise e, s') -> try_except body handler s = handler e s'.
Proof. unfold try_except. by intros ->. Qed.

Lemma try_except_ok {S A} (body : M S A) (handler : exn -> M S A) s a s' :
  body s = Some (Ok a, s') -> try_except body handler s = Some (Ok a, s').
Proof. unfold try_except. by intros ->. Qed.

(** A [for] loop depends on its body pointwise. *)
Lemma for_each_ext {S A B} (xs : list A) (f g : B -> A -> M S B) :
  (forall acc x s, f acc x s = g acc x s) ->
  forall acc s, for_each xs f acc s = for_each xs g acc s.
Proof.
  intros Hfg. induction xs as [|x xs IH]; intros acc s; simpl; [done |].
  unfold bind. rewrite Hfg.
  destruct (g acc x s) as [[[b|e] s1]|]; [apply IH | done | done].
Qed.

(** Sequencing and the [while] loop depend on their parts pointwise. *)
Lemma bind_ext {S A B} (m1 m2 : M S A) (k1 k2 : A -> M S B) s :
  m1 s = m2 s -> (forall a s', k1 a s' = k2 a s') ->
  bind m1 k1 s = bind m2 k2 s.
Proof.
  intros Hm Hk. unfold bind. rewrite Hm.
  destruct (m2 s) as [[[a|e] s']|]; [apply Hk | done | done].
Qed.

Lemma while_ext {S St} (fuel : nat) (test : St -> bool)
    (body1 body2 : St -> M S (St * bool)) :
  (forall st s, body1 st s = body2 st s) ->
  forall st s, while fuel test body1 st s = while fuel test body2 st s.
Proof.
  intros Hbody. induction fuel as [|fuel IH]; intros st s; simpl; [done |].
  destruct (test st); [| done].
  apply bind_ext; [apply Hbody |].
  intros [st1 brk] s'. destruct brk; [done | apply IH].
Qed.

Section Frame.
Context {Env : Type}.

Lemma same_private_refl (w : World Env) : same_private w w.
Proof. by split. Qed.

Lemma same_private_trans (w1 w2 w3 : World Env) :
  same_private w1 w2 -> same_private w2 w3 -> same_private w1 w3.
Proof. intros [? ?] [? ?]. split; congruence. Qed.

End Frame.

Section Loop.
Context {Env : Type} `{ToolSet Env} `{JsonLib}.

Variable provider : LLMProvider.
Variable model : string.
Variable tools : gmap string Tool.
Variable add_assistant :
  list ChatMessage -> option string -> list ToolCallDict -> list ChatMessage.
Variable add_result :
  list ChatMessage -> string -> string -> string -> list ChatMessage.
Variable max_iterations : Z.

(** Running a tool returns a text and touches neither the sessions nor the
    count of model calls. *)
Lemma execute_returns (name : string) (args : Json) (w : World Env) :
  exists text w',
    execute tools name args w = Some (Ok text, w')
    /\ same_private w w' /\ model_calls w' = model_calls w.
Proof.
  unfold execute. destruct (get name tools) as [t|].
  - unfold on_outside, call.
    destruct (run_tool t args (outside w)) as [text o] eqn:Hrun.
    exists text, (set_outside o w). by repeat split.
  - exists (not_found name), w. by repeat split.
Qed.

Lemma tool_calls_return (calls : list ToolCallRequest)
    (messages : list ChatMessage) (w : World Env) :
  exists messages' w',
    for_each calls
      (fun messages tool_call =>
         bind (execute tools (tc_name tool_call) (tc_arguments tool_call))
           (fun result =>
              ret (add_result messages (tc_id tool_call) (tc_name tool_call) result)))
      messages w
    = Some (Ok messages', w')
    /\ same_private w w' /\ model_calls w' = model_calls w.
Proof.
  revert messages w. induction calls as [|tc calls IH]; intros messages w; simpl.
  - exists messages, w. by repeat split.
  - destruct (execute_returns (tc_name tc) (tc_arguments tc) w)
      as (text & w1 & Hexec & Hpriv1 & Hcalls1).
    unfold bind at 1. unfold bind at 1. rewrite Hexec. simpl.
    destruct (IH (add_result messages (tc_id tc) (tc_name tc) text) w1)
      as (messages' & w2 & Hrest & Hpriv2 & Hcalls2).
    exists messages', w2. split; [exact Hrest |]. split.
    + eapply same_private_trans; eassumption.
    + congruence.
Qed.

(** One pass of the loop makes exactly one model call; it raises what the
    model call raises, breaks with the content of a response without tool
    calls, and otherwise goes on with the same [final_content]. *)
Lemma iterate_spec (st : LoopState) (w : World Env) :
  exists w',
    same_private w w' /\ model_calls w' = S (model_calls w)
    /\ match provider (model_calls w) (messages st) (get_definitions tools) model with
       | Raise e =>
           iterate provider model tools add_assistant add_result st w
           = Some (Raise e, w')
       | Ok response =>
           if has_tool_calls response then
             exists messages',
               iterate provider model tools add_assistant add_result st w
               = Some (Ok (mkLoop (iteration st + 1) (final st) messages', false), w')
           else
             iterate provider model tools add_assistant add_result st w
             = Some (Ok (mkLoop (iteration st + 1) (content response) (messages st), true), w')
       end.
Proof.
  destruct (provider (model_calls w) (messages st) (get_definitions tools) model)
    as [response|e] eqn:Hprov.
  - destruct (has_tool_calls response) eqn:Htc.
    + destruct (tool_calls_return (tool_calls response)
                  (add_assistant (messages st) (content response)
                     (map tool_call_dict (tool_calls response)))
                  (set_model_calls (S (model_calls w)) w))
        as (messages' & w' & Hfor & Hpriv & Hcalls).
      exists w'. split; [| split].
      * destruct Hpriv as [Hs Hr]. split; [exact Hs | exact Hr].
      * exact Hcalls.
      * exists messages'. unfold iterate, provider_chat. unfold bind at 1.
        rewrite Hprov, Htc. unfold bind at 1. by rewrite Hfor.
    + exists (set_model_calls (S (model_calls w)) w).
      split; [done | split; [done |]].
      unfold iterate, provider_chat. unfold bind at 1. by rewrite Hprov, Htc.
  - exists (set_model_calls (S (model_calls w)) w).
    split; [done | split; [done |]].
    unfold iterate, provider_chat. unfold bind at 1. by rewrite Hprov.
Qed.

Lemma cond_remaining (st : LoopState) :
  cond max_iterations st = true <-> (0 < remaining max_iterations st)%nat.
Proof. unfold cond, remaining. rewrite Z.ltb_lt. lia. Qed.

(** The loop, from any state and with fuel for the passes that remain:
    it ends; it makes at most that many model calls; it leaves the sessions
    alone; it returns when the model never raises; and it ends with the
    [final_content] it started with when every response carried tool calls. *)
Lemma while_iterate (fuel : nat) (st : LoopState) (w : World Env) :
  (remaining max_iterations st <= fuel)%nat ->
  exists r w',
    while fuel (cond max_iterations) (iterate provider model tools add_assistant add_result) st w
    = Some (r, w')
    /\ same_private w w'
    /\ (model_calls w <= model_calls w' <= model_calls w + remaining max_iterations st)%nat
    /\ ((forall i ms ds m, is_ok (provider i ms ds m) = true) ->
        exists st', r = Ok st')
    /\ ((forall i ms ds m response,
           (model_calls w <= i < model_calls w + remaining max_iterations st)%nat ->
           provider i ms ds m = Ok response -> has_tool_calls response = true) ->
        forall st', r = Ok st' -> final st' = final st).
Proof.
  revert st w. induction fuel as [|fuel IH]; intros st w Hfuel.
  - simpl. destruct (cond max_iterations st) eqn:Hc.
    + apply cond_remaining in Hc. lia.
    + exists (Ok st), w. split; [done |]. split; [apply same_private_refl |].
      split; [lia |]. split; [eauto |]. by intros _ st' [= <-].
  - simpl. destruct (cond max_iterations st) eqn:Hc.
    2:{ exists (Ok st), w. split; [done |]. split; [apply same_private_refl |].
        split; [lia |]. split; [eauto |]. by intros _ st' [= <-]. }
    apply cond_remaining in Hc.
    destruct (iterate_spec st w) as (w1 & Hpriv1 & Hcalls1 & Hstep).
    destruct (provider (model_calls w) (messages st) (get_definitions tools) model)
      as [response|e] eqn:Hprov.
    + destruct (has_tool_calls response) eqn:Htc.
      * destruct Hstep as (messages' & Hstep).
        rewrite (bind_ok _ _ _ _ _ Hstep). simpl.
        set (st1 := mkLoop (iteration st + 1) (final st) messages').
        assert (Hrem : remaining max_iterations st1 = (remaining max_iterations st - 1)%nat).
        { unfold remaining, st1; simpl. unfold remaining in Hc. lia. }
        destruct (IH st1 w1 ltac:(lia)) as (r & w2 & Hloop & Hpriv2 & Hcalls2 & Hok & Hall).
        exists r, w2. split; [exact Hloop |].
        split; [eapply same_private_trans; eassumption |].
        split; [lia |]. split; [exact Hok |].
        intros Hcalls st' Hr. rewrite (Hall) with (st' := st'); [done | | exact Hr].
        intros i ms ds m resp Hi. apply Hcalls. lia.
      * rewrite (bind_ok _ _ _ _ _ Hstep). simpl.
        eexists _, w1. split; [reflexivity |]. split; [exact Hpriv1 |].
        split; [lia |]. split; [eauto |].
        intros Hcalls st' _.
        specialize (Hcalls (model_calls w) _ _ _ response ltac:(lia) Hprov).
        congruence.
    + rewrite (bind_raise _ _ _ _ _ Hstep).
      exists (Raise e), w1. split; [done |]. split; [exact Hpriv1 |].
      split; [lia |]. split.
      * intros Hok. specialize (Hok (model_calls w) (messages st) (get_definitions tools) model).
        by rewrite Hprov in Hok.
      * by intros _ st' [=].
Qed.

(** Fuel beyond the passes that remain changes nothing. *)
Lemma while_iterate_fuel (fuel : nat) (st : LoopState) (w : World Env) :
  (remaining max_iterations st <= fuel)%nat ->
  while fuel (cond max_iterations) (iterate provider model tools add_assistant add_result) st w
  = while (remaining max_iterations st) (cond max_iterations)
      (iterate provider model tools add_assistant add_result) st w.
Proof.
  revert st w. induction fuel as [|fuel IH]; intros st w Hfuel.
  - by replace (remaining max_iterations st) with 0%nat by lia.
  - destruct (cond max_iterations st) eqn:Hc.
    + pose proof (proj1 (cond_remaining st) Hc) as Hpos.
      destruct (remaining max_iterations st) as [|k] eqn:Hk; [lia |].
      simpl. rewrite Hc. unfold bind.
      destruct (iterate _ _ _ _ _ st w) as [[[[st1 brk]|e] w1]|] eqn:Hit; try done.
      destruct brk; simpl; [done |].
      assert (Hst1 : iteration st1 = (iteration st + 1)%Z).
      { destruct (iterate_spec st w) as (w' & _ & _ & Hstep).
        destruct (provider _ _ _ _) as [response|e']; [| congruence].
        destruct (has_tool_calls response).
        - destruct Hstep as (ms & Hstep). rewrite Hit in Hstep. by simplify_eq.
        - rewrite Hit in Hstep. by simplify_eq. }
      assert (Hrem : remaining max_iterations st1 = k).
      { unfold remaining in *. rewrite Hst1. lia. }
      rewrite IH by lia. by rewrite Hrem.
    + destruct (remaining max_iterations st); simpl; by rewrite Hc.
Qed.

End Loop.

End LoopProps.

(** ** The foreground turn *)

Module AgentProps.
Import Py Events Bus Provider State Tools ToolLoop Subagent Agent.
Import LoopProps OriginProps.
Local Open Scope py_scope.

Section Turn.
Context {Env : Type} `{ToolSet Env} `{JsonLib} `{Entropy}
        `{ContextBuilder} `{SessionView}.

Lemma _process_system_message_turn (self : AgentLoop) (msg : InboundMessage) :
  _process_system_message self msg
  = turn self ((system_route msg).1 +:+ ":" +:+ (system_route msg).2)
      (system_route msg).1 (system_route msg).2 (in_content msg) None
      ("[系统: " +:+ sender_id msg +:+ "] " +:+ in_content msg)
      system_fallback_content.
Proof.
  unfold _process_system_message, system_route.
  destruct (parse_origin_total (in_chat_id msg)) as [origin ->].
  reflexivity.
Qed.

Lemma _process_message_turn (self : AgentLoop) (msg : InboundMessage) :
  _process_message self msg
  = turn self (turn_key msg) (reply_route msg).1 (reply_route msg).2
      (in_content msg)
      (if is_system msg then None
       else match in_media msg with [] => None | _ :: _ => Some (in_media msg) end)
      (turn_user_text msg) (turn_fallback msg).
Proof.
  unfold _process_message, turn_key, reply_route, turn_user_text, turn_fallback,
    is_system.
  destruct (String.eqb (in_channel msg) "system").
  - apply _process_system_message_turn.
  - reflexivity.
Qed.

Lemma update_tool_contexts_returns (self : AgentLoop) (channel chat_id : string)
    (w : World Env) :
  exists w',
    update_tool_contexts self channel chat_id w = Some (Ok tt, w')
    /\ same_private w w' /\ model_calls w' = model_calls w.
Proof.
  unfold update_tool_contexts, bind, modify, ret.
  destruct (get "message" (tools self)) as [[| |]|];
    destruct (get "spawn" (tools self)) as [[| |]|];
    simpl; eexists; (split; [reflexivity |]); by repeat split.
Qed.

Lemma appended_twice (key : string) (s : gmap string (list SessionMessage))
    (u a : SessionMessage) :
  alter (fun l => l ++ [a]) key (alter (fun l => l ++ [u]) key (ensured key s))
  = <[key := default [] (s !! key) ++ [u; a]]> s.
Proof.
  apply map_eq. intros j. unfold ensured.
  destruct (decide (key = j)) as [<-|Hne].
  - rewrite !lookup_alter_eq, lookup_insert_eq.
    destruct (s !! key) as [l|] eqn:Hl; simpl.
    + rewrite Hl. simpl. by rewrite <- app_assoc.
    + by rewrite lookup_insert_eq.
  - rewrite !lookup_alter_ne, lookup_insert_ne by done.
    destruct (s !! key); [done |]. by rewrite lookup_insert_ne.
Qed.

(** What a turn does, whatever the provider does. *)
Lemma turn_spec (self : AgentLoop) (key channel chat_id content : string)
    (media : option (list string)) (user_text fallback : string) (w : World Env) :
  exists r w',
    turn self key channel chat_id content media user_text fallback w = Some (r, w')
    /\ agent_running w' = agent_running w
    /\ (model_calls w <= model_calls w'
        <= model_calls w + Z.to_nat (max_iterations self))%nat
    /\ match r with
       | Ok out =>
           exists final_content,
             out = Some (outbound_message channel chat_id final_content)
             /\ sessions w'
                = <[key := default [] (sessions w !! key)
                           ++ [mkSessionMessage "user" user_text;
                               mkSessionMessage "assistant" final_content]]>
                    (sessions w)
       | Raise _ => sessions w' = ensured key (sessions w)
       end
    /\ ((forall i ms ds m, is_ok (provider self i ms ds m) = true) ->
        exists out, r = Ok out)
    /\ ((forall i ms ds m response,
           (model_calls w <= i < model_calls w + Z.to_nat (max_iterations self))%nat ->
           provider self i ms ds m = Ok response ->
           has_tool_calls response = true) ->
        forall out, r = Ok (Some out) -> out_content out = fallback).
Proof.
  unfold turn.
  set (w0 := set_sessions (ensured key (sessions w)) w).
  assert (Hgoc : get_or_create key w = Some (Ok key, w0)).
  { unfold get_or_create, bind, modify, ret, w0, ensured.
    destruct (sessions w !! key); [by destruct w | done]. }
  rewrite (bind_ok _ _ _ _ _ Hgoc).
  destruct (update_tool_contexts_returns self channel chat_id w0)
    as (w1 & Hctx & [Hs1 Hr1] & Hc1).
  rewrite (bind_ok _ _ _ _ _ Hctx).
  unfold session_history at 1. unfold bind at 1, gets.
  set (messages := build_messages _ content media).
  set (st0 := mkLoop 0 None messages).
  destruct (while_iterate (provider self) (model self) (tools self)
              add_assistant_message add_tool_result (max_iterations self)
              (Z.to_nat (max_iterations self)) st0 w1)
    as (r & w2 & Hloop & [Hs2 Hr2] & Hc2 & Hok & Hall).
  { unfold remaining, st0; simpl. lia. }
  assert (Hrem : remaining (max_iterations self) st0 = Z.to_nat (max_iterations self)).
  { unfold remaining, st0; simpl. f_equal. lia. }
  rewrite Hrem in Hc2, Hall.
  change (agent_loop self messages w1 = Some (r, w2)) in Hloop.
  destruct r as [st|e].
  - rewrite (bind_ok _ _ _ _ _ Hloop).
    eexists (Ok _), _. split; [reflexivity |].
    split; [subst w0; simpl in *; congruence |].
    split; [simpl; subst w0; simpl in *; lia |].
    split; [| split].
    + eexists. split; [reflexivity |]. simpl.
      rewrite Hs2, Hs1. subst w0; simpl. apply appended_twice.
    + eauto.
    + intros Hcalls out [= <-]. simpl.
      rewrite (Hall) with (st' := st); [done | | done].
      intros i ms ds m response Hi. apply Hcalls.
      rewrite Hc1 in Hi. subst w0; simpl in Hi. exact Hi.
  - rewrite (bind_raise _ _ _ _ _ Hloop).
    exists (Raise e), w2. split; [done |].
    split; [subst w0; simpl in *; congruence |].
    split; [subst w0; simpl in *; lia |].
    split; [| split].
    + rewrite Hs2, Hs1. by subst w0.
    + intros Hnever. destruct (Hok Hnever) as [st' Hst']. discriminate.
    + by intros _ out [=].
Qed.

(** A turn whose first model call answers without tool calls ends with that
    answer after one model call. *)
Lemma turn_first_answer (self : AgentLoop) (key channel chat_id content : string)
    (media : option (list string)) (user_text fallback : string) (w : World Env)
    (response : LLMResponse) :
  (0 < max_iterations self)%Z ->
  (forall ms ds m, provider self (model_calls w) ms ds m = Ok response) ->
  has_tool_calls response = false ->
  exists w',
    turn self key channel chat_id content media user_text fallback w
    = Some (Ok (Some (outbound_message channel chat_id
                        (default fallback (Provider.content response)))), w')
    /\ model_calls w' = S (model_calls w)
    /\ sessions w'
       = <[key := default [] (sessions w !! key)
                  ++ [mkSessionMessage "user" user_text;
                      mkSessionMessage "assistant"
                        (default fallback (Provider.content response))]]>
           (sessions w).
Proof.
  intros Hmax Hprov Htc. unfold turn.
  set (w0 := set_sessions (ensured key (sessions w)) w).
  assert (Hgoc : get_or_create key w = Some (Ok key, w0)).
  { unfold get_or_create, bind, modify, ret, w0, ensured.
    destruct (sessions w !! key); [by destruct w | done]. }
  rewrite (bind_ok _ _ _ _ _ Hgoc).
  destruct (update_tool_contexts_returns self channel chat_id w0)
    as (w1 & Hctx & [Hs1 Hr1] & Hc1).
  rewrite (bind_ok _ _ _ _ _ Hctx).
  unfold session_history at 1. unfold bind at 1, gets.
  set (messages := build_messages _ content media).
  set (st0 := mkLoop 0 None messages).
  destruct (iterate_spec (provider self) (model self) (tools self)
              add_assistant_message add_tool_result st0 w1)
    as (w2 & [Hs2 Hr2] & Hc2 & Hstep).
  assert (Hw1 : model_calls w1 = model_calls w) by (by rewrite Hc1).
  rewrite Hw1, Hprov, Htc in Hstep.
  assert (Hloop : agent_loop self messages w1
                  = Some (Ok (mkLoop 1 (Provider.content response) messages), w2)).
  { unfold agent_loop, tool_loop.
    destruct (Z.to_nat (max_iterations self)) as [|k] eqn:Hk; [lia |].
    simpl. unfold cond at 1. simpl.
    replace (0 <? max_iterations self)%Z with true
      by (symmetry; apply Z.ltb_lt; lia).
    fold st0. by rewrite (bind_ok _ _ _ _ _ Hstep). }
  rewrite (bind_ok _ _ _ _ _ Hloop).
  eexists. split; [reflexivity |]. split.
  - simpl. by rewrite Hc2, Hw1.
  - simpl. rewrite Hs2, Hs1. subst w0; simpl. apply appended_twice.
Qed.

(** A turn on a provider that answers from a script. *)
Lemma scripted_turn (responses : nat -> LLMResponse) (model : string)
    (max_iterations : Z) (tools : gmap string Tool)
    (key channel chat_id content : string) (media : option (list string))
    (user_text fallback : string) (w : World Env) :
  exists out w',
    turn (mkAgent (scripted responses) model max_iterations tools)
      key channel chat_id content media user_text fallback w
    = Some (Ok (Some out), w')
    /\ (model_calls w <= model_calls w')%nat
    /\ (Z.of_nat (model_calls w' - model_calls w) <= Z.max 0 max_iterations)%Z
    /\ ((forall i, (i < Z.to_nat max_iterations)%nat ->
                   has_tool_calls (responses (model_calls w + i)%nat) = true) ->
        out_content out = fallback).
Proof.
  destruct (turn_spec (mkAgent (scripted responses) model max_iterations tools)
              key channel chat_id content media user_text fallback w)
    as (r & w' & Hturn & _ & Hcalls & Hshape & Hok & Hall).
  simpl in *.
  destruct (Hok ltac:(done)) as [out ->].
  destruct Hshape as (final_content & -> & _).
  eexists _, w'. split; [exact Hturn |]. split; [lia |]. split; [lia |].
  intros Htools. apply Hall; [| done].
  intros i ms ds m response Hi [= <-].
  replace i with (model_calls w + (i - model_calls w))%nat by lia.
  apply Htools. lia.
Qed.

(** C1.  For every inbound message and every sequence of model responses,
    [_process_message], and likewise [_process_system_message], ends after at
    most [max_iterations] model calls (none when the bound is not positive) and
    returns exactly one outbound message; when every response within the bound
    carries tool calls, its content is the fallback text of that kind of
    turn. *)
Theorem turn_terminates (responses : nat -> LLMResponse) (model : string)
    (max_iterations : Z) (tools : gmap string Tool) (msg : InboundMessage)
    (w : World Env) :
  (exists out w',
     _process_message (mkAgent (scripted responses) model max_iterations tools)
       msg w = Some (Ok (Some out), w')
     /\ (model_calls w <= model_calls w')%nat
     /\ (Z.of_nat (model_calls w' - model_calls w) <= Z.max 0 max_iterations)%Z
     /\ ((forall i, (i < Z.to_nat max_iterations)%nat ->
                    has_tool_calls (responses (model_calls w + i)%nat) = true) ->
         out_content out = turn_fallback msg))
  /\ (exists out w',
     _process_system_message
       (mkAgent (scripted responses) model max_iterations tools)
       msg w = Some (Ok (Some out), w')
     /\ (model_calls w <= model_calls w')%nat
     /\ (Z.of_nat (model_calls w' - model_calls w) <= Z.max 0 max_iterations)%Z
     /\ ((forall i, (i < Z.to_nat max_iterations)%nat ->
                    has_tool_calls (responses (model_calls w + i)%nat) = true) ->
         out_content out = system_fallback_content)).
Proof.
  split.
  - rewrite _process_message_turn. apply scripted_turn.
  - rewrite _process_system_message_turn. apply scripted_turn.
Qed.

(** C2.  Every turn that completes appends exactly two messages to the
    session it resolved, first one with role ["user"], then one with role
    ["assistant"] holding the reply, however many passes the loop made; the
    other sessions are unchanged. *)
Theorem turn_appends_two (self : AgentLoop) (msg : InboundMessage)
    (w w' : World Env) (out : option OutboundMessage) :
  _process_message self msg w = Some (Ok out, w') ->
  exists reply,
    out = Some reply
    /\ sessions w'
       = <[turn_key msg :=
             default [] (sessions w !! turn_key msg)
             ++ [mkSessionMessage "user" (turn_user_text msg);
                 mkSessionMessage "assistant" (out_content reply)]]>
           (sessions w)
    /\ length (default [] (sessions w' !! turn_key msg))
       = (length (default [] (sessions w !! turn_key msg)) + 2)%nat
    /\ (forall key, key <> turn_key msg ->
                    sessions w' !! key = sessions w !! key).
Proof.
  rewrite _process_message_turn. intros Hturn.
  destruct (turn_spec self (turn_key msg) (reply_route msg).1 (reply_route msg).2
              (in_content msg)
              (if is_system msg then None
               else match in_media msg with
                    | [] => None
                    | _ :: _ => Some (in_media msg)
                    end)
              (turn_user_text msg) (turn_fallback msg) w)
    as (r & w1 & Hspec & _ & _ & Hshape & _).
  rewrite Hturn in Hspec. injection Hspec as <- <-.
  destruct Hshape as (final_content & -> & Hs).
  eexists. split; [reflexivity |]. simpl. rewrite Hs.
  split; [done |]. split.
  - rewrite lookup_insert_eq. simpl. rewrite length_app. simpl. lia.
  - intros key Hne. by rewrite lookup_insert_ne.
Qed.

(** The reply of a turn goes to [reply_route]. *)
Lemma reply_goes_to_route (self : AgentLoop) (msg : InboundMessage)
    (w w' : World Env) (reply : OutboundMessage) :
  _process_message self msg w = Some (Ok (Some reply), w') ->
  (out_channel reply, out_chat_id reply) = reply_route msg.
Proof.
  rewrite _process_message_turn. intros Hturn.
  destruct (turn_spec self (turn_key msg) (reply_route msg).1 (reply_route msg).2
              (in_content msg)
              (if is_system msg then None
               else match in_media msg with
                    | [] => None
                    | _ :: _ => Some (in_media msg)
                    end)
              (turn_user_text msg) (turn_fallback msg) w)
    as (r & w1 & Hspec & _ & _ & Hshape & _).
  rewrite Hturn in Hspec. injection Hspec as <- <-.
  destruct Hshape as (final_content & [= ->] & _). simpl.
  by destruct (reply_route msg).
Qed.

(** When processing raises, [run] publishes the error reply and goes on. *)
Lemma run_once_on_error (self : AgentLoop) (msg : InboundMessage)
    (b' : MessageBus) (w w1 : World Env) (e : exn) :
  consume_inbound (bus (outside w)) = Some (msg, b') ->
  _process_message self msg (taken b' w) = Some (Raise e, w1) ->
  run_once self w = Some (Ok tt, published (error_reply msg e) w1).
Proof.
  intros Hq Hturn. unfold run_once. unfold bind at 1, gets. rewrite Hq.
  unfold bind at 1, modify. fold (taken b' w).
  unfold try_except. unfold bind at 1. by rewrite Hturn.
Qed.


(** No exception leaves one pass of [run], and the flag of the loop is not
    touched by it. *)
Lemma run_once_returns (self : AgentLoop) (w : World Env) :
  exists w', run_once self w = Some (Ok tt, w')
             /\ agent_running w' = agent_running w.
Proof.
  unfold run_once. unfold bind at 1, gets.
  destruct (consume_inbound (bus (outside w))) as [[msg b']|]; [| by exists w].
  unfold bind at 1, modify. fold (taken b' w).
  rewrite _process_message_turn.
  destruct (turn_spec self (turn_key msg) (reply_route msg).1 (reply_route msg).2
              (in_content msg)
              (if is_system msg then None
               else match in_media msg with
                    | [] => None
                    | _ :: _ => Some (in_media msg)
                    end)
              (turn_user_text msg) (turn_fallback msg) (taken b' w))
    as (r & w1 & Hspec & Hrun & _ & Hshape & _).
  unfold try_except. unfold bind at 1. rewrite Hspec.
  destruct r as [out|e].
  - destruct Hshape as (final_content & -> & _).
    eexists. split; [reflexivity |]. exact Hrun.
  - eexists. split; [reflexivity |]. exact Hrun.
Qed.

(** After a message whose processing raised, the loop is still polling: the
    rest of the schedule runs on the state that holds the error reply. *)
Lemma run_loop_survives (self : AgentLoop) (events : list AgentEvent)
    (later : list (list AgentEvent)) (msg : InboundMessage) (b' : MessageBus)
    (w w1 : World Env) (e : exn) :
  agent_running w = true ->
  consume_inbound (bus (outside (foldl apply_event w events))) = Some (msg, b') ->
  _process_message self msg (taken b' (foldl apply_event w events))
  = Some (Raise e, w1) ->
  run_loop self (events :: later) w
  = run_loop self later (published (error_reply msg e) w1).
Proof.
  intros Hrun Hq Hturn. simpl. unfold bind at 1, gets. rewrite Hrun.
  unfold bind at 1, modify.
  by rewrite (bind_ok _ _ _ _ _ (run_once_on_error _ _ _ _ _ _ Hq Hturn)).
Qed.

End Turn.

End AgentProps.

(** ** Background tasks *)

Module SubagentProps.
Import Py Events Bus Provider State Tools ToolLoop Subagent.
Import LoopProps.
Local Open Scope py_scope.

Section Registry.
Context {Env : Type} `{ToolSet Env}.

(** A registry holds, under a name, a tool that was registered under it. *)
Lemma registry_lookup (ts : list Tool) (reg : gmap string Tool)
    (name : string) (t : Tool) :
  foldl (fun reg t => register t reg) reg ts !! name = Some t ->
  (t ∈ ts /\ tool_name t = name) \/ reg !! name = Some t.
Proof.
  revert reg. induction ts as [|t0 ts IH]; intros reg; simpl; [by right |].
  intros Hl. destruct (IH _ Hl) as [[Hin Hn]|Hreg].
  - left. split; [by right | done].
  - unfold register in Hreg.
    destruct (decide (tool_name t0 = name)) as [Heq|Hne].
    + rewrite <- Heq, lookup_insert_eq in Hreg. injection Hreg as ->.
      left. split; [by left | done].
    + rewrite lookup_insert_ne in Hreg by done. by right.
Qed.

Lemma registry_of_lookup (ts : list Tool) (name : string) (t : Tool) :
  registry_of ts !! name = Some t -> t ∈ ts /\ tool_name t = name.
Proof.
  intros Hl. destruct (registry_lookup ts ∅ name t Hl) as [?|Hempty]; [done |].
  by rewrite lookup_empty in Hempty.
Qed.

Lemma subagent_tools_external (t : Tool) :
  t ∈ subagent_tools -> exists e, t = External e.
Proof.
  unfold subagent_tools. intros Hin.
  repeat (apply elem_of_cons in Hin as [->|Hin]; [eauto |]).
  by apply elem_of_nil in Hin.
Qed.

Lemma elem_of_take_subagent_tools (k : nat) (t : Tool) :
  t ∈ take k subagent_tools -> t ∈ subagent_tools.
Proof. intros Hin. eapply subseteq_take. exact Hin. Qed.

End Registry.

(** Two runs of the loop, each with its own tools, registry and provider,
    agree when the providers agree on the definitions the registries advertise
    and the registries execute every call alike: the loop reaches its registry
    through [get_definitions] and [execute] only. *)
Section Agreement.
Context {Env : Type} `{JsonLib}.

Variables T1 T2 : ToolSet Env.
Variables provider1 provider2 : LLMProvider.
Variable model : string.
Variables tools1 tools2 : gmap string Tool.
Variable add_assistant :
  list ChatMessage -> option string -> list ToolCallDict -> list ChatMessage.
Variable add_result :
  list ChatMessage -> string -> string -> string -> list ChatMessage.

Hypothesis advertised :
  forall i ms,
    provider1 i ms (@get_definitions Env T1 tools1) model
    = provider2 i ms (@get_definitions Env T2 tools2) model.
Hypothesis executed :
  forall name args (w : World Env),
    @execute Env T1 tools1 name args w = @execute Env T2 tools2 name args w.

Lemma tool_calls_agree (calls : list ToolCallRequest) :
  forall (messages : list ChatMessage) (w : World Env),
    for_each calls
      (fun messages tool_call =>
         bind (@execute Env T1 tools1 (tc_name tool_call) (tc_arguments tool_call))
           (fun result =>
              ret (add_result messages (tc_id tool_call) (tc_name tool_call) result)))
      messages w
    = for_each calls
        (fun messages tool_call =>
           bind (@execute Env T2 tools2 (tc_name tool_call) (tc_arguments tool_call))
             (fun result =>
                ret (add_result messages (tc_id tool_call) (tc_name tool_call) result)))
        messages w.
Proof.
  intros messages w. apply for_each_ext.
  intros acc tc s. unfold bind. by rewrite executed.
Qed.

Lemma iterate_agree (st : LoopState) (w : World Env) :
  @iterate Env T1 _ provider1 model tools1 add_assistant add_result st w
  = @iterate Env T2 _ provider2 model tools2 add_assistant add_result st w.
Proof.
  unfold iterate. apply bind_ext.
  - unfold provider_chat. by rewrite advertised.
  - intros response s. destruct (has_tool_calls response); [| done].
    apply bind_ext; [apply tool_calls_agree | done].
Qed.

Lemma tool_loop_agree (fuel : nat) (max_iterations : Z)
    (messages : list ChatMessage) (w : World Env) :
  @tool_loop Env T1 _ provider1 model tools1 add_assistant add_result fuel
    max_iterations messages w
  = @tool_loop Env T2 _ provider2 model tools2 add_assistant add_result fuel
      max_iterations messages w.
Proof. unfold tool_loop. apply while_ext, iterate_agree. Qed.

End Agreement.

Section Task.
Context {Env : Type} {T : ToolSet Env} `{JsonLib} `{Entropy}.

(** Tools [other] that differ from the tools [T] at hand in the message tool
    and the spawn tool at most give the subagent the same registry, which
    advertises and executes the same. *)
Lemma subagent_registry_agree (other : ToolSet Env) :
  (forall e, @external_name Env other e = @external_name Env T e) ->
  @registry_of Env other subagent_tools = @registry_of Env T subagent_tools.
Proof.
  intros Hname. unfold registry_of. generalize (∅ : gmap string Tool).
  induction subagent_tools as [|t ts IH]; intros reg; simpl; [done |].
  rewrite IH. f_equal. unfold register. f_equal.
  destruct t; simpl; [apply Hname | done | done].
Qed.

Lemma subagent_definitions_agree (other : ToolSet Env) :
  (forall e, @definition Env other (External e)
             = @definition Env T (External e)) ->
  @get_definitions Env other (@registry_of Env T subagent_tools)
  = @get_definitions Env T (@registry_of Env T subagent_tools).
Proof.
  intros Hdef. unfold get_definitions. apply map_ext_in.
  intros [name t] Hin. simpl.
  apply list_elem_of_In, elem_of_map_to_list in Hin.
  apply (@registry_of_lookup Env T) in Hin as [Hin _].
  apply subagent_tools_external in Hin as [e ->]. apply Hdef.
Qed.

Lemma subagent_execute_agree (other : ToolSet Env) (name : string)
    (args : Json) (w : World Env) :
  (forall e args o,
     @run_tool Env other (External e) args o
     = @run_tool Env T (External e) args o) ->
  (forall name, @not_found Env other name = @not_found Env T name) ->
  @execute Env other (@registry_of Env T subagent_tools) name args w
  = @execute Env T (@registry_of Env T subagent_tools) name args w.
Proof.
  intros Hrun Hnot. unfold execute, get.
  destruct (@registry_of Env T subagent_tools !! name) as [t|] eqn:Hl.
  - apply (@registry_of_lookup Env T) in Hl as [Hin _].
    apply subagent_tools_external in Hin as [e ->].
    unfold on_outside, call. by rewrite Hrun.
  - unfold ret. by rewrite Hnot.
Qed.

(** The task, for tools that differ in the message tool and the spawn tool
    at most. *)
Lemma run_subagent_without_message_spawn (other : ToolSet Env)
    (self : SubagentManager) (task_id task label : string)
    (origin : string * string) (w : World Env) :
  (forall e, @external_name Env other e = @external_name Env T e) ->
  (forall e, @definition Env other (External e)
             = @definition Env T (External e)) ->
  (forall e args o,
     @run_tool Env other (External e) args o
     = @run_tool Env T (External e) args o) ->
  (forall name, @not_found Env other name = @not_found Env T name) ->
  @_run_subagent Env other _ self task_id task label origin w
  = @_run_subagent Env T _ self task_id task label origin w.
Proof.
  intros Hname Hdef Hrun Hnot.
  assert (Hbody :
    @subagent_body Env other _ self task_id task label origin w
    = @subagent_body Env T _ self task_id task label origin w).
  { unfold subagent_body. apply bind_ext; [| done].
    apply tool_loop_agree.
    - intros i ms. rewrite (subagent_registry_agree other Hname).
      by rewrite (subagent_definitions_agree other Hdef).
    - intros name args w0. rewrite (subagent_registry_agree other Hname).
      by apply subagent_execute_agree. }
  unfold _run_subagent, try_except. by rewrite Hbody.
Qed.

(** The task, for a provider that differs on other tool definitions than
    those of the registry of the task at most. *)
Lemma run_subagent_advertises (self self' : SubagentManager)
    (task_id task label : string) (origin : string * string) (w : World Env) :
  sa_workspace self' = sa_workspace self ->
  sa_model self' = sa_model self ->
  (forall i ms m,
     sa_provider self' i ms (get_definitions (registry_of subagent_tools)) m
     = sa_provider self i ms (get_definitions (registry_of subagent_tools)) m) ->
  _run_subagent self' task_id task label origin w
  = _run_subagent self task_id task label origin w.
Proof.
  intros Hws Hmodel Hprov.
  assert (Hbody :
    subagent_body self' task_id task label origin w
    = subagent_body self task_id task label origin w).
  { unfold subagent_body, _build_subagent_prompt. rewrite Hws, Hmodel.
    apply bind_ext; [| done].
    apply tool_loop_agree; [| done]. intros i ms. apply Hprov. }
  unfold _run_subagent, try_except. by rewrite Hbody.
Qed.

(** The [try] block of a subagent ends, after at most 15 model calls; it
    raises only what the model call raised, and otherwise announces ["ok"]. *)
Lemma subagent_body_spec (self : SubagentManager)
    (task_id task label : string) (origin : string * string) (w : World Env) :
  exists r w1,
    subagent_body self task_id task label origin w = Some (r, w1)
    /\ (model_calls w <= model_calls w1 <= model_calls w + 15)%nat
    /\ match r with
       | Ok _ =>
           exists w0 result,
             w1 = announced (announcement label task result origin "ok") w0
       | Raise _ => True
       end.
Proof.
  unfold subagent_body.
  set (messages := [RoleContent "system" _; RoleContent "user" task]).
  set (st0 := mkLoop 0 None messages).
  destruct (while_iterate (sa_provider self) (sa_model self)
              (registry_of subagent_tools) append_assistant append_result
              subagent_max_iterations (Z.to_nat subagent_max_iterations) st0 w)
    as (r & w1 & Hloop & _ & Hcalls & _).
  { unfold remaining, st0; simpl. lia. }
  change (tool_loop (sa_provider self) (sa_model self)
            (registry_of subagent_tools) append_assistant append_result
            (Z.to_nat subagent_max_iterations) subagent_max_iterations messages w
          = Some (r, w1)) in Hloop.
  assert (Hrem : remaining subagent_max_iterations st0 = 15%nat) by reflexivity.
  rewrite Hrem in Hcalls.
  destruct r as [st|e].
  - rewrite (bind_ok _ _ _ _ _ Hloop).
    eexists (Ok tt), _. split; [reflexivity |]. split; [simpl; lia |].
    eexists w1, _. reflexivity.
  - rewrite (bind_raise _ _ _ _ _ Hloop).
    exists (Raise e), w1. split; [done |]. split; [lia | done].
Qed.

(** C5.  A subagent task never raises: whatever is raised inside its [try]
    block is caught there, and the task then publishes, as a new inbound
    message on the ["system"] channel, the announcement with status
    ["error"]; the task with its done callback returns normally as well, so
    nothing reaches the caller of [spawn] or the foreground loop. *)
Theorem subagent_failure_is_announced (self : SubagentManager)
    (t : SubagentTask) (w : World Env) :
  (exists w', _run_subagent self (task_id t) (task t) (label t)
                (origin_channel t, origin_chat_id t) w = Some (Ok tt, w'))
  /\ (exists w', run_task self t w = Some (Ok tt, w'))
  /\ (forall e w1,
        subagent_body self (task_id t) (task t) (label t)
          (origin_channel t, origin_chat_id t) w = Some (Raise e, w1) ->
        let m := announcement (label t) (task t) ("错误: " +:+ e)
                   (origin_channel t, origin_chat_id t) "error" in
        _run_subagent self (task_id t) (task t) (label t)
          (origin_channel t, origin_chat_id t) w
        = Some (Ok tt, announced m w1)
        /\ inbound (bus (outside (announced m w1)))
           = inbound (bus (outside w1)) ++ [m]
        /\ in_channel m = "system"
        /\ in_content m
           = announce_content (label t) (task t) ("错误: " +:+ e) "error").
Proof.
  assert (Hrun : exists w', _run_subagent self (task_id t) (task t) (label t)
                   (origin_channel t, origin_chat_id t) w = Some (Ok tt, w')).
  { unfold _run_subagent, try_except.
    destruct (subagent_body_spec self (task_id t) (task t) (label t)
                (origin_channel t, origin_chat_id t) w)
      as ([[]|e] & w1 & -> & _ & _); eexists; reflexivity. }
  split; [exact Hrun |]. split.
  - destruct Hrun as [w' Hw']. unfold run_task.
    rewrite (bind_ok _ _ _ _ _ Hw'). eexists. reflexivity.
  - intros e w1 Hbody. simpl.
    split; [| by repeat split].
    unfold _run_subagent. by rewrite (try_except_catches _ _ _ _ _ Hbody).
Qed.

(** C8.  The registry of a subagent task is built from an empty one by
    registering tools of the external classes only: at no point of its
    construction does it hold the message tool or the spawn tool, nor, the
    external classes declaring other names, anything under the names
    ["message"] and ["spawn"]; and the task makes at most 15 model calls.
    This registry is the one the task runs against: the task is the same
    whatever the message tool and the spawn tool advertise and do, and the
    model is only ever shown the definitions of this registry, so that a
    provider which differs on other definitions gives the same task. *)
Theorem subagent_is_restricted :
  (forall k name t,
     registry_of (take k subagent_tools) !! name = Some t ->
     t <> MessageTool /\ t <> SpawnTool)
  /\ ((forall e, external_name e <> "message" /\ external_name e <> "spawn") ->
      forall k,
        registry_of (take k subagent_tools) !! "message" = None
        /\ registry_of (take k subagent_tools) !! "spawn" = None)
  /\ (forall (self : SubagentManager) (t : SubagentTask) (w : World Env),
        exists r w',
          _run_subagent self (task_id t) (task t) (label t)
            (origin_channel t, origin_chat_id t) w = Some (r, w')
          /\ (model_calls w' - model_calls w <= 15)%nat)
  /\ (forall (other : ToolSet Env),
        (forall e, @external_name Env other e = @external_name Env T e) ->
        (forall e, @definition Env other (External e)
                   = @definition Env T (External e)) ->
        (forall e args o,
           @run_tool Env other (External e) args o
           = @run_tool Env T (External e) args o) ->
        (forall name, @not_found Env other name = @not_found Env T name) ->
        forall (self : SubagentManager) (t : SubagentTask) (w : World Env),
          @_run_subagent Env other _ self (task_id t) (task t) (label t)
            (origin_channel t, origin_chat_id t) w
          = @_run_subagent Env T _ self (task_id t) (task t) (label t)
              (origin_channel t, origin_chat_id t) w)
  /\ (forall (self self' : SubagentManager),
        sa_workspace self' = sa_workspace self ->
        sa_model self' = sa_model self ->
        (forall i ms m,
           sa_provider self' i ms
             (get_definitions (registry_of subagent_tools)) m
           = sa_provider self i ms
               (get_definitions (registry_of subagent_tools)) m) ->
        forall (t : SubagentTask) (w : World Env),
          _run_subagent self' (task_id t) (task t) (label t)
            (origin_channel t, origin_chat_id t) w
          = _run_subagent self (task_id t) (task t) (label t)
              (origin_channel t, origin_chat_id t) w).
Proof.
  split; [| split; [| split; [| split]]].
  - intros k name t Hl.
    apply registry_of_lookup in Hl as [Hin _].
    apply elem_of_take_subagent_tools, subagent_tools_external in Hin as [e ->].
    by split.
  - intros Hnames k.
    split.
    + destruct (registry_of (take k subagent_tools) !! "message") as [t|] eqn:Hl;
        [| done].
      apply registry_of_lookup in Hl as [Hin Hn].
      apply elem_of_take_subagent_tools, subagent_tools_external in Hin as [e ->].
      simpl in Hn. by destruct (Hnames e).
    + destruct (registry_of (take k subagent_tools) !! "spawn") as [t|] eqn:Hl;
        [| done].
      apply registry_of_lookup in Hl as [Hin Hn].
      apply elem_of_take_subagent_tools, subagent_tools_external in Hin as [e ->].
      simpl in Hn. by destruct (Hnames e).
  - intros self t w. unfold _run_subagent, try_except.
    destruct (subagent_body_spec self (task_id t) (task t) (label t)
                (origin_channel t, origin_chat_id t) w)
      as ([[]|e] & w1 & -> & Hcalls & _).
    + eexists _, _. split; [reflexivity | lia].
    + eexists _, _. split; [reflexivity | simpl; lia].
  - intros other Hname Hdef Hrun Hnot self t w.
    by apply run_subagent_without_message_spawn.
  - intros self self' Hws Hmodel Hprov t w.
    by apply run_subagent_advertises.
Qed.

End Task.

End SubagentProps.

(** ** Task ids *)

Module SpawnProps.
Import Py Events Bus Provider State Tools ToolLoop Subagent.

Section Spawn.
Context {Env : Type} `{Entropy}.

Lemma spawn_one_tasks (o : Outside Env) (r : SpawnRequest) :
  exists t,
    running_tasks (spawn_one o r) = <[allocated_id o := t]> (running_tasks o)
    /\ task_id t = allocated_id o /\ task t = req_task r
    /\ origin_channel t = req_channel r /\ origin_chat_id t = req_chat_id r.
Proof. unfold spawn_one, spawn. simpl. eexists. by repeat split. Qed.

Lemma spawn_one_draws (o : Outside Env) (r : SpawnRequest) :
  uuid_calls (spawn_one o r) = S (uuid_calls o).
Proof. reflexivity. Qed.

(** Later calls leave alone the entries under ids they do not draw. *)
Lemma spawn_all_other (reqs : list SpawnRequest) (o : Outside Env) (id : string) :
  id ∉ drawn_ids (uuid_calls o) (length reqs) ->
  running_tasks (spawn_all reqs o) !! id = running_tasks o !! id.
Proof.
  unfold spawn_all.
  revert o. induction reqs as [|r reqs IH]; intros o Hid; simpl; [done |].
  unfold drawn_ids in Hid. simpl in Hid.
  apply not_elem_of_cons in Hid as [Hne Hid].
  rewrite IH by (by rewrite spawn_one_draws).
  destruct (spawn_one_tasks o r) as (t & -> & _).
  by rewrite lookup_insert_ne.
Qed.

(** C9, as amended.  [spawn] takes the first 8 characters of a fresh UUID as
    the task id and does not look at the active-task map.  When the ids drawn
    for [K] calls are pairwise distinct and none of them is the id of a task
    that is still active, the map grows by [K] entries, and every one of the
    [K] tasks is recorded under its own id. *)
Theorem spawn_ids_distinct (reqs : list SpawnRequest) (o : Outside Env) :
  NoDup (drawn_ids (uuid_calls o) (length reqs)) ->
  (forall id, id ∈ drawn_ids (uuid_calls o) (length reqs) ->
              running_tasks o !! id = None) ->
  size (running_tasks (spawn_all reqs o))
  = (size (running_tasks o) + length reqs)%nat
  /\ (forall i r, reqs !! i = Some r ->
        exists t,
          running_tasks (spawn_all reqs o)
            !! py_take 8 (uuid4_str (uuid_calls o + i)) = Some t
          /\ task_id t = py_take 8 (uuid4_str (uuid_calls o + i))
          /\ task t = req_task r).
Proof.
  unfold spawn_all.
  revert o. induction reqs as [|r reqs IH]; intros o Hnodup Hfresh; simpl.
  - split; [lia | done].
  - unfold drawn_ids in Hnodup, Hfresh. simpl in Hnodup, Hfresh.
    apply NoDup_cons in Hnodup as [Hhead Hnodup].
    destruct (spawn_one_tasks o r) as (t & Htasks & Htid & Htask & _).
    destruct (IH (spawn_one o r)) as [Hsize Hall].
    { by rewrite spawn_one_draws. }
    { rewrite spawn_one_draws. intros id Hid. rewrite Htasks.
      rewrite lookup_insert_ne.
      - apply Hfresh. by right.
      - intros Heq. apply Hhead. unfold allocated_id in Heq. by rewrite Heq. }
    split.
    + rewrite Hsize, Htasks.
      rewrite map_size_insert_None; [lia |]. apply Hfresh. by left.
    + intros [|i] r' Hr'; simpl in Hr'.
      * injection Hr' as <-. exists t. rewrite Nat.add_0_r.
        fold (spawn_all reqs (spawn_one o r)).
        rewrite spawn_all_other by (by rewrite spawn_one_draws).
        rewrite Htasks. fold (allocated_id o). rewrite lookup_insert_eq.
        by rewrite Htid, Htask.
      * destruct (Hall i r' Hr') as (t' & Hl & Hid' & Htask').
        rewrite spawn_one_draws in Hl, Hid'.
        replace (uuid_calls o + S i)%nat with (S (uuid_calls o) + i)%nat by lia.
        by exists t'.
Qed.

(** Two calls one after the other get the same id exactly when their draws
    agree on the first 8 characters. *)
Lemma spawn_twice_ids (o : Outside Env) (r : SpawnRequest) :
  allocated_id o = allocated_id (spawn_one o r)
  <-> py_take 8 (uuid4_str (uuid_calls o))
      = py_take 8 (uuid4_str (S (uuid_calls o))).
Proof. unfold allocated_id. by rewrite spawn_one_draws. Qed.

End Spawn.

End SpawnProps.

(** ** The loop, by the outcome of each model call *)

Module CallProps.
Import Py Events Bus Provider State Tools ToolLoop Subagent Agent.
Import LoopProps AgentProps.
Local Open Scope py_scope.

Section Calls.
Context {Env : Type} `{ToolSet Env} `{JsonLib}.

Variable provider : LLMProvider.
Variable model : string.
Variable tools : gmap string Tool.
Variable add_assistant :
  list ChatMessage -> option string -> list ToolCallDict -> list ChatMessage.
Variable add_result :
  list ChatMessage -> string -> string -> string -> list ChatMessage.
Variable max_iterations : Z.

(** The loop when its next [k] model calls answer with tool calls and call
    [k], still within the bound, has the outcome [outcome], either an exception
    or a response without tool calls: the loop makes [k + 1] model calls and
    ends with that outcome. *)
Lemma while_calls (outcome : result LLMResponse) (k : nat) :
  forall (fuel : nat) (st : LoopState) (w : World Env),
    (remaining max_iterations st <= fuel)%nat ->
    (k < remaining max_iterations st)%nat ->
    (forall i ms ds m,
       (i < k)%nat ->
       exists r, provider (model_calls w + i)%nat ms ds m = Ok r
                 /\ has_tool_calls r = true) ->
    (forall ms ds m, provider (model_calls w + k)%nat ms ds m = outcome) ->
    (forall r, outcome = Ok r -> has_tool_calls r = false) ->
    exists res w',
      while fuel (cond max_iterations)
        (iterate provider model tools add_assistant add_result) st w
      = Some (res, w')
      /\ model_calls w' = (model_calls w + k + 1)%nat
      /\ same_private w w'
      /\ match outcome with
         | Ok r => exists st', res = Ok st' /\ final st' = content r
         | Raise e => res = Raise e
         end.
Proof.
  induction k as [|k IH]; intros fuel st w Hfuel Hlt Hcalls Hout Hfinal.
  - destruct fuel as [|fuel]; [lia |]. simpl.
    rewrite (proj2 (cond_remaining max_iterations st) Hlt).
    destruct (iterate_spec provider model tools add_assistant add_result st w)
      as (w1 & Hpriv & Hc1 & Hstep).
    specialize (Hout (messages st) (get_definitions tools) model).
    rewrite Nat.add_0_r in Hout. rewrite Hout in Hstep.
    destruct outcome as [r|e].
    + rewrite (Hfinal r eq_refl) in Hstep.
      rewrite (bind_ok _ _ _ _ _ Hstep). simpl.
      eexists _, w1. split; [reflexivity |]. split; [lia |].
      split; [exact Hpriv |]. eexists. split; reflexivity.
    + rewrite (bind_raise _ _ _ _ _ Hstep).
      exists (Raise e), w1. split; [done |]. split; [lia |]. by split.
  - destruct fuel as [|fuel]; [lia |]. simpl.
    rewrite (proj2 (cond_remaining max_iterations st) ltac:(lia)).
    destruct (iterate_spec provider model tools add_assistant add_result st w)
      as (w1 & Hpriv & Hc1 & Hstep).
    destruct (Hcalls 0%nat (messages st) (get_definitions tools) model
                ltac:(lia)) as (r0 & Hr0 & Htc0).
    rewrite Nat.add_0_r in Hr0. rewrite Hr0, Htc0 in Hstep.
    destruct Hstep as (messages' & Hstep).
    rewrite (bind_ok _ _ _ _ _ Hstep). simpl.
    set (st1 := mkLoop (iteration st + 1) (final st) messages').
    assert (Hrem : remaining max_iterations st1
                   = (remaining max_iterations st - 1)%nat).
    { unfold remaining, st1; simpl. unfold remaining in Hlt. lia. }
    destruct (IH fuel st1 w1) as (res & w' & Hloop & Hc & Hp & Hres);
      [lia | lia | | | exact Hfinal |].
    + intros i ms ds m Hi. rewrite Hc1.
      replace (S (model_calls w) + i)%nat with (model_calls w + S i)%nat by lia.
      apply Hcalls. lia.
    + intros ms ds m. rewrite Hc1.
      replace (S (model_calls w) + k)%nat with (model_calls w + S k)%nat by lia.
      apply Hout.
    + exists res, w'. split; [exact Hloop |]. split; [lia |].
      split; [eapply same_private_trans; eassumption | exact Hres].
Qed.

End Calls.

Section Turn.
Context {Env : Type} `{ToolSet Env} `{JsonLib} `{Entropy}
        `{ContextBuilder} `{SessionView}.

(** A turn when its first [k] model calls answer with tool calls and call
    [k], still within the bound, has the outcome [outcome]: an exception leaves
    the turn before anything is added to the session; a response without tool
    calls is the reply. *)
Lemma turn_calls (self : AgentLoop) (key channel chat_id content : string)
    (media : option (list string)) (user_text fallback : string)
    (w : World Env) (outcome : result LLMResponse) (k : nat) :
  (k < Z.to_nat (max_iterations self))%nat ->
  (forall i ms ds m,
     (i < k)%nat ->
     exists r, provider self (model_calls w + i)%nat ms ds m = Ok r
               /\ has_tool_calls r = true) ->
  (forall ms ds m, provider self (model_calls w + k)%nat ms ds m = outcome) ->
  (forall r, outcome = Ok r -> has_tool_calls r = false) ->
  exists w',
    model_calls w' = (model_calls w + k + 1)%nat
    /\ match outcome with
       | Ok r =>
           turn self key channel chat_id content media user_text fallback w
           = Some (Ok (Some (outbound_message channel chat_id
                               (default fallback (Provider.content r)))), w')
           /\ sessions w'
              = <[key := default [] (sessions w !! key)
                         ++ [mkSessionMessage "user" user_text;
                             mkSessionMessage "assistant"
                               (default fallback (Provider.content r))]]>
                  (sessions w)
       | Raise e =>
           turn self key channel chat_id content media user_text fallback w
           = Some (Raise e, w')
           /\ sessions w' = ensured key (sessions w)
       end.
Proof.
  intros Hlt Hcalls Hout Hfinal.
  set (w0 := set_sessions (ensured key (sessions w)) w).
  assert (Hgoc : get_or_create key w = Some (Ok key, w0)).
  { unfold get_or_create, bind, modify, ret, w0, ensured.
    destruct (sessions w !! key); [by destruct w | done]. }
  destruct (update_tool_contexts_returns self channel chat_id w0)
    as (w1 & Hctx & [Hs1 Hr1] & Hc1).
  set (messages :=
         build_messages (get_history (default [] (sessions w1 !! key)))
           content media).
  set (st0 := mkLoop 0 None messages).
  assert (Hw1 : model_calls w1 = model_calls w) by (by rewrite Hc1).
  assert (Hrem : remaining (max_iterations self) st0
                 = Z.to_nat (max_iterations self)).
  { unfold remaining, st0; simpl. f_equal. lia. }
  destruct (while_calls (provider self) (model self) (tools self)
              add_assistant_message add_tool_result (max_iterations self)
              outcome k (Z.to_nat (max_iterations self)) st0 w1)
    as (res & w2 & Hloop & Hc2 & [Hs2 Hr2] & Hres);
    [lia | lia | | | exact Hfinal |].
  { intros i ms ds m Hi. rewrite Hw1. by apply Hcalls. }
  { intros ms ds m. rewrite Hw1. apply Hout. }
  change (agent_loop self messages w1 = Some (res, w2)) in Hloop.
  destruct outcome as [r|e].
  - destruct Hres as (st' & -> & Hf).
    unfold turn.
    rewrite (bind_ok _ _ _ _ _ Hgoc), (bind_ok _ _ _ _ _ Hctx).
    unfold session_history at 1. unfold bind at 1, gets.
    fold messages. rewrite (bind_ok _ _ _ _ _ Hloop), Hf.
    eexists. split; [| split; [reflexivity |]].
    + simpl. lia.
    + simpl. rewrite Hs2, Hs1. subst w0; simpl. apply appended_twice.
  - subst res. unfold turn.
    rewrite (bind_ok _ _ _ _ _ Hgoc), (bind_ok _ _ _ _ _ Hctx).
    unfold session_history at 1. unfold bind at 1, gets.
    fold messages. rewrite (bind_raise _ _ _ _ _ Hloop).
    exists w2. split; [lia |]. split; [done |].
    rewrite Hs2, Hs1. by subst w0.
Qed.

End Turn.

End CallProps.

(** ** The LiteLLM provider *)

Module ProviderProps.
Import Py Events Bus Provider State Tools ToolLoop Subagent Agent.
Import LoopProps AgentProps CallProps.

Section Chat.
Variable lower : string -> string.
Variable json_loads : string -> LoadsOutcome.

(** [chat] returns what its [try] block returns, and the error response when
    that block raises. *)
Lemma chat_returns (self : LiteLLMProvider)
    (acompletion : Kwargs -> result RawResponse)
    (messages : list ChatMessage) (tools : option (list Json))
    (model : option string) (max_tokens : Z) (temperature : Q) :
  chat lower json_loads self acompletion messages tools model max_tokens
    temperature
  = Ok match completion json_loads acompletion
               (build_kwargs lower self messages tools model max_tokens
                  temperature) with
       | Ok r => r
       | Raise e => mkResponse (Some (failure_text e)) [] "error" []
       end.
Proof. unfold chat. by destruct (completion _ _ _). Qed.

Context {Env : Type} `{ToolSet Env} `{JsonLib} `{Entropy}
        `{ContextBuilder} `{SessionView}.

(** C10.  [LiteLLMProvider.chat] returns for every input.  When its [try]
    block raises, be it the completion call or the reading of its answer (no
    choice, or an argument text on which [json.loads] raises something other
    than [json.JSONDecodeError]), the response holds the description of the
    error as its content, the finish reason ["error"] and no tool calls.  A
    turn in which a model call fails in this way, the first one or one that
    follows passes with tool calls, ends normally at that call with that text
    as its answer, which is stored in the session as the assistant's
    message. *)
Theorem chat_never_raises (self : LiteLLMProvider) :
  (forall acompletion messages tools model max_tokens temperature,
     exists r,
       chat lower json_loads self acompletion messages tools model max_tokens
         temperature = Ok r
       /\ (forall e,
             completion json_loads acompletion
               (build_kwargs lower self messages tools model max_tokens
                  temperature) = Raise e ->
             content r = Some (failure_text e)
             /\ finish_reason r = "error"
             /\ tool_calls r = []
             /\ has_tool_calls r = false)
       /\ (forall e,
             acompletion (build_kwargs lower self messages tools model
                            max_tokens temperature) = Raise e ->
             completion json_loads acompletion
               (build_kwargs lower self messages tools model max_tokens
                  temperature) = Raise e)
       /\ (forall raw e,
             acompletion (build_kwargs lower self messages tools model
                            max_tokens temperature) = Ok raw ->
             _parse_response json_loads raw = Raise e ->
             completion json_loads acompletion
               (build_kwargs lower self messages tools model max_tokens
                  temperature) = Raise e))
  /\ (forall (backend : nat -> Kwargs -> result RawResponse) (model : string)
        (max_iterations : Z) (tools : gmap string Tool) (msg : InboundMessage)
        (w : World Env) (e : exn) (k : nat),
        (k < Z.to_nat max_iterations)%nat ->
        (forall i ms ds m,
           (i < k)%nat ->
           exists r,
             as_provider lower json_loads self backend (model_calls w + i)%nat
               ms ds m = Ok r
             /\ has_tool_calls r = true) ->
        (forall kwargs,
           completion json_loads (backend (model_calls w + k)%nat) kwargs
           = Raise e) ->
        exists w',
          _process_message
            (mkAgent (as_provider lower json_loads self backend) model
               max_iterations tools) msg w
          = Some (Ok (Some (outbound_message (reply_route msg).1
                              (reply_route msg).2 (failure_text e))), w')
          /\ model_calls w' = (model_calls w + k + 1)%nat
          /\ sessions w'
             = <[turn_key msg :=
                   default [] (sessions w !! turn_key msg)
                   ++ [mkSessionMessage "user" (turn_user_text msg);
                       mkSessionMessage "assistant" (failure_text e)]]>
                 (sessions w)).
Proof.
  split.
  - intros acompletion messages tools model max_tokens temperature.
    rewrite chat_returns. eexists. split; [reflexivity |].
    split; [| split].
    + intros e ->. by repeat split.
    + intros e He. unfold completion. by rewrite He.
    + intros raw e Hraw He. unfold completion. by rewrite Hraw.
  - intros backend model max_iterations tools msg w e k Hlt Hcalls Hfail.
    rewrite _process_message_turn.
    destruct (turn_calls
                (mkAgent (as_provider lower json_loads self backend) model
                   max_iterations tools)
                (turn_key msg) (reply_route msg).1 (reply_route msg).2
                (in_content msg)
                (if is_system msg then None
                 else match in_media msg with
                      | [] => None
                      | _ :: _ => Some (in_media msg)
                      end)
                (turn_user_text msg) (turn_fallback msg) w
                (Ok (mkResponse (Some (failure_text e)) [] "error" [])) k)
      as (w' & Hc & Hturn & Hs); [exact Hlt | exact Hcalls | | |].
    + intros ms ds m. simpl. unfold as_provider.
      rewrite chat_returns. by rewrite Hfail.
    + by intros r [= <-].
    + exists w'. split; [exact Hturn |]. split; [exact Hc | exact Hs].
Qed.

End Chat.

End ProviderProps.

(** ** Scenarios on concrete collaborators *)

Module Scenarios.
Import Py Events Bus Provider State Tools ToolLoop Subagent Agent.
Import LoopProps AgentProps SubagentProps SpawnProps ProviderProps.
Import Fixtures.

(** The scenario of the design document: the question ["2+2?"], answered at
    once: one model call, the reply on the same route, two session entries. *)
Example scenario_direct_answer :
  _process_message (AgentLoop_init (scripted (fun _ => answer "4")) "m" 20)
    (ask "2+2?") empty_world
  = Some (Ok (Some (outbound_message "cli" "direct" "4")), answered_world).
Proof. vm_compute. reflexivity. Qed.

(** One tool call, then the answer: two model calls. *)
Example scenario_one_tool_call :
  (fun r => match r with
            | Some (Ok (Some out), w) => Some (out_content out, model_calls w)
            | _ => None
            end)
    (_process_message
       (AgentLoop_init
          (scripted (fun i => if Nat.eqb i 0 then call_tool "exec" (JStr "hi")
                              else answer "done"))
          "m" 20)
       (ask "run it") empty_world)
  = Some ("done", 2).
Proof. vm_compute. reflexivity. Qed.

(** A model that always asks for a tool: the loop stops at the bound with the
    fallback text. *)
Example scenario_bound_reached :
  (fun r => match r with
            | Some (Ok (Some out), w) => Some (out_content out, model_calls w)
            | _ => None
            end)
    (_process_message
       (AgentLoop_init (scripted (fun _ => call_tool "exec" (JStr "hi"))) "m" 20)
       (ask "loop") empty_world)
  = Some (fallback_content, 20).
Proof. vm_compute. reflexivity. Qed.

Lemma turn_terminates_witness :
  exists out w',
    _process_message
      (mkAgent (scripted (fun _ => call_tool "exec" (JStr "hi"))) "m" 3
         (registry_of default_tools))
      (ask "loop") empty_world
    = Some (Ok (Some out), w')
    /\ out_content out = turn_fallback (ask "loop").
Proof.
  destruct (turn_terminates (fun _ => call_tool "exec" (JStr "hi")) "m" 3
              (registry_of default_tools) (ask "loop") empty_world)
    as [(out & w' & Hturn & _ & _ & Hfallback) _].
  exists out, w'. split; [exact Hturn |].
  apply Hfallback. intros i Hi. reflexivity.
Defined.

Lemma turn_appends_two_witness :
  exists reply,
    Some (outbound_message "cli" "direct" "4") = Some reply
    /\ sessions answered_world
       = <[turn_key (ask "2+2?") :=
             default [] (sessions empty_world !! turn_key (ask "2+2?"))
             ++ [mkSessionMessage "user" (turn_user_text (ask "2+2?"));
                 mkSessionMessage "assistant" (out_content reply)]]>
           (sessions empty_world)
    /\ length (default [] (sessions answered_world !! turn_key (ask "2+2?")))
       = (length (default [] (sessions empty_world !! turn_key (ask "2+2?")))
          + 2)%nat
    /\ (forall key, key <> turn_key (ask "2+2?") ->
                    sessions answered_world !! key = sessions empty_world !! key).
Proof.
  apply (turn_appends_two
           (AgentLoop_init (scripted (fun _ => answer "4")) "m" 20)
           (ask "2+2?") empty_world answered_world
           (Some (outbound_message "cli" "direct" "4"))).
  vm_compute. reflexivity.
Defined.

(** *** A failing turn on a subagent's announcement *)

(** C4, where the code departs from it.  The announcement of a subagent is
    taken from the queue and its processing raises.  [run] publishes exactly
    one error message and keeps polling, but the message is addressed to the
    channel ["system"] with the encoded origin as chat id, while the reply of
    the same turn, had it completed, is routed to the chat 42 on telegram. *)
Theorem error_reply_misrouted :
  outbound_after (run (AgentLoop_init failing_provider "m" 20) [[]; []])
    (with_inbound [telegram_announcement] empty_world)
  = Some [outbound_message "system" "telegram:42" "抱歉，发生了错误: boom"]
  /\ outbound_after
       (run (AgentLoop_init failing_provider "m" 20)
          [[]; [Arrives (ask "2+2?")]])
       (with_inbound [telegram_announcement] empty_world)
     = Some [outbound_message "system" "telegram:42" "抱歉，发生了错误: boom";
             outbound_message "cli" "direct" "抱歉，发生了错误: boom"]
  /\ reply_route telegram_announcement = ("telegram", "42")
  /\ outbound_after
       (run (AgentLoop_init (scripted (fun _ => answer "Your report is ready."))
               "m" 20) [[]; []])
       (with_inbound [telegram_announcement] empty_world)
     = Some [outbound_message "telegram" "42" "Your report is ready."].
Proof. repeat split; vm_compute; reflexivity. Qed.

(** For a message of an ordinary channel the error message goes where the
    reply goes. *)
Example error_reply_ordinary :
  outbound_after (run (AgentLoop_init failing_provider "m" 20) [[]; []])
    (with_inbound [ask "2+2?"] empty_world)
  = Some [outbound_message "cli" "direct" "抱歉，发生了错误: boom"]
  /\ reply_route (ask "2+2?") = ("cli", "direct").
Proof. split; vm_compute; reflexivity. Qed.

(** *** Subagents *)

Lemma subagent_failure_is_announced_witness :
  let m := announcement "report" "write the report" ("错误: " +:+ "boom")
             ("telegram", "42") "error" in
  _run_subagent failing_manager "0a1b2c3d" "write the report" "report"
    ("telegram", "42") empty_world
  = Some (Ok tt, announced m (set_model_calls 1 empty_world))
  /\ inbound (bus (outside (announced m (set_model_calls 1 empty_world))))
     = inbound (bus (outside (set_model_calls 1 empty_world))) ++ [m]
  /\ in_channel m = "system"
  /\ in_content m
     = announce_content "report" "write the report" ("错误: " +:+ "boom") "error".
Proof.
  apply (proj2 (proj2 (subagent_failure_is_announced failing_manager
                         report_task empty_world)) "boom"
           (set_model_calls 1 empty_world)).
  vm_compute. reflexivity.
Defined.

Lemma subagent_is_restricted_witness :
  (External ExecTool <> MessageTool /\ External ExecTool <> SpawnTool)
  /\ (registry_of (take 6 subagent_tools) !! "message" = None
      /\ registry_of (take 6 subagent_tools) !! "spawn" = None)
  /\ @_run_subagent unit tracing_tools plain_json spawning_manager
       (task_id report_task) (task report_task) (label report_task)
       (origin_channel report_task, origin_chat_id report_task) empty_world
     = @_run_subagent unit echo_tools plain_json spawning_manager
         (task_id report_task) (task report_task) (label report_task)
         (origin_channel report_task, origin_chat_id report_task) empty_world
  /\ @_run_subagent unit echo_tools plain_json picky_manager
       (task_id report_task) (task report_task) (label report_task)
       (origin_channel report_task, origin_chat_id report_task) empty_world
     = @_run_subagent unit echo_tools plain_json spawning_manager
         (task_id report_task) (task report_task) (label report_task)
         (origin_channel report_task, origin_chat_id report_task) empty_world.
Proof.
  split; [| split; [| split]].
  - apply (proj1 (@subagent_is_restricted unit echo_tools plain_json)
             6 "exec" (External ExecTool)).
    vm_compute. reflexivity.
  - apply (proj1 (proj2 (@subagent_is_restricted unit echo_tools plain_json))).
    intros e. destruct e; split; discriminate.
  - apply (proj1 (proj2 (proj2 (proj2
             (@subagent_is_restricted unit echo_tools plain_json))))
             tracing_tools).
    + intros e. reflexivity.
    + intros e. reflexivity.
    + intros e args o. reflexivity.
    + intros name. reflexivity.
  - apply (proj2 (proj2 (proj2 (proj2
             (@subagent_is_restricted unit echo_tools plain_json))))
             spawning_manager picky_manager).
    + reflexivity.
    + reflexivity.
    + intros i ms m. vm_compute. reflexivity.
Defined.

(** With the tools that leave a trace, a task whose model asks for the spawn
    tool and for the message tool is told that there are no such tools: no
    trace is left, and three model calls were made. *)
Example subagent_cannot_spawn_or_message :
  exists w',
    @_run_subagent unit tracing_tools plain_json spawning_manager
      (task_id report_task) (task report_task) (label report_task)
      (origin_channel report_task, origin_chat_id report_task) empty_world
    = Some (Ok tt, w')
    /\ model_calls w' = 3%nat
    /\ uuid_calls (outside w') = uuid_calls (outside empty_world)
    /\ message_context (outside w') = message_context (outside empty_world)
    /\ @execute unit tracing_tools
         (@registry_of unit tracing_tools subagent_tools) "spawn" (JStr "again")
         empty_world
       = Some (Ok "Error: Tool 'spawn' not found", empty_world).
Proof. eexists. split; [vm_compute; reflexivity |]. by repeat split. Qed.

(** *** Task ids *)

Lemma spawn_ids_distinct_witness :
  size (running_tasks (spawn_all two_requests (outside empty_world)))
  = (size (running_tasks (outside empty_world)) + length two_requests)%nat
  /\ (forall i r, two_requests !! i = Some r ->
        exists t,
          running_tasks (spawn_all two_requests (outside empty_world))
            !! py_take 8 (uuid4_str (uuid_calls (outside empty_world) + i))
          = Some t
          /\ task_id t
             = py_take 8 (uuid4_str (uuid_calls (outside empty_world) + i))
          /\ task t = req_task r).
Proof.
  apply (spawn_ids_distinct two_requests (outside empty_world)).
  - compute_done.
  - intros id _. apply lookup_empty.
Defined.

(** C9, as stated, fails: two draws that agree on their first 8 characters
    give two tasks, spawned one after the other and neither finished, the same
    id, and the second entry of the active-task map replaces the first. *)
Lemma spawn_ids_collide :
  let H := colliding_draws in
  let o0 := outside empty_world in
  let o1 := spawn_one o0 (mkRequest "task a" None "cli" "direct") in
  let o2 := spawn_one o1 (mkRequest "task b" None "cli" "direct") in
  uuid4_shape 0 (uuid4_str 0) = true
  /\ uuid4_shape 0 (uuid4_str 1) = true
  /\ uuid4_str 0 <> uuid4_str 1
  /\ allocated_id o0 = "deadbeef"
  /\ allocated_id o1 = "deadbeef"
  /\ ~ NoDup [allocated_id o0; allocated_id o1]
  /\ get_running_count o2 = 1
  /\ task <$> running_tasks o2 !! "deadbeef" = Some "task b".
Proof.
  simpl. repeat split; try (vm_compute; reflexivity).
  - vm_compute. discriminate.
  - intros Hnd. apply NoDup_cons in Hnd as [Hnotin _].
    apply Hnotin. vm_compute. by left.
Qed.

(** *** A failing completion call *)

Lemma chat_never_raises_witness :
  exists w',
    _process_message
      (mkAgent (as_provider id (fun _ => DecodeError) openrouter flaky_backend)
         "m" 20 (registry_of default_tools))
      (ask "2+2?") empty_world
    = Some (Ok (Some (outbound_message (reply_route (ask "2+2?")).1
                        (reply_route (ask "2+2?")).2
                        (failure_text "connection refused"))), w')
    /\ model_calls w' = (model_calls empty_world + 1 + 1)%nat
    /\ sessions w'
       = <[turn_key (ask "2+2?") :=
             default [] (sessions empty_world !! turn_key (ask "2+2?"))
             ++ [mkSessionMessage "user" (turn_user_text (ask "2+2?"));
                 mkSessionMessage "assistant"
                   (failure_text "connection refused")]]>
           (sessions empty_world).
Proof.
  apply (proj2 (chat_never_raises id (fun _ => DecodeError) openrouter)
           flaky_backend "m" 20%Z (registry_of default_tools)
           (ask "2+2?") empty_world "connection refused" 1%nat).
  - vm_compute. lia.
  - intros i ms ds m Hi. destruct i as [|i]; [| lia].
    eexists. split; reflexivity.
  - intros kwargs. reflexivity.
Defined.

(** The same failure at the first model call of a turn. *)
Example first_call_fails :
  exists w',
    _process_message
      (mkAgent (as_provider id (fun _ => DecodeError) openrouter
                  unreachable_backend)
         "m" 20 (registry_of default_tools))
      (ask "2+2?") empty_world
    = Some (Ok (Some (outbound_message "cli" "direct"
                        (failure_text "connection refused"))), w')
    /\ model_calls w' = 1%nat.
Proof. eexists. split; vm_compute; reflexivity. Qed.

(** The model name sent for an OpenRouter key. *)
Example resolve_model_openrouter :
  resolve_model id openrouter None = "openrouter/anthropic/claude-opus-4-5".
Proof. reflexivity. Qed.

End Scenarios.

(** * Further properties *)

(** ** The queues and the dispatcher *)

Module BusMore.
Import Py Events Bus Notions BusProps.

Lemma inbound_apply_ops (ops : list BusOp) (b : MessageBus) :
  inbound (apply_ops ops b) = inbound b ++ inbound_published ops.
Proof.
  unfold apply_ops. revert b.
  induction ops as [|op ops IH]; intros b; simpl; [by rewrite app_nil_r |].
  rewrite IH. destruct op; simpl; try done.
  by rewrite <- app_assoc.
Qed.

Lemma outbound_apply_ops (ops : list BusOp) (b : MessageBus) :
  outbound (apply_ops ops b) = outbound b ++ outbound_published ops.
Proof.
  unfold apply_ops. revert b.
  induction ops as [|op ops IH]; intros b; simpl; [by rewrite app_nil_r |].
  rewrite IH. destruct op; simpl; try done.
  by rewrite <- app_assoc.
Qed.

Lemma running_apply_ops (ops : list BusOp) (b : MessageBus) :
  bus_running (apply_ops ops b) = bus_running b && negb (stop_requested ops).
Proof.
  unfold apply_ops. revert b.
  induction ops as [|op ops IH]; intros b; simpl; [by rewrite andb_true_r |].
  rewrite IH. destruct op; simpl; try done.
  by rewrite andb_false_r.
Qed.

Lemma take_inbound_spec (n : nat) (b : MessageBus) :
  take_inbound n b = (take n (inbound b), set_inbound (drop n (inbound b)) b).
Proof.
  revert b. induction n as [|n IH]; intros b; simpl.
  - by destruct b.
  - unfold consume_inbound. destruct (inbound b) as [|m q] eqn:Hq; simpl.
    + destruct b; simpl in *. by subst.
    + rewrite IH. simpl. by destruct b.
Qed.

Lemma take_outbound_spec (n : nat) (b : MessageBus) :
  take_outbound n b = (take n (outbound b), set_outbound (drop n (outbound b)) b).
Proof.
  revert b. induction n as [|n IH]; intros b; simpl.
  - by destruct b.
  - unfold consume_outbound. destruct (outbound b) as [|m q] eqn:Hq; simpl.
    + destruct b; simpl in *. by subst.
    + rewrite IH. simpl. by destruct b.
Qed.

(** X1.  Each queue is first-in-first-out and is touched only by its own
    operations: after any history of publishes, subscriptions and stops, [n]
    consumptions hand out the first [n] of the messages the queue held
    followed by those published to it, in publication order, and leave the
    rest; the other queue is as the history left it. *)
Theorem queues_are_fifo (ops : list BusOp) (b : MessageBus) (n : nat) :
  (take_inbound n (apply_ops ops b)).1
  = take n (inbound b ++ inbound_published ops)
  /\ inbound (take_inbound n (apply_ops ops b)).2
     = drop n (inbound b ++ inbound_published ops)
  /\ outbound (take_inbound n (apply_ops ops b)).2
     = outbound b ++ outbound_published ops
  /\ (take_outbound n (apply_ops ops b)).1
     = take n (outbound b ++ outbound_published ops)
  /\ outbound (take_outbound n (apply_ops ops b)).2
     = drop n (outbound b ++ outbound_published ops)
  /\ inbound (take_outbound n (apply_ops ops b)).2
     = inbound b ++ inbound_published ops.
Proof.
  rewrite take_inbound_spec, take_outbound_spec; simpl.
  rewrite inbound_apply_ops, outbound_apply_ops. by repeat split.
Qed.

(** X2.  [subscribe_outbound] appends the callback to the list of its channel,
    creating the list when the channel is new, and changes nothing else: the
    lists of the other channels, the two queues and the dispatcher's flag. *)
Theorem subscribe_outbound_effect (channel : string) (cb : Callback)
    (b : MessageBus) :
  subscribers_for channel (subscribe_outbound channel cb b)
  = subscribers_for channel b ++ [cb]
  /\ (forall other, other <> channel ->
        outbound_subscribers (subscribe_outbound channel cb b) !! other
        = outbound_subscribers b !! other)
  /\ inbound (subscribe_outbound channel cb b) = inbound b
  /\ outbound (subscribe_outbound channel cb b) = outbound b
  /\ bus_running (subscribe_outbound channel cb b) = bus_running b.
Proof.
  split; [| split; [| by repeat split]].
  - rewrite subscribers_subscribe. by rewrite String.eqb_refl.
  - intros other Hne. unfold subscribe_outbound; simpl.
    rewrite lookup_alter_ne by done.
    destruct (outbound_subscribers b !! channel); [done |].
    by rewrite lookup_insert_ne.
Qed.

Section Dispatch.
Context {Env : Type}.
Variable invoke : Callback -> OutboundMessage -> Env -> result unit * Env.

Lemma dispatch_once_running (d d' : DState Env) :
  dispatch_once invoke d = Some (Ok tt, d') ->
  bus_running (d_bus d') = bus_running (d_bus d).
Proof.
  rewrite dispatch_once_spec.
  destruct (consume_outbound (d_bus d)) as [[msg b']|] eqn:Hq.
  - intros [= <-]. simpl.
    by destruct (consume_outbound_subscribers _ _ _ (out_channel msg) Hq).
  - by intros [= <-].
Qed.

Lemma dispatch_once_returns (d : DState Env) :
  exists d', dispatch_once invoke d = Some (Ok tt, d').
Proof.
  rewrite dispatch_once_spec.
  destruct (consume_outbound (d_bus d)) as [[msg b']|]; eauto.
Qed.

Lemma dispatch_loop_stopped (schedule : list (list BusOp)) (d : DState Env) :
  bus_running (d_bus d) = false ->
  dispatch_loop invoke schedule d = Some (Ok true, d).
Proof.
  intros Hstop. destruct schedule as [|ops later]; simpl.
  - unfold gets. by rewrite Hstop.
  - unfold bind, gets. by rewrite Hstop.
Qed.

(** X3.  [stop] takes effect at the next test of the loop.  A dispatcher
    whose flag is down at the test leaves at once, taking nothing from the
    queue and calling nothing.  When [stop] is called while the dispatcher
    waits on the queue, that poll still delivers the message it gets, and the
    dispatcher leaves before the next poll. *)
Theorem dispatcher_stops_at_next_poll (d : DState Env) :
  (bus_running (d_bus d) = false ->
   forall schedule, dispatch_loop invoke schedule d = Some (Ok true, d))
  /\ (bus_running (d_bus d) = true ->
      forall ops later,
        stop_requested ops = true ->
        exists d',
          dispatch_once invoke
            (mkDState (apply_ops ops (d_bus d)) (d_env d) (d_calls d))
          = Some (Ok tt, d')
          /\ dispatch_loop invoke (ops :: later) d = Some (Ok true, d')).
Proof.
  split.
  - intros Hstop schedule. by apply dispatch_loop_stopped.
  - intros Hrun ops later Hstop.
    destruct (dispatch_once_returns
                (mkDState (apply_ops ops (d_bus d)) (d_env d) (d_calls d)))
      as [d' Hd'].
    exists d'. split; [exact Hd' |].
    simpl. unfold bind at 1, gets. rewrite Hrun.
    unfold bind at 1, d_apply_ops, modify.
    unfold bind at 1. rewrite Hd'.
    apply dispatch_loop_stopped.
    rewrite (dispatch_once_running _ _ Hd'). simpl.
    rewrite running_apply_ops, Hstop. by rewrite andb_false_r.
Qed.

Lemma deliveries_calls (subs : list Callback) (m : OutboundMessage) (env : Env) :
  map call_of (deliveries invoke subs m env).1 = map (fun cb => (cb, m)) subs.
Proof.
  revert env. induction subs as [|cb subs IHs]; intros env; simpl; [done |].
  destruct (invoke cb m env) as [r0 env1].
  specialize (IHs env1).
  destruct (deliveries invoke subs m env1) as [c2 env2]. simpl in *.
  by rewrite IHs.
Qed.

(** X4.  Outbound messages are dispatched in the order they were published:
    left alone for at least as many polls as it holds messages, the dispatcher
    empties the queue and calls, message by message, the subscribers of the
    message's channel in registration order. *)
Theorem dispatch_in_publication_order (n : nat) (b : MessageBus) (env : Env)
    (calls : list Invocation) :
  bus_running b = true ->
  (length (outbound b) <= n)%nat ->
  exists d',
    dispatch_loop invoke (replicate n []) (mkDState b env calls)
    = Some (Ok false, d')
    /\ map call_of (d_calls d') = map call_of calls ++ calls_due (outbound b) b
    /\ outbound (d_bus d') = []
    /\ inbound (d_bus d') = inbound b
    /\ outbound_subscribers (d_bus d') = outbound_subscribers b.
Proof.
  revert b env calls. induction n as [|n IH]; intros b env calls Hrun Hlen.
  - destruct (outbound b) as [|m q] eqn:Hq; [| simpl in Hlen; lia].
    exists (mkDState b env calls). simpl. unfold gets; simpl. rewrite Hrun.
    split; [done |]. unfold calls_due. rewrite Hq. simpl.
    by rewrite app_nil_r.
  - simpl. unfold bind at 1, gets; simpl. rewrite Hrun.
    unfold bind at 1, d_apply_ops, modify; simpl.
    unfold bind at 1. rewrite dispatch_once_spec; simpl.
    unfold consume_outbound. destruct (outbound b) as [|m q] eqn:Hq.
    + destruct (IH b env calls Hrun ltac:(rewrite Hq; simpl; lia))
        as (d' & Hloop & Hcalls & Hrest).
      exists d'. split; [exact Hloop |]. rewrite Hq in Hcalls.
      split; [exact Hcalls | exact Hrest].
    + simpl.
      set (b1 := set_outbound q b).
      set (r := deliveries invoke (subscribers_for (out_channel m) b1) m env).
      destruct (IH b1 r.2 (calls ++ r.1) Hrun ltac:(simpl in *; lia))
        as (d' & Hloop & Hcalls & Hout & Hin & Hsubs).
      exists d'. split; [exact Hloop |].
      split; [| by repeat split].
      rewrite Hcalls. simpl. rewrite map_app, <- app_assoc. f_equal.
      unfold calls_due; simpl. f_equal.
      subst r. by rewrite deliveries_calls.
Qed.

End Dispatch.

End BusMore.

(** ** Session keys and origins *)

Module OriginMore.
Import Py Events Bus Provider State Tools ToolLoop Subagent Agent Notions.
Import PyProps LoopProps AgentProps CallProps.

Lemma split_once_parts (c : ascii) (s : string) :
  contains_char c s = true ->
  exists a b, split_once c s = [a; b]
              /\ s = a +:+ String c b
              /\ contains_char c a = false.
Proof.
  induction s as [|x s IH]; simpl; [done |].
  destruct (Ascii.eqb_spec x c) as [->|Hne].
  - intros _. by exists EmptyString, s.
  - intros Hc. destruct (IH Hc) as (a & b & -> & -> & Hfree).
    exists (String x a), b. simpl.
    split; [done |]. split; [done |].
    destruct (Ascii.eqb_spec x c); [done | exact Hfree].
Qed.

Lemma contains_char_absent_split (c : ascii) (s : string) :
  contains_char c s = false -> split_once c s = [s].
Proof.
  induction s as [|x s IH]; simpl; [done |].
  destruct (Ascii.eqb x c); [done |]. intros Hc. by rewrite (IH Hc).
Qed.

Lemma parse_encode (channel chat_id : string) :
  contains_char ":" channel = false ->
  parse_origin (encode_origin channel chat_id) = Ok (channel, chat_id).
Proof.
  intros Hfree. unfold encode_origin, parse_origin.
  change (":" +:+ chat_id) with (String ":" chat_id).
  rewrite contains_char_app_sep.
  by rewrite (split_once_app_sep _ _ _ Hfree).
Qed.

(** X5.  Messages of two chats share a session key only when they come from
    the same channel and the same chat, provided the channel names hold no
    [":"]. *)
Theorem session_key_injective (m1 m2 : InboundMessage) :
  contains_char ":" (in_channel m1) = false ->
  contains_char ":" (in_channel m2) = false ->
  session_key m1 = session_key m2 ->
  in_channel m1 = in_channel m2 /\ in_chat_id m1 = in_chat_id m2.
Proof.
  intros H1 H2 Hkey. unfold session_key in Hkey.
  change (":" +:+ in_chat_id m1) with (String ":" (in_chat_id m1)) in Hkey.
  change (":" +:+ in_chat_id m2) with (String ":" (in_chat_id m2)) in Hkey.
  apply (f_equal (split_once ":")) in Hkey.
  rewrite (split_once_app_sep _ _ _ H1), (split_once_app_sep _ _ _ H2) in Hkey.
  by injection Hkey.
Qed.

(** X6.  The origin parsed from a chat id never fails: a chat id with a [":"]
    gives a channel free of [":"] and a chat id that join back to it; one
    without gives the channel ["cli"] and itself as chat id. *)
Theorem parse_origin_decodes (chat_id : string) :
  exists channel id,
    parse_origin chat_id = Ok (channel, id)
    /\ contains_char ":" channel = false
    /\ if contains_char ":" chat_id
       then encode_origin channel id = chat_id
       else channel = "cli" /\ id = chat_id.
Proof.
  unfold parse_origin.
  destruct (contains_char ":" chat_id) eqn:Hc.
  - destruct (split_once_parts _ _ Hc) as (a & b & Hsplit & Heq & Hfree).
    rewrite Hsplit. simpl. exists a, b. by repeat split.
  - exists "cli", chat_id. by repeat split.
Qed.

Section Turn.
Context {Env : Type} `{ToolSet Env} `{JsonLib} `{Entropy}
        `{ContextBuilder} `{SessionView}.

(** X7.  The announcement of a subagent is processed in the session of the
    conversation it was spawned from: for an origin whose channel holds no
    [":"], the turn on the announcement appends its two messages to the
    session with the key [channel:chat_id], the user entry carrying the marker
    of the subagent, and its reply goes to that channel and chat. *)
Theorem announcement_joins_origin_session (self : AgentLoop)
    (channel chat_id label task result status : string)
    (w w' : World Env) (out : option OutboundMessage) :
  contains_char ":" channel = false ->
  _process_message self
    (announcement label task result (channel, chat_id) status) w
  = Some (Ok out, w') ->
  exists content,
    out = Some (outbound_message channel chat_id content)
    /\ sessions w'
       = <[channel +:+ ":" +:+ chat_id :=
             default [] (sessions w !! (channel +:+ ":" +:+ chat_id))
             ++ [mkSessionMessage "user"
                   ("[系统: subagent] "
                    +:+ announce_content label task result status);
                 mkSessionMessage "assistant" content]]>
           (sessions w).
Proof.
  intros Hfree. rewrite _process_message_turn.
  set (msg := announcement label task result (channel, chat_id) status).
  assert (Hroute : reply_route msg = (channel, chat_id)).
  { unfold reply_route, msg, announcement, is_system; simpl.
    by rewrite (parse_encode _ _ Hfree). }
  assert (Hkey : turn_key msg = channel +:+ ":" +:+ chat_id).
  { unfold turn_key. by rewrite Hroute. }
  intros Hturn.
  destruct (turn_spec self (turn_key msg) (reply_route msg).1 (reply_route msg).2
              (in_content msg)
              (if is_system msg then None
               else match in_media msg with
                    | [] => None
                    | _ :: _ => Some (in_media msg)
                    end)
              (turn_user_text msg) (turn_fallback msg) w)
    as (r & w1 & Hspec & _ & _ & Hshape & _).
  rewrite Hturn in Hspec. injection Hspec as <- <-.
  destruct Hshape as (final_content & -> & Hs).
  rewrite Hkey in Hs. rewrite Hroute. simpl.
  exists final_content. split; [done |]. exact Hs.
Qed.

(** X8.  A turn in which a model call raises stores nothing.  When the
    first [k] model calls of a turn answer with tool calls and call [k], still
    within the bound, raises, the turn raises that exception at that call,
    before either message is added to the session: the messages of every
    session are as before the turn; the session of the turn exists afterwards,
    created empty when it was new. *)
Theorem failed_model_call_appends_nothing (self : AgentLoop)
    (msg : InboundMessage) (w : World Env) (e : exn) (k : nat) :
  (k < Z.to_nat (max_iterations self))%nat ->
  (forall i ms ds m,
     (i < k)%nat ->
     exists r, provider self (model_calls w + i)%nat ms ds m = Ok r
               /\ has_tool_calls r = true) ->
  (forall ms ds m, provider self (model_calls w + k)%nat ms ds m = Raise e) ->
  exists w',
    _process_message self msg w = Some (Raise e, w')
    /\ model_calls w' = (model_calls w + k + 1)%nat
    /\ (forall key,
          default [] (sessions w' !! key) = default [] (sessions w !! key))
    /\ is_Some (sessions w' !! turn_key msg).
Proof.
  intros Hlt Hcalls Hfail. rewrite _process_message_turn.
  destruct (turn_calls self (turn_key msg) (reply_route msg).1
              (reply_route msg).2 (in_content msg)
              (if is_system msg then None
               else match in_media msg with
                    | [] => None
                    | _ :: _ => Some (in_media msg)
                    end)
              (turn_user_text msg) (turn_fallback msg) w (Raise e) k)
    as (w' & Hc & Hturn & Hs); [exact Hlt | exact Hcalls | exact Hfail | done |].
  exists w'. split; [exact Hturn |]. split; [exact Hc |].
  rewrite Hs. unfold ensured. split.
  - intros key. destruct (sessions w !! turn_key msg) as [l|] eqn:Hl; [done |].
    destruct (decide (turn_key msg = key)) as [<-|Hne].
    + by rewrite lookup_insert_eq, Hl.
    + by rewrite lookup_insert_ne.
  - destruct (sessions w !! turn_key msg) as [l|] eqn:Hl.
    + by rewrite Hl.
    + by rewrite lookup_insert_eq.
Qed.

Lemma process_direct_spec (self : AgentLoop)
    (content session_key answer : string) (w w' : World Env) :
  process_direct self content session_key w = Some (Ok answer, w') ->
  sessions w'
  = <["cli:direct" :=
        default [] (sessions w !! "cli:direct")
        ++ [mkSessionMessage "user" content;
            mkSessionMessage "assistant" answer]]>
      (sessions w).
Proof.
  unfold process_direct. rewrite _process_message_turn.
  set (msg := mkInbound "cli" "user" "direct" content []).
  destruct (turn_spec self (turn_key msg) (reply_route msg).1 (reply_route msg).2
              (in_content msg)
              (if is_system msg then None
               else match in_media msg with
                    | [] => None
                    | _ :: _ => Some (in_media msg)
                    end)
              (turn_user_text msg) (turn_fallback msg) w)
    as (r & w1 & Hspec & _ & _ & Hshape & _).
  unfold bind. rewrite Hspec.
  destruct r as [out|e]; [| done].
  destruct Hshape as (final_content & -> & Hs).
  intros [= <- <-]. exact Hs.
Qed.

(** X9.  [process_direct] runs its turn as the chat ["direct"] of the channel
    ["cli"] whatever session key it is given: what it returns is the answer of
    the turn, and the two messages of the turn are appended to the session
    ["cli:direct"]. *)
Theorem process_direct_uses_cli_session (self : AgentLoop)
    (content session_key answer : string) (w w' : World Env) :
  process_direct self content session_key w = Some (Ok answer, w') ->
  sessions w'
  = <["cli:direct" :=
        default [] (sessions w !! "cli:direct")
        ++ [mkSessionMessage "user" content;
            mkSessionMessage "assistant" answer]]>
      (sessions w).
Proof. apply process_direct_spec. Qed.

End Turn.

End OriginMore.

(** ** The agent loop *)

Module AgentMore.
Import Py Events Bus Provider State Tools ToolLoop Subagent Agent Notions.
Import PyProps LoopProps AgentProps.
Local Open Scope py_scope.

Section Scripted.
Context {Env : Type} `{ToolSet Env} `{JsonLib}.

Variable responses : nat -> LLMResponse.
Variable model : string.
Variable tools : gmap string Tool.
Variable add_assistant :
  list ChatMessage -> option string -> list ToolCallDict -> list ChatMessage.
Variable add_result :
  list ChatMessage -> string -> string -> string -> list ChatMessage.
Variable max_iterations : Z.

(** The loop on a scripted provider whose next [k] responses carry tool
    calls: it stops at response [k] when that one carries none and the bound
    allows it, and at the bound when [k] responses exhaust it. *)
Lemma while_scripted (k : nat) :
  forall (fuel : nat) (st : LoopState) (w : World Env),
    (remaining max_iterations st <= fuel)%nat ->
    (forall i, (i < k)%nat ->
               has_tool_calls (responses (model_calls w + i)%nat) = true) ->
    ((k < remaining max_iterations st)%nat ->
     has_tool_calls (responses (model_calls w + k)%nat) = false ->
     exists st' w',
       while fuel (cond max_iterations)
         (iterate (scripted responses) model tools add_assistant add_result) st w
       = Some (Ok st', w')
       /\ final st' = content (responses (model_calls w + k)%nat)
       /\ model_calls w' = (model_calls w + k + 1)%nat
       /\ same_private w w')
    /\ (k = remaining max_iterations st ->
        exists st' w',
          while fuel (cond max_iterations)
            (iterate (scripted responses) model tools add_assistant add_result) st w
          = Some (Ok st', w')
          /\ final st' = final st
          /\ model_calls w' = (model_calls w + k)%nat
          /\ same_private w w').
Proof.
  induction k as [|k IH]; intros fuel st w Hfuel Hcalls.
  - split.
    + intros Hpos Hfinal.
      destruct fuel as [|fuel]; [lia |]. simpl.
      rewrite (proj2 (cond_remaining max_iterations st) Hpos).
      destruct (iterate_spec (scripted responses) model tools add_assistant
                  add_result st w) as (w1 & Hpriv & Hc1 & Hstep).
      unfold scripted at 1 in Hstep. rewrite Nat.add_0_r in Hfinal.
      rewrite Hfinal in Hstep.
      rewrite (bind_ok _ _ _ _ _ Hstep). simpl.
      eexists _, w1. split; [reflexivity |]. simpl.
      rewrite Nat.add_0_r. split; [done |]. split; [lia | done].
    + intros Hzero.
      assert (Hc : cond max_iterations st = false).
      { destruct (cond max_iterations st) eqn:Hc; [| done].
        apply cond_remaining in Hc. lia. }
      exists st, w.
      split; [destruct fuel; simpl; by rewrite Hc |].
      split; [done |]. split; [lia | apply same_private_refl].
  - assert (Hfirst : has_tool_calls (responses (model_calls w)) = true).
    { specialize (Hcalls 0%nat ltac:(lia)). by rewrite Nat.add_0_r in Hcalls. }
    assert (Hstep_of : (0 < remaining max_iterations st)%nat ->
      exists fuel' st1 w1,
        fuel = S fuel'
        /\ while fuel (cond max_iterations)
             (iterate (scripted responses) model tools add_assistant add_result)
             st w
           = while fuel' (cond max_iterations)
               (iterate (scripted responses) model tools add_assistant add_result)
               st1 w1
        /\ remaining max_iterations st1
           = (remaining max_iterations st - 1)%nat
        /\ final st1 = final st
        /\ model_calls w1 = S (model_calls w)
        /\ same_private w w1).
    { intros Hpos. destruct fuel as [|fuel']; [lia |].
      destruct (iterate_spec (scripted responses) model tools add_assistant
                  add_result st w) as (w1 & Hpriv & Hc1 & Hstep).
      unfold scripted at 1 in Hstep. rewrite Hfirst in Hstep.
      destruct Hstep as (messages' & Hstep).
      eexists fuel', _, w1. split; [done |]. split.
      - simpl. rewrite (proj2 (cond_remaining max_iterations st) Hpos).
        by rewrite (bind_ok _ _ _ _ _ Hstep).
      - simpl. split; [unfold remaining in *; simpl; lia |].
        split; [done |]. split; [exact Hc1 | exact Hpriv]. }
    split.
    + intros Hlt Hfinal.
      destruct (Hstep_of ltac:(lia))
        as (fuel' & st1 & w1 & -> & Hwhile & Hrem & Hfin & Hc1 & Hpriv).
      destruct (IH fuel' st1 w1 ltac:(lia)) as [Hanswer _].
      { intros i Hi. rewrite Hc1.
        replace (S (model_calls w) + i)%nat with (model_calls w + S i)%nat by lia.
        apply Hcalls. lia. }
      destruct Hanswer as (st' & w' & Hloop & Hf & Hc & Hp); [lia | |].
      { rewrite Hc1.
        by replace (S (model_calls w) + k)%nat
          with (model_calls w + S k)%nat by lia. }
      exists st', w'. rewrite Hwhile. split; [exact Hloop |].
      split; [| split].
      * rewrite Hf, Hc1. f_equal. f_equal. lia.
      * lia.
      * eapply same_private_trans; eassumption.
    + intros Heq.
      destruct (Hstep_of ltac:(lia))
        as (fuel' & st1 & w1 & -> & Hwhile & Hrem & Hfin & Hc1 & Hpriv).
      destruct (IH fuel' st1 w1 ltac:(lia)) as [_ Hbound].
      { intros i Hi. rewrite Hc1.
        replace (S (model_calls w) + i)%nat with (model_calls w + S i)%nat by lia.
        apply Hcalls. lia. }
      destruct Hbound as (st' & w' & Hloop & Hf & Hc & Hp); [lia |].
      exists st', w'. rewrite Hwhile. split; [exact Hloop |].
      split; [congruence |]. split; [lia |].
      eapply same_private_trans; eassumption.
Qed.

End Scripted.

Section Turn.
Context {Env : Type} `{ToolSet Env} `{JsonLib} `{Entropy}
        `{ContextBuilder} `{SessionView}.

(** A turn, given how its loop ends. *)
Lemma turn_from_loop (self : AgentLoop) (key channel chat_id content : string)
    (media : option (list string)) (user_text fallback : string)
    (w : World Env) :
  exists w1 messages,
    model_calls w1 = model_calls w
    /\ forall st w2,
         agent_loop self messages w1 = Some (Ok st, w2) ->
         exists w',
           turn self key channel chat_id content media user_text fallback w
           = Some (Ok (Some (outbound_message channel chat_id
                               (default fallback (final st)))), w')
           /\ model_calls w' = model_calls w2.
Proof.
  unfold turn.
  set (w0 := set_sessions (ensured key (sessions w)) w).
  assert (Hgoc : get_or_create key w = Some (Ok key, w0)).
  { unfold get_or_create, bind, modify, ret, w0, ensured.
    destruct (sessions w !! key); [by destruct w | done]. }
  destruct (update_tool_contexts_returns self channel chat_id w0)
    as (w1 & Hctx & _ & Hc1).
  eexists w1, _. split; [by rewrite Hc1 |].
  intros st w2 Hloop.
  rewrite (bind_ok _ _ _ _ _ Hgoc).
  rewrite (bind_ok _ _ _ _ _ Hctx).
  unfold session_history at 1. unfold bind at 1, gets.
  rewrite (bind_ok _ _ _ _ _ Hloop).
  eexists. split; reflexivity.
Qed.

Lemma turn_scripted (responses : nat -> LLMResponse) (model : string)
    (max_iterations : Z) (tools : gmap string Tool)
    (key channel chat_id content : string) (media : option (list string))
    (user_text fallback : string) (w : World Env) (k : nat) :
  (forall i, (i < k)%nat ->
             has_tool_calls (responses (model_calls w + i)%nat) = true) ->
  ((k < Z.to_nat max_iterations)%nat ->
   has_tool_calls (responses (model_calls w + k)%nat) = false ->
   exists w',
     turn (mkAgent (scripted responses) model max_iterations tools)
       key channel chat_id content media user_text fallback w
     = Some (Ok (Some (outbound_message channel chat_id
                         (default fallback
                            (Provider.content
                               (responses (model_calls w + k)%nat))))), w')
     /\ model_calls w' = (model_calls w + k + 1)%nat)
  /\ (k = Z.to_nat max_iterations ->
      exists w',
        turn (mkAgent (scripted responses) model max_iterations tools)
          key channel chat_id content media user_text fallback w
        = Some (Ok (Some (outbound_message channel chat_id fallback)), w')
        /\ model_calls w' = (model_calls w + k)%nat).
Proof.
  intros Hcalls.
  set (self := mkAgent (scripted responses) model max_iterations tools).
  destruct (turn_from_loop self key channel chat_id content media user_text
              fallback w) as (w1 & messages & Hw1 & Hturn).
  set (st0 := mkLoop 0 None messages).
  assert (Hrem : remaining max_iterations st0 = Z.to_nat max_iterations).
  { unfold remaining, st0; simpl. f_equal. lia. }
  destruct (while_scripted responses model tools add_assistant_message
              add_tool_result max_iterations k (Z.to_nat max_iterations) st0 w1)
    as [Hanswer Hbound].
  { lia. }
  { intros i Hi. rewrite Hw1. by apply Hcalls. }
  rewrite Hrem, Hw1 in Hanswer, Hbound.
  split.
  - intros Hlt Hfinal.
    destruct (Hanswer Hlt Hfinal) as (st' & w2 & Hloop & Hf & Hc & _).
    destruct (Hturn st' w2 Hloop) as (w' & Hres & Hcw).
    exists w'. rewrite Hres, Hf. split; [done | congruence].
  - intros Heq.
    destruct (Hbound Heq) as (st' & w2 & Hloop & Hf & Hc & _).
    destruct (Hturn st' w2 Hloop) as (w' & Hres & Hcw).
    exists w'. rewrite Hres, Hf. split; [done | congruence].
Qed.

(** X10.  The loop stops at the first response without tool calls: when the
    first [k] responses of a turn carry tool calls and the next one, still
    within the bound, carries none, the turn makes exactly [k + 1] model calls
    and replies with the content of that response, or with the fallback text
    when that response has no content. *)
Theorem turn_answers_at_first_final (responses : nat -> LLMResponse)
    (model : string) (max_iterations : Z) (tools : gmap string Tool)
    (msg : InboundMessage) (w : World Env) (k : nat) :
  (k < Z.to_nat max_iterations)%nat ->
  (forall i, (i < k)%nat ->
             has_tool_calls (responses (model_calls w + i)%nat) = true) ->
  has_tool_calls (responses (model_calls w + k)%nat) = false ->
  exists w',
    _process_message (mkAgent (scripted responses) model max_iterations tools)
      msg w
    = Some (Ok (Some (outbound_message (reply_route msg).1 (reply_route msg).2
                        (default (turn_fallback msg)
                           (Provider.content
                              (responses (model_calls w + k)%nat))))), w')
    /\ model_calls w' = (model_calls w + k + 1)%nat.
Proof.
  intros Hlt Hcalls Hfinal. rewrite _process_message_turn.
  by apply (turn_scripted responses model max_iterations tools).
Qed.

(** X11.  When every response carries tool calls, the turn makes exactly
    [max_iterations] model calls (none for a bound that is not positive) and
    replies with the fallback text. *)
Theorem turn_stops_exactly_at_bound (responses : nat -> LLMResponse)
    (model : string) (max_iterations : Z) (tools : gmap string Tool)
    (msg : InboundMessage) (w : World Env) :
  (forall i, (i < Z.to_nat max_iterations)%nat ->
             has_tool_calls (responses (model_calls w + i)%nat) = true) ->
  exists w',
    _process_message (mkAgent (scripted responses) model max_iterations tools)
      msg w
    = Some (Ok (Some (outbound_message (reply_route msg).1 (reply_route msg).2
                        (turn_fallback msg))), w')
    /\ model_calls w' = (model_calls w + Z.to_nat max_iterations)%nat.
Proof.
  intros Hcalls. rewrite _process_message_turn.
  by apply (turn_scripted responses model max_iterations tools _ _ _ _ _ _ _ w
              (Z.to_nat max_iterations) Hcalls).
Qed.

Lemma default_registry_contextual :
  registry_of default_tools !! "message" = Some MessageTool
  /\ registry_of default_tools !! "spawn" = Some SpawnTool.
Proof.
  change (registry_of default_tools)
    with (<["spawn" := SpawnTool]>
            (<["message" := MessageTool]>
               (registry_of (take 7 default_tools)))).
  split.
  - rewrite lookup_insert_ne by done. by rewrite lookup_insert_eq.
  - by rewrite lookup_insert_eq.
Qed.

(** X12.  Whatever names the other tools declare, the registry of an agent
    loop resolves ["message"] and ["spawn"] to the message and spawn tools,
    which are registered last; so the start of a turn points both tools at the
    channel and chat of the turn, and touches nothing else. *)
Theorem turn_sets_tool_contexts (provider : LLMProvider) (model : string)
    (max_iterations : Z) (channel chat_id : string) (w : World Env) :
  update_tool_contexts (AgentLoop_init provider model max_iterations)
    channel chat_id w
  = Some (Ok tt,
          set_outside
            (set_spawn_context (channel, chat_id)
               (set_message_context (channel, chat_id) (outside w))) w).
Proof.
  unfold update_tool_contexts, AgentLoop_init, get. simpl.
  destruct default_registry_contextual as [-> ->].
  reflexivity.
Qed.

Lemma events_stop (events : list AgentEvent) (w : World Env) :
  agent_running (foldl apply_event w events)
  = agent_running w && negb (stop_event events).
Proof.
  revert w. induction events as [|ev events IH]; intros w; simpl.
  - by rewrite andb_true_r.
  - rewrite IH. destruct ev; simpl; [done |]. by rewrite andb_false_r.
Qed.

Lemma run_loop_stopped (self : AgentLoop) (schedule : list (list AgentEvent))
    (w : World Env) :
  agent_running w = false -> run_loop self schedule w = Some (Ok true, w).
Proof.
  intros Hstop. destruct schedule as [|events later]; simpl.
  - unfold gets. by rewrite Hstop.
  - unfold bind, gets. by rewrite Hstop.
Qed.

(** X13.  [stop] takes effect at the next test of [run]'s loop: a loop whose
    flag is down at the test leaves at once and consumes nothing; when [stop]
    is called while the loop waits for a message, that poll still processes
    the message it gets, and the loop leaves before the next poll. *)
Theorem agent_stops_at_next_poll (self : AgentLoop) (w : World Env) :
  (agent_running w = false ->
   forall schedule, run_loop self schedule w = Some (Ok true, w))
  /\ (agent_running w = true ->
      forall events later,
        stop_event events = true ->
        exists w',
          run_once self (foldl apply_event w events) = Some (Ok tt, w')
          /\ run_loop self (events :: later) w = Some (Ok true, w')).
Proof.
  split.
  - intros Hstop schedule. by apply run_loop_stopped.
  - intros Hrun events later Hstop.
    destruct (run_once_returns self (foldl apply_event w events))
      as (w' & Honce & Hflag).
    exists w'. split; [exact Honce |].
    simpl. unfold bind at 1, gets. rewrite Hrun.
    unfold bind at 1, modify. rewrite (bind_ok _ _ _ _ _ Honce).
    apply run_loop_stopped.
    by rewrite Hflag, events_stop, Hrun, Hstop.
Qed.


End Turn.

End AgentMore.

(** ** Subagents and the spawn tool *)

Module SubagentMore.
Import Py Events Bus Provider State Tools ToolLoop Subagent Agent Notions.
Import PyProps LoopProps AgentProps SubagentProps SpawnProps OriginMore AgentMore.
Local Open Scope py_scope.

Lemma py_len_app (a b : string) : py_len (a +:+ b) = (py_len a + py_len b)%nat.
Proof.
  induction a as [|x a IH]; [done |].
  change (String x a +:+ b) with (String x (a +:+ b)).
  simpl py_len. rewrite IH. lia.
Qed.

Lemma py_len_take (n : nat) (s : string) : (py_len (py_take n s) <= n)%nat.
Proof.
  revert n. induction s as [|x s IH]; intros n; simpl; [lia |].
  destruct (is_continuation x) eqn:Hx; simpl.
  - rewrite Hx. apply IH.
  - destruct n as [|n]; simpl; [lia |]. rewrite Hx. specialize (IH n). lia.
Qed.

Lemma py_take_all (n : nat) (s : string) :
  (py_len s <= n)%nat -> py_take n s = s.
Proof.
  revert n. induction s as [|x s IH]; intros n; simpl; [done |].
  destruct (is_continuation x); simpl; intros Hlen.
  - by rewrite IH.
  - destruct n as [|n]; [lia |]. rewrite IH; [done | lia].
Qed.

Lemma append_empty_r (s : string) : s +:+ "" = s.
Proof.
  induction s as [|x s IH]; [done |].
  change (String x s +:+ "") with (String x (s +:+ "")). by rewrite IH.
Qed.

Section Task.
Context {Env : Type} `{ToolSet Env} `{JsonLib} `{Entropy}.



Lemma run_subagent_announces (self : SubagentManager) (t : SubagentTask)
    (w : World Env) :
  exists w1 result status,
    _run_subagent self (task_id t) (task t) (label t)
      (origin_channel t, origin_chat_id t) w
    = Some (Ok tt,
            announced (announcement (label t) (task t) result
                         (origin_channel t, origin_chat_id t) status) w1)
    /\ (status = "ok" \/ status = "error")
    /\ last (inbound (bus (outside
               (announced (announcement (label t) (task t) result
                             (origin_channel t, origin_chat_id t) status) w1))))
       = Some (mkInbound "system" "subagent"
                 (origin_channel t +:+ ":" +:+ origin_chat_id t)
                 (announce_content (label t) (task t) result status) []).
Proof.
  unfold _run_subagent, try_except.
  destruct (subagent_body_spec self (task_id t) (task t) (label t)
              (origin_channel t, origin_chat_id t) w)
    as ([[]|e] & w1 & -> & _ & Hshape).
  - destruct Hshape as (w0 & result & ->).
    exists w0, result, "ok". split; [done |]. split; [by left |].
    simpl. by rewrite last_snoc.
  - exists w1, ("错误: " +:+ e), "error". split; [done |]. split; [by right |].
    simpl. by rewrite last_snoc.
Qed.

(** X16.  Every subagent task ends by publishing one announcement, which is
    then the last message of the inbound queue: it is on the channel
    ["system"], from the sender ["subagent"], carries the task's label and
    text with the status ["ok"] or ["error"], and its chat id is the task's
    origin joined by [":"]. *)
Theorem subagent_always_announces (self : SubagentManager) (t : SubagentTask)
    (w : World Env) :
  exists w1 result status,
    _run_subagent self (task_id t) (task t) (label t)
      (origin_channel t, origin_chat_id t) w
    = Some (Ok tt,
            announced (announcement (label t) (task t) result
                         (origin_channel t, origin_chat_id t) status) w1)
    /\ (status = "ok" \/ status = "error")
    /\ last (inbound (bus (outside
               (announced (announcement (label t) (task t) result
                             (origin_channel t, origin_chat_id t) status) w1))))
       = Some (mkInbound "system" "subagent"
                 (origin_channel t +:+ ":" +:+ origin_chat_id t)
                 (announce_content (label t) (task t) result status) []).
Proof. apply run_subagent_announces. Qed.

(** X17.  On a provider that answers from a script, a subagent reports what
    the first response without tool calls says: when the first [k < 15]
    responses carry tool calls and the next carries none, the task makes
    [k + 1] model calls and announces with status ["ok"] the content of that
    response, or the fallback text when it has no content; when the first 15
    responses all carry tool calls, it makes 15 calls and announces the
    fallback text. *)
Theorem subagent_reports_first_answer (responses : nat -> LLMResponse)
    (workspace model : string) (t : SubagentTask) (w : World Env) (k : nat) :
  (forall i, (i < k)%nat ->
             has_tool_calls (responses (model_calls w + i)%nat) = true) ->
  ((k < 15)%nat ->
   has_tool_calls (responses (model_calls w + k)%nat) = false ->
   exists w1,
     _run_subagent (mkManager (scripted responses) workspace model)
       (task_id t) (task t) (label t) (origin_channel t, origin_chat_id t) w
     = Some (Ok tt,
             announced
               (announcement (label t) (task t)
                  (default "任务已完成，但未生成最终响应。"
                     (content (responses (model_calls w + k)%nat)))
                  (origin_channel t, origin_chat_id t) "ok") w1)
     /\ model_calls w1 = (model_calls w + k + 1)%nat)
  /\ (k = 15%nat ->
      exists w1,
        _run_subagent (mkManager (scripted responses) workspace model)
          (task_id t) (task t) (label t) (origin_channel t, origin_chat_id t) w
        = Some (Ok tt,
                announced
                  (announcement (label t) (task t)
                     "任务已完成，但未生成最终响应。"
                     (origin_channel t, origin_chat_id t) "ok") w1)
        /\ model_calls w1 = (model_calls w + 15)%nat).
Proof.
  intros Hcalls.
  set (self := mkManager (scripted responses) workspace model).
  set (messages := [RoleContent "system" (_build_subagent_prompt self (task t));
                    RoleContent "user" (task t)]).
  set (st0 := mkLoop 0 None messages).
  destruct (while_scripted responses model (registry_of subagent_tools)
              append_assistant append_result subagent_max_iterations k
              (Z.to_nat subagent_max_iterations) st0 w)
    as [Hanswer Hbound]; [by (unfold remaining, st0; simpl; lia) | exact Hcalls |].
  assert (Hrem : remaining subagent_max_iterations st0 = 15%nat) by reflexivity.
  rewrite Hrem in Hanswer, Hbound.
  split.
  - intros Hlt Hfinal.
    destruct (Hanswer Hlt Hfinal) as (st' & w1 & Hloop & Hf & Hc & _).
    exists w1. split; [| exact Hc].
    unfold _run_subagent, subagent_body.
    change (tool_loop (sa_provider self) (sa_model self)
              (registry_of subagent_tools) append_assistant append_result
              (Z.to_nat subagent_max_iterations) subagent_max_iterations
              messages w = Some (Ok st', w1)) in Hloop.
    unfold try_except. rewrite (bind_ok _ _ _ _ _ Hloop). by rewrite Hf.
  - intros Heq.
    destruct (Hbound Heq) as (st' & w1 & Hloop & Hf & Hc & _).
    exists w1. split; [| by rewrite Hc, Heq].
    unfold _run_subagent, subagent_body.
    change (tool_loop (sa_provider self) (sa_model self)
              (registry_of subagent_tools) append_assistant append_result
              (Z.to_nat subagent_max_iterations) subagent_max_iterations
              messages w = Some (Ok st', w1)) in Hloop.
    unfold try_except. rewrite (bind_ok _ _ _ _ _ Hloop). by rewrite Hf.
Qed.

(** X18.  When a task has run to its end, with either outcome, the
    active-task map holds nothing under its id. *)
Theorem finished_task_leaves_map (self : SubagentManager) (t : SubagentTask)
    (w : World Env) :
  exists w',
    run_task self t w = Some (Ok tt, w')
    /\ running_tasks (outside w') !! task_id t = None.
Proof.
  destruct (run_subagent_announces self t w)
    as (w1 & result & status & Hrun & _).
  unfold run_task. rewrite (bind_ok _ _ _ _ _ Hrun).
  eexists. split; [reflexivity |]. simpl. apply lookup_delete_eq.
Qed.

(** X19.  Spawning a task under an id that is not active adds one entry to
    the active-task map, and the done callback of that task puts the map back
    as it was. *)
Theorem spawn_then_done_restores (o : Outside Env) (r : SpawnRequest) :
  running_tasks o !! allocated_id o = None ->
  get_running_count (spawn_one o r) = S (get_running_count o)
  /\ running_tasks (task_done (allocated_id o) (spawn_one o r))
     = running_tasks o.
Proof.
  intros Hfresh. destruct (spawn_one_tasks o r) as (t & Htasks & _).
  unfold get_running_count. split.
  - rewrite Htasks. by rewrite map_size_insert_None.
  - unfold task_done. cbn [running_tasks set_running_tasks].
    rewrite Htasks. by rewrite delete_insert_eq, delete_id.
Qed.

(** X20.  The label [spawn] records for a task is the label it was given
    when that is not empty; otherwise it is made from the task text: the text
    itself when it has at most 30 characters, and else its first 30 characters
    followed by ["..."], 33 characters in all at most. *)
Theorem spawn_records_short_label (task : string) (given : option string)
    (channel chat_id : string) (o : Outside Env) :
  exists t,
    running_tasks (spawn task given channel chat_id o).2 !! allocated_id o
    = Some t
    /\ label t = display_label given task
    /\ (forall s, given = Some s -> s <> "" -> label t = s)
    /\ (opt_str_or given "" = "" ->
        (py_len (label t) <= 33)%nat
        /\ ((py_len task <= 30)%nat -> label t = task)
        /\ ((30 < py_len task)%nat -> label t = py_take 30 task +:+ "...")).
Proof.
  eexists. split; [unfold spawn, allocated_id; simpl; by rewrite lookup_insert_eq |].
  simpl. split; [done |]. split.
  - intros s -> Hs. unfold opt_str_or, str_or. by destruct s.
  - intros Hempty.
    assert (Hlabel : opt_str_or given
                       (py_take 30 task
                        +:+ (if (30 <? py_len task)%nat then "..." else ""))
                     = py_take 30 task
                       +:+ (if (30 <? py_len task)%nat then "..." else "")).
    { destruct given as [[|x s]|]; simpl in *; done. }
    rewrite Hlabel. split; [| split].
    + rewrite py_len_app. pose proof (py_len_take 30 task).
      destruct (30 <? py_len task)%nat; simpl; lia.
    + intros Hshort.
      replace (30 <? py_len task)%nat with false
        by (symmetry; apply Nat.ltb_ge; lia).
      by rewrite append_empty_r, py_take_all.
    + intros Hlong.
      by replace (30 <? py_len task)%nat with true
        by (symmetry; apply Nat.ltb_lt; lia).
Qed.

(** X21.  A task started by the spawn tool reports back to the chat the tool
    was last pointed at: the task records the channel and chat id of the
    latest [set_context], and, the channel holding no [":"], the turn on its
    announcement routes the reply there. *)
Theorem spawned_task_reports_to_context (channel chat_id earlier_channel
    earlier_chat_id task : string) (given : option string) (o : Outside Env) :
  contains_char ":" channel = false ->
  exists t,
    running_tasks
      (SpawnTool_execute task given
         (SpawnTool_set_context channel chat_id
            (SpawnTool_set_context earlier_channel earlier_chat_id o))).2
    !! allocated_id o = Some t
    /\ State.task t = task
    /\ (origin_channel t, origin_chat_id t) = (channel, chat_id)
    /\ forall result status,
         reply_route (announcement (label t) (State.task t) result
                        (origin_channel t, origin_chat_id t) status)
         = (channel, chat_id).
Proof.
  intros Hfree. eexists. split.
  - unfold SpawnTool_execute, SpawnTool_set_context, spawn, allocated_id.
    simpl. by rewrite lookup_insert_eq.
  - simpl. split; [done |]. split; [done |].
    intros result status. unfold reply_route, is_system, announcement. simpl.
    by rewrite (parse_encode _ _ Hfree).
Qed.

End Task.

End SubagentMore.

(** ** The LiteLLM provider *)

Module ProviderMore.
Import Py Events Bus Provider State Tools ToolLoop Subagent Agent Notions.

Lemma append_assoc3 (a b c : string) : (a +:+ b) +:+ c = a +:+ (b +:+ c).
Proof.
  induction a as [|x a IH]; [done |].
  change ((String x a +:+ b) +:+ c) with (String x ((a +:+ b) +:+ c)).
  by rewrite IH.
Qed.

Lemma prepend_if (c : bool) (pre m base : string) :
  (exists p, m = p +:+ base) ->
  exists p, (if c then pre +:+ m else m) = p +:+ base.
Proof.
  intros [p ->]. destruct c; [| by exists p].
  exists (pre +:+ p). by rewrite append_assoc3.
Qed.

Section Chat.
Variable lower : string -> string.
Variable json_loads : string -> LoadsOutcome.

(** The loop over the tool calls: it raises what the first failing
    [json.loads] raises, and otherwise keeps the calls in order, with their ids
    and names and the arguments [parse_arguments] reads. *)
Lemma parse_tool_calls_spec (tcs : list RawToolCall) :
  match first_load_error json_loads tcs with
  | Some e => parse_tool_calls json_loads tcs = Raise e
  | None =>
      exists calls,
        parse_tool_calls json_loads tcs = Ok calls
        /\ map tc_id calls = map raw_id tcs
        /\ map tc_name calls = map raw_fn_name tcs
        /\ Forall2 (fun call tc =>
                      parse_arguments json_loads (raw_fn_arguments tc)
                      = Ok (tc_arguments call)) calls tcs
  end.
Proof.
  induction tcs as [|tc tcs IH]; [exists []; by repeat split |].
  assert (Htail : forall args,
    parse_arguments json_loads (raw_fn_arguments tc) = Ok args ->
    match first_load_error json_loads tcs with
    | Some e =>
        result_bind (parse_tool_calls json_loads tcs)
          (fun rest => Ok (mkToolCall (raw_id tc) (raw_fn_name tc) args :: rest))
        = Raise e
    | None =>
        exists calls,
          result_bind (parse_tool_calls json_loads tcs)
            (fun rest =>
               Ok (mkToolCall (raw_id tc) (raw_fn_name tc) args :: rest))
          = Ok calls
          /\ map tc_id calls = map raw_id (tc :: tcs)
          /\ map tc_name calls = map raw_fn_name (tc :: tcs)
          /\ Forall2 (fun call tc =>
                        parse_arguments json_loads (raw_fn_arguments tc)
                        = Ok (tc_arguments call)) calls (tc :: tcs)
    end).
  { intros args Hparse. destruct (first_load_error json_loads tcs) as [e|].
    - by rewrite IH.
    - destruct IH as (calls & -> & Hids & Hnames & Hall). simpl.
      eexists. split; [reflexivity |]. simpl. rewrite Hids, Hnames.
      split; [done |]. split; [done |]. by constructor. }
  cbn [first_load_error parse_tool_calls].
  destruct (parse_arguments json_loads (raw_fn_arguments tc)) as [args|e]
    eqn:Hparse; cbn [result_bind].
  - specialize (Htail args eq_refl). unfold parse_arguments in Hparse.
    destruct (raw_fn_arguments tc) as [text|v]; [| exact Htail].
    destruct (json_loads text); [exact Htail | exact Htail | discriminate].
  - unfold parse_arguments in Hparse.
    destruct (raw_fn_arguments tc) as [text|v]; [| discriminate].
    destruct (json_loads text); [discriminate | discriminate |].
    by injection Hparse as ->.
Qed.

Lemma first_choice_parsed (raw : RawResponse) :
  match choices raw with
  | [] => _parse_response json_loads raw = Raise "list index out of range"
  | choice :: _ =>
      let calls := default [] (raw_tool_calls (raw_message choice)) in
      match first_load_error json_loads calls with
      | Some e => _parse_response json_loads raw = Raise e
      | None =>
          exists r,
            _parse_response json_loads raw = Ok r
            /\ content r = raw_content (raw_message choice)
            /\ map tc_id (tool_calls r) = map raw_id calls
            /\ map tc_name (tool_calls r) = map raw_fn_name calls
            /\ Forall2 (fun call tc =>
                          parse_arguments json_loads (raw_fn_arguments tc)
                          = Ok (tc_arguments call)) (tool_calls r) calls
            /\ finish_reason r = opt_str_or (raw_finish_reason choice) "stop"
            /\ finish_reason r <> ""
      end
  end.
Proof.
  unfold _parse_response.
  destruct (choices raw) as [|choice rest]; [done |].
  change (index (choice :: rest) 0) with (Ok choice : result RawChoice).
  cbn [result_bind]. cbv beta.
  assert (Hreason : opt_str_or (raw_finish_reason choice) "stop" <> "").
  { by destruct (raw_finish_reason choice) as [[|x s]|]. }
  destruct (raw_tool_calls (raw_message choice)) as [[|tc tcs]|];
    cbv zeta; cbn [default from_option id].
  - cbn [first_load_error result_bind]. eexists. split; [reflexivity |].
    simpl. repeat split; try done; constructor.
  - pose proof (parse_tool_calls_spec (tc :: tcs)) as Hcalls.
    destruct (first_load_error json_loads (tc :: tcs)) as [e|].
    + by rewrite Hcalls.
    + destruct Hcalls as (calls & -> & Hids & Hnames & Hargs).
      cbn [result_bind]. eexists. split; [reflexivity |].
      cbn [content tool_calls finish_reason LLMResponse_init default].
      repeat split; assumption.
  - cbn [first_load_error result_bind]. eexists. split; [reflexivity |].
    simpl. repeat split; try done; constructor.
Qed.

(** What [_parse_response] returns comes from the first choice. *)
Lemma parsed_from_first_choice (raw : RawResponse) (r : LLMResponse) :
  _parse_response json_loads raw = Ok r ->
  exists choice rest,
    choices raw = choice :: rest
    /\ map tc_id (tool_calls r)
       = map raw_id (default [] (raw_tool_calls (raw_message choice))).
Proof.
  intros Hr. pose proof (first_choice_parsed raw) as Hparse.
  destruct (choices raw) as [|choice rest]; [congruence |].
  cbv zeta in Hparse.
  destruct (first_load_error json_loads _) as [e|]; [congruence |].
  destruct Hparse as (r' & Hr' & _ & Hids & _).
  rewrite Hr in Hr'. injection Hr' as <-. by exists choice, rest.
Qed.

(** X22.  [_parse_response] reads the first choice only.  It raises
    [IndexError] on a completion without choices.  It reads the tool calls of
    that choice in order: when [json.loads] raises, on the argument text of one
    of them, something other than [json.JSONDecodeError], [_parse_response]
    raises the first such exception.  Otherwise it returns the content of that
    choice, its tool calls in the same order with their ids and names, the
    arguments of each being the value given, the value [json.loads] reads from
    the text given, or [{"raw": text}] for a text that is not JSON, and a
    finish reason that is never empty (["stop"] when the choice gives none). *)
Theorem parse_response_reads_first_choice (raw : RawResponse) :
  match choices raw with
  | [] => _parse_response json_loads raw = Raise "list index out of range"
  | choice :: _ =>
      let calls := default [] (raw_tool_calls (raw_message choice)) in
      match first_load_error json_loads calls with
      | Some e => _parse_response json_loads raw = Raise e
      | None =>
          exists r,
            _parse_response json_loads raw = Ok r
            /\ content r = raw_content (raw_message choice)
            /\ map tc_id (tool_calls r) = map raw_id calls
            /\ map tc_name (tool_calls r) = map raw_fn_name calls
            /\ Forall2
                 (fun call tc =>
                    tc_arguments call
                    = match raw_fn_arguments tc with
                      | ArgValue v => v
                      | ArgText text =>
                          match json_loads text with
                          | Loaded v => v
                          | _ => JObj [("raw", JStr text)]
                          end
                      end)
                 (tool_calls r) calls
            /\ finish_reason r = opt_str_or (raw_finish_reason choice) "stop"
            /\ finish_reason r <> ""
      end
  end.
Proof.
  pose proof (first_choice_parsed raw) as Hparse.
  destruct (choices raw) as [|choice rest]; [exact Hparse |].
  cbv zeta in *.
  destruct (first_load_error json_loads _) as [e|]; [exact Hparse |].
  destruct Hparse as (r & Hr & Hcontent & Hids & Hnames & Hargs & Hfin & Hne).
  exists r. repeat (split; [assumption |]). split; [| by split].
  eapply Forall2_impl; [exact Hargs |].
  intros call tc. unfold parse_arguments.
  destruct (raw_fn_arguments tc) as [text|v]; [| congruence].
  destruct (json_loads text); congruence.
Qed.

(** X23.  [chat] only ever puts prefixes in front of the model name: the name
    sent is the requested name, or the default model when none or an empty one
    is requested, behind some prefix. *)
Theorem resolve_model_keeps_name (self : LiteLLMProvider)
    (model : option string) :
  exists prefix,
    resolve_model lower self model
    = prefix +:+ opt_str_or model (default_model self).
Proof.
  unfold resolve_model.
  repeat apply prepend_if. by exists "".
Qed.

(** X24.  A provider made with an OpenRouter key is an OpenRouter provider
    and not a vLLM one, whatever base URL it is given.  The name it sends
    starts with ["openrouter/"], added when the requested name does not have
    it, and gets no ["zhipu/"] or ["hosted_vllm/"] prefix; when its lower-case
    form mentions ["gemini"], [chat] still puts ["gemini/"] in front of the
    whole. *)
Theorem openrouter_routing (key : string) (base : option string)
    (default_model : string) (model : option string) :
  startswith key "sk-or-" = true ->
  let self := LiteLLMProvider_init (Some key) base default_model in
  let name := opt_str_or model default_model in
  let routed :=
    if startswith name "openrouter/" then name else "openrouter/" +:+ name in
  is_openrouter self = true
  /\ is_vllm self = false
  /\ resolve_model lower self model
     = if contains "gemini" (lower routed) then "gemini/" +:+ routed else routed.
Proof.
  intros Hkey.
  assert (Hflags :
    (truthy (Some key) && startswith (default "" (Some key)) "sk-or-"
     || truthy base && contains "openrouter" (default "" base)) = true).
  { change (default "" (Some key)) with key. rewrite Hkey.
    destruct key; [done | done]. }
  assert (Hor : is_openrouter (LiteLLMProvider_init (Some key) base default_model)
                = true) by exact Hflags.
  assert (Hv : is_vllm (LiteLLMProvider_init (Some key) base default_model)
               = false).
  { unfold LiteLLMProvider_init. cbn [is_vllm]. rewrite Hflags.
    by rewrite andb_false_r. }
  split; [exact Hor |]. split; [exact Hv |].
  unfold resolve_model. rewrite Hor, Hv.
  change (Provider.default_model
            (LiteLLMProvider_init (Some key) base default_model))
    with default_model.
  generalize (opt_str_or model default_model). intros name.
  cbv zeta.
  destruct (startswith name "openrouter/") eqn:Hn; simpl andb; cbv iota.
  - rewrite Hn. rewrite !orb_true_r, andb_false_r.
    destruct (contains "gemini" (lower name)); [| done].
    assert (Hg : startswith name "gemini/" = false).
    { unfold startswith in *. destruct name as [|x name]; [done |].
      change (String.prefix "openrouter/" (String x name))
        with (if Ascii.ascii_dec "o" x then String.prefix "penrouter/" name
              else false) in Hn.
      change (String.prefix "gemini/" (String x name))
        with (if Ascii.ascii_dec "g" x then String.prefix "emini/" name
              else false).
      destruct (Ascii.ascii_dec "o" x) as [<-|Hx]; [| done].
      by destruct (Ascii.ascii_dec "g" "o"). }
    by rewrite Hg.
  - assert (Hr : startswith ("" +:+ name) "" = true).
    { unfold startswith. simpl. by destruct name. }
    rewrite Hr. simpl negb. rewrite andb_false_r.
    by destruct (contains "gemini" (lower ("openrouter/" +:+ name))).
Qed.

(** X25.  A response of [chat] asks for tools only when the completion call
    succeeded and its first choice carries tool calls, whose ids it keeps in
    order: a failed request never leads to the execution of a tool. *)
Theorem chat_tool_calls_come_from_backend (self : LiteLLMProvider)
    (acompletion : Kwargs -> result RawResponse)
    (messages : list ChatMessage) (tools : option (list Json))
    (model : option string) (max_tokens : Z) (temperature : Q)
    (r : LLMResponse) :
  chat lower json_loads self acompletion messages tools model max_tokens
    temperature = Ok r ->
  has_tool_calls r = true ->
  exists raw choice rest,
    acompletion (build_kwargs lower self messages tools model max_tokens
                   temperature) = Ok raw
    /\ choices raw = choice :: rest
    /\ map tc_id (tool_calls r)
       = map raw_id (default [] (raw_tool_calls (raw_message choice))).
Proof.
  unfold chat, completion.
  destruct (acompletion _) as [raw|e]; simpl.
  - destruct (_parse_response json_loads raw) as [r'|e] eqn:Hparse; simpl.
    + intros [= <-] _.
      destruct (parsed_from_first_choice raw r' Hparse)
        as (choice & rest & Hchoices & Hids).
      by exists raw, choice, rest.
    + by intros [= <-].
  - by intros [= <-].
Qed.

End Chat.

End ProviderMore.

(** ** The gateway's cron callback *)

Module CliMore.
Import Py Events Bus Provider State Tools ToolLoop Subagent Agent Cli Notions.
Import LoopProps AgentProps OriginMore.

Section Gateway.
Context {Env : Type} `{ToolSet Env} `{JsonLib} `{Entropy}
        `{ContextBuilder} `{SessionView}.

(** X26.  A cron job that completes returns the answer of its turn, which
    ran in the session ["cli:direct"] and not in one named after the job.
    When the job is to be delivered and names a recipient, exactly one
    outbound message with the answer is published last, to the recipient on
    the job's channel, or on ["whatsapp"] when the job names no channel;
    otherwise [on_cron_job] publishes nothing. *)
Theorem cron_job_delivers_answer (agent : AgentLoop) (job : CronJob)
    (w w' : World Env) (answer : string) :
  on_cron_job agent job w = Some (Ok answer, w') ->
  exists w1,
    process_direct agent (cron_message (job_payload job))
      ("cron:" +:+ job_id job) w = Some (Ok answer, w1)
    /\ w' = (if cron_deliver (job_payload job)
                && truthy (cron_to (job_payload job))
             then published
                    (outbound_message
                       (opt_str_or (cron_channel (job_payload job)) "whatsapp")
                       (default "" (cron_to (job_payload job))) answer) w1
             else w1)
    /\ sessions w'
       = <["cli:direct" :=
             default [] (sessions w !! "cli:direct")
             ++ [mkSessionMessage "user" (cron_message (job_payload job));
                 mkSessionMessage "assistant" answer]]>
           (sessions w).
Proof.
  unfold on_cron_job. unfold bind at 1.
  destruct (process_direct agent (cron_message (job_payload job))
              ("cron:" +:+ job_id job) w) as [[[text|e] w1]|] eqn:Hdirect;
    [| done | done].
  pose proof (process_direct_spec _ _ _ _ _ _ Hdirect) as Hs.
  assert (Htext : str_or text "" = text) by (by destruct text).
  rewrite Htext.
  destruct (cron_deliver (job_payload job) && truthy (cron_to (job_payload job)));
    intros [= <- <-]; exists w1; by repeat split.
Qed.

End Gateway.

End CliMore.

(** ** The further properties on concrete inputs *)

Module MoreScenarios.
Import Py Events Bus Provider State Tools ToolLoop Subagent Agent Cli Notions.
Import LoopProps AgentProps SubagentProps SpawnProps ProviderProps.
Import BusMore OriginMore AgentMore SubagentMore ProviderMore CliMore.
Import Fixtures MoreFixtures.

Lemma dispatcher_stops_at_next_poll_witness :
  (forall schedule,
     dispatch_loop example_invoke schedule (mkDState new_bus 0 [])
     = Some (Ok true, mkDState new_bus 0 []))
  /\ exists d',
       dispatch_once example_invoke
         (mkDState (apply_ops [OpStop] example_bus) 0 [])
       = Some (Ok tt, d')
       /\ dispatch_loop example_invoke ([OpStop] :: [[]])
            (mkDState example_bus 0 [])
          = Some (Ok true, d').
Proof.
  split.
  - apply (proj1 (dispatcher_stops_at_next_poll example_invoke
                    (mkDState new_bus 0 []))).
    reflexivity.
  - apply (proj2 (dispatcher_stops_at_next_poll example_invoke
                    (mkDState example_bus 0 []))).
    + reflexivity.
    + reflexivity.
Defined.

Lemma dispatch_in_publication_order_witness :
  exists d',
    dispatch_loop example_invoke (replicate 3 []) (mkDState example_bus 0 [])
    = Some (Ok false, d')
    /\ map call_of (d_calls d')
       = map call_of [] ++ calls_due (outbound example_bus) example_bus
    /\ outbound (d_bus d') = []
    /\ inbound (d_bus d') = inbound example_bus
    /\ outbound_subscribers (d_bus d') = outbound_subscribers example_bus.
Proof.
  apply (dispatch_in_publication_order example_invoke 3 example_bus 0 []).
  - reflexivity.
  - vm_compute. lia.
Defined.

(** The calls of that run: the message for ["cli"] first. *)
Example calls_due_example :
  calls_due (outbound example_bus) example_bus
  = [(2, outbound_message "cli" "direct" "4");
     (4, outbound_message "cli" "direct" "4");
     (1, outbound_message "telegram" "42" "hi");
     (3, outbound_message "telegram" "42" "hi")].
Proof. vm_compute. reflexivity. Qed.

Lemma session_key_injective_witness :
  in_channel (ask "a") = in_channel (ask "b")
  /\ in_chat_id (ask "a") = in_chat_id (ask "b").
Proof.
  apply (session_key_injective (ask "a") (ask "b")); reflexivity.
Defined.

Lemma announcement_joins_origin_session_witness :
  exists content,
    value_after None (_process_message answering_agent telegram_announcement
                        empty_world)
    = Some (outbound_message "telegram" "42" content)
    /\ sessions (world_after (_process_message answering_agent
                                telegram_announcement empty_world))
       = <["telegram" +:+ ":" +:+ "42" :=
             default [] (sessions empty_world !! ("telegram" +:+ ":" +:+ "42"))
             ++ [mkSessionMessage "user"
                   ("[系统: subagent] "
                    +:+ announce_content "report" "write the report"
                          "the report is ready" "ok");
                 mkSessionMessage "assistant" content]]>
           (sessions empty_world).
Proof.
  apply (announcement_joins_origin_session answering_agent "telegram" "42"
           "report" "write the report" "the report is ready" "ok" empty_world).
  - reflexivity.
  - vm_compute. reflexivity.
Defined.

Lemma failed_model_call_appends_nothing_witness :
  exists w',
    _process_message failing_agent (ask "2+2?") empty_world
    = Some (Raise "boom", w')
    /\ model_calls w' = (model_calls empty_world + 0 + 1)%nat
    /\ (forall key,
          default [] (sessions w' !! key)
          = default [] (sessions empty_world !! key))
    /\ is_Some (sessions w' !! turn_key (ask "2+2?")).
Proof.
  apply (failed_model_call_appends_nothing failing_agent (ask "2+2?")
           empty_world "boom" 0%nat).
  - vm_compute. lia.
  - intros i ms ds m Hi. lia.
  - intros ms ds m. reflexivity.
Defined.

Lemma process_direct_uses_cli_session_witness :
  sessions answered_world
  = <["cli:direct" :=
        default [] (sessions empty_world !! "cli:direct")
        ++ [mkSessionMessage "user" "2+2?";
            mkSessionMessage "assistant" "4"]]>
      (sessions empty_world).
Proof.
  apply (process_direct_uses_cli_session answering_agent "2+2?" "cron:job1" "4"
           empty_world answered_world).
  vm_compute. reflexivity.
Defined.

Lemma turn_answers_at_first_final_witness :
  exists w',
    _process_message
      (mkAgent (scripted one_tool_then_done) "m" 20 (registry_of default_tools))
      (ask "run it") empty_world
    = Some (Ok (Some (outbound_message (reply_route (ask "run it")).1
                        (reply_route (ask "run it")).2
                        (default (turn_fallback (ask "run it"))
                           (content (one_tool_then_done
                                       (model_calls empty_world + 1)))))), w')
    /\ model_calls w' = (model_calls empty_world + 1 + 1)%nat.
Proof.
  apply (turn_answers_at_first_final one_tool_then_done "m" 20
           (registry_of default_tools) (ask "run it") empty_world 1).
  - vm_compute. lia.
  - intros i Hi. destruct i as [|i]; [reflexivity | lia].
  - reflexivity.
Defined.

Lemma turn_stops_exactly_at_bound_witness :
  exists w',
    _process_message
      (mkAgent (scripted always_tools) "m" 20 (registry_of default_tools))
      (ask "loop") empty_world
    = Some (Ok (Some (outbound_message (reply_route (ask "loop")).1
                        (reply_route (ask "loop")).2
                        (turn_fallback (ask "loop")))), w')
    /\ model_calls w' = (model_calls empty_world + Z.to_nat 20)%nat.
Proof.
  apply (turn_stops_exactly_at_bound always_tools "m" 20
           (registry_of default_tools) (ask "loop") empty_world).
  intros i Hi. reflexivity.
Defined.

Lemma agent_stops_at_next_poll_witness :
  (forall schedule,
     run_loop answering_agent schedule empty_world = Some (Ok true, empty_world))
  /\ exists w',
       run_once answering_agent (foldl apply_event asked_world [StopRequested])
       = Some (Ok tt, w')
       /\ run_loop answering_agent ([StopRequested] :: [[]]) asked_world
          = Some (Ok true, w').
Proof.
  split.
  - apply (proj1 (agent_stops_at_next_poll answering_agent empty_world)).
    reflexivity.
  - apply (proj2 (agent_stops_at_next_poll answering_agent asked_world)).
    + reflexivity.
    + reflexivity.
Defined.



Lemma subagent_reports_first_answer_witness :
  (exists w1,
     _run_subagent (mkManager (scripted (fun _ => answer "done")) "/workspace" "m")
       (task_id report_task) (task report_task) (label report_task)
       (origin_channel report_task, origin_chat_id report_task) empty_world
     = Some (Ok tt,
             announced
               (announcement (label report_task) (task report_task)
                  (default "任务已完成，但未生成最终响应。"
                     (content (answer "done")))
                  (origin_channel report_task, origin_chat_id report_task) "ok")
               w1)
     /\ model_calls w1 = (model_calls empty_world + 0 + 1)%nat)
  /\ (exists w1,
        _run_subagent (mkManager (scripted always_tools) "/workspace" "m")
          (task_id report_task) (task report_task) (label report_task)
          (origin_channel report_task, origin_chat_id report_task) empty_world
        = Some (Ok tt,
                announced
                  (announcement (label report_task) (task report_task)
                     "任务已完成，但未生成最终响应。"
                     (origin_channel report_task, origin_chat_id report_task)
                     "ok") w1)
        /\ model_calls w1 = (model_calls empty_world + 15)%nat).
Proof.
  split.
  - apply (proj1 (subagent_reports_first_answer (fun _ => answer "done")
                    "/workspace" "m" report_task empty_world 0
                    ltac:(intros i Hi; lia))).
    + lia.
    + reflexivity.
  - apply (proj2 (subagent_reports_first_answer always_tools
                    "/workspace" "m" report_task empty_world 15
                    ltac:(intros i Hi; reflexivity))).
    reflexivity.
Defined.

Lemma spawn_then_done_restores_witness :
  get_running_count
    (spawn_one (outside empty_world) (mkRequest "task a" None "cli" "direct"))
  = S (get_running_count (outside empty_world))
  /\ running_tasks
       (task_done (allocated_id (outside empty_world))
          (spawn_one (outside empty_world)
             (mkRequest "task a" None "cli" "direct")))
     = running_tasks (outside empty_world).
Proof.
  apply (spawn_then_done_restores (outside empty_world)
           (mkRequest "task a" None "cli" "direct")).
  reflexivity.
Defined.

Lemma spawn_records_short_label_witness :
  (exists t,
     running_tasks
       (spawn "summarise the quarterly sales figures for the board" None
          "cli" "direct" (outside empty_world)).2
     !! allocated_id (outside empty_world) = Some t
     /\ (py_len (label t) <= 33)%nat
     /\ label t = py_take 30
                    "summarise the quarterly sales figures for the board"
                  +:+ "...")
  /\ (exists t,
        running_tasks
          (spawn "2+2?" (Some "sums") "cli" "direct" (outside empty_world)).2
        !! allocated_id (outside empty_world) = Some t
        /\ label t = "sums")
  /\ (exists t,
        running_tasks
          (spawn "2+2?" (Some "") "cli" "direct" (outside empty_world)).2
        !! allocated_id (outside empty_world) = Some t
        /\ label t = "2+2?").
Proof.
  split; [| split].
  - destruct (spawn_records_short_label
                "summarise the quarterly sales figures for the board" None
                "cli" "direct" (outside empty_world))
      as (t & Hl & _ & _ & Hshort).
    exists t. split; [exact Hl |].
    destruct (Hshort ltac:(reflexivity)) as (Hlen & _ & Hlong).
    split; [exact Hlen |]. apply Hlong. vm_compute. lia.
  - destruct (spawn_records_short_label "2+2?" (Some "sums") "cli" "direct"
                (outside empty_world)) as (t & Hl & _ & Hgiven & _).
    exists t. split; [exact Hl |]. by apply Hgiven.
  - destruct (spawn_records_short_label "2+2?" (Some "") "cli" "direct"
                (outside empty_world)) as (t & Hl & _ & _ & Hshort).
    exists t. split; [exact Hl |].
    destruct (Hshort ltac:(reflexivity)) as (_ & Hall & _).
    apply Hall. vm_compute. lia.
Defined.

Lemma spawned_task_reports_to_context_witness :
  exists t,
    running_tasks
      (SpawnTool_execute "write the report" None
         (SpawnTool_set_context "telegram" "42"
            (SpawnTool_set_context "cli" "direct" (outside empty_world)))).2
    !! allocated_id (outside empty_world) = Some t
    /\ task t = "write the report"
    /\ (origin_channel t, origin_chat_id t) = ("telegram", "42")
    /\ forall result status,
         reply_route (announcement (label t) (task t) result
                        (origin_channel t, origin_chat_id t) status)
         = ("telegram", "42").
Proof.
  apply (spawned_task_reports_to_context "telegram" "42" "cli" "direct"
           "write the report" None (outside empty_world)).
  reflexivity.
Defined.

Lemma openrouter_routing_witness :
  is_openrouter (LiteLLMProvider_init (Some "sk-or-v1-key") None "m") = true
  /\ is_vllm (LiteLLMProvider_init (Some "sk-or-v1-key") None "m") = false
  /\ resolve_model id (LiteLLMProvider_init (Some "sk-or-v1-key") None "m")
       (Some "google/gemini-pro")
     = "gemini/openrouter/google/gemini-pro".
Proof.
  apply (openrouter_routing id "sk-or-v1-key" None "m"
           (Some "google/gemini-pro")).
  reflexivity.
Defined.

Lemma chat_tool_calls_come_from_backend_witness :
  exists raw choice rest,
    Ok tool_completion = Ok raw
    /\ choices raw = choice :: rest
    /\ map tc_id
         (tool_calls
            (mkResponse None
               [mkToolCall "call_7" "exec" (JObj [("raw", JStr "not json")])]
               "tool_calls"
               [("prompt_tokens", 10%Z); ("completion_tokens", 5%Z);
                ("total_tokens", 15%Z)]))
       = map raw_id (default [] (raw_tool_calls (raw_message choice))).
Proof.
  apply (chat_tool_calls_come_from_backend id (fun _ => DecodeError) openrouter
           (fun _ => Ok tool_completion) [] None None 4096%Z (7 # 10)%Q).
  - reflexivity.
  - reflexivity.
Defined.

(** When [json.loads] raises something other than [json.JSONDecodeError] on
    the argument text of a tool call, [_parse_response] raises it and [chat]
    answers with the error response, which asks for no tool. *)
Example chat_on_unreadable_arguments :
  _parse_response refusing_loads tool_completion
  = Raise "maximum recursion depth exceeded"
  /\ chat id refusing_loads openrouter (fun _ => Ok tool_completion) [] None
       None 4096%Z (7 # 10)%Q
     = Ok (mkResponse (Some (failure_text "maximum recursion depth exceeded"))
             [] "error" []).
Proof. split; reflexivity. Qed.

Lemma cron_job_delivers_answer_witness :
  exists w1,
    process_direct answering_agent "2+2?" ("cron:" +:+ "job1") empty_world
    = Some (Ok "4", w1)
    /\ world_after (on_cron_job answering_agent morning_job empty_world)
       = published (outbound_message "whatsapp" "491234" "4") w1
    /\ sessions (world_after (on_cron_job answering_agent morning_job empty_world))
       = <["cli:direct" :=
             default [] (sessions empty_world !! "cli:direct")
             ++ [mkSessionMessage "user" "2+2?";
                 mkSessionMessage "assistant" "4"]]>
           (sessions empty_world).
Proof.
  apply (cron_job_delivers_answer answering_agent morning_job empty_world
           (world_after (on_cron_job answering_agent morning_job empty_world))
           "4").
  vm_compute. reflexivity.
Defined.

End MoreScenarios.
